(* ===== verification/_CoqProject ===== *)
-Q . S2P
Prelude.v
Compound.v
Engine.v
Ere.v
Ire.v
Irregular.v
Unicode.v
Writer.v
Json.v
Dataset.v
Run.v
Document.v
Disk.v
Slug.v
