(* ===== verification/Prelude.v ===== *)
(** * Verification of the Italian-verbs dataset generators

    ** The program

    The repository generates a French-to-Italian conjugation dataset.  Three
    independent Python scripts, one per verb class, each hold literal rule
    tables, compute every tense of every verb of their class and write one
    JSON document per verb into [decks/fr-it/], then merge the document
    names into the shared [decks/fr-it/index.json]:
    - [src/Create2ndGroupVerbs.py]: 25 verbs in "-ere", a stem rule
      ([v[:-3]]), ending tables, and overrides for participles, future
      roots and remote-past rows;
    - [src/Create3rdGroupVerbs.py]: 20 verbs in "-ire", with the "-isc-"
      augment for the verbs of the set [ISC];
    - [src/CreateIrregularVerbs.py]: 37 irregular verbs, mostly literal
      rows (present, remote past, subjunctive, imperative), with default
      rules where a row is missing;
    - [src/serve.py]: a static HTTP server for the directory (not modelled).
    Inside a script the data flows from the tables to the tense generators,
    to [compose] (an auxiliary row and a participle give a compound tense),
    to [build_json] (the document), then to the loop that writes the files
    and merges the index.  The scripts share nothing at run time but the
    directory and [index.json].

    ** The development, file by file
    - [Prelude]: the Python values the scripts use: strings as byte
      strings, [s[:-n]] ([drop_last]), [endswith], substring [in]
      ([contains]), dict literals as association lists ([dict_get] is
      [d[k]], [None] standing for [KeyError]; [dict_get_or] is [d.get]),
      [d[k] = v] ([dict_set]); the notation [a ␣ b] for [f"{a} {b}"]
      (scope [py_scope]); the hint databases [pystr] and [pyrw]; the tactics
      [eval_tables] and [inv_bind]; shared lemmas on these operations.
    - [Compound] (module [Compound]): the person lists, the seven auxiliary
      rows and [compose] with its plural heuristic, as written in the 2nd-
      and 3rd-group scripts; the person-indexed agreement rule of the spec
      ([compose_by_slot], [person_plural]) and the exact comparison of the
      two (C2 to C5).
    - [Engine]: the document ([verb_record], one field per JSON entry), the
      interface [Conjugator] (the ten generators a script provides, each
      possibly failing) with its laws [ConjugatorLaws] (six forms per
      personal tense), and [assemble], the document literal of
      [build_json] written once against the interface.  Its theorems hold
      for every script (C1, C6, C28).
    - [Ere], [Ire], [Irregular] (one module each): a script's tables
      (generated from the literals of the source, in their order), its
      generators, its [Conjugator] instance and the proof of the laws, its
      [build_json] and its loop [documents]; the properties of its rules
      (C7 to C10, C12 to C17, C27).  [Irregular] also models the script's own copies of
      the auxiliary rows and of [compose] and proves them equal to those of
      [Compound] (C14), so that [assemble] is instantiated with the shared
      ones.
    - [Writer] (module [Writer]): the deck as a [gmap] from file name to
      document plus the state of [index.json] (missing, unparsable, or a
      parsed JSON value); [merge_index] is [list(dict.fromkeys(old + new))]
      with Python's key equality ([True == 1]) and every exception the merge
      can raise; [write_all] and [run] are a script's module-level code.
      [dict.fromkeys] is studied in the section [FromKeys] over any key
      equivalence (C19 to C23).
    - [Unicode] (module [Unicode]): the UTF-8 codec of
      [open(..., encoding="utf-8")]: [encode] of code points, the strict
      [decode] with Python's rules (no overlong form, no surrogate, nothing
      above U+10FFFF), and their round trips.
    - [Json] (module [Json]): the text [json.dump(x, f, ensure_ascii=False,
      indent=2)] writes ([dump]: the escapes of [ESCAPE_DCT], two spaces per
      level, [", "] and [": "]) and the reader [json.load] ([load]: UTF-8
      decoding, then a recursive-descent parser on fuel, after
      [json.decoder]).  A value read back from its dump is itself, every
      string [load] returns is UTF-8, and the parser never runs out of the
      fuel [load] gives ([parse_value_fuel]).
    - [Dataset] (module [Dataset]): the three scripts' builders as
      arguments of [Writer.run], the runs of the repository in their order
      on any deck, and the settings the three scripts share (C24 to C26).
    - [Run] (module [Run]): the module-level code of a script as a
      small-step machine, one effect per step (a document write, the read
      of [index.json], the merge, the write of [index.json]), its executable
      step function, and the product of two machines on one deck for
      concurrent runs (C29 to C31).
    - [Document] (module [Document]): the dict [build_json] hands to
      [json.dump] as a JSON value and the reader of its fields, which reads
      every document back ([of_json_to_json]).
    - [Slug] (module [Slug]): [ascii_name], the file name of a French
      lemma (NFKD, combining characters dropped, apostrophes removed,
      spaces to underscores, lower case) over code points, with the
      [unicodedata] tables it needs generated for its repertoire (C11,
      C18).
    - [Disk] (module [Disk]): the deck as files of text; a run writes
      [Json.dump] of each document and of [{"files": files}] and reads
      [index.json] with [Json.load]; [abs] reads a disk as [Writer] sees it,
      and [run_text_refines] shows that a run on the texts is [Writer.run]
      on what [abs] reads, whatever [index.json] holds.

    ** What the theorems show
    - Shape (C1, C7, C12, C15, C26): every document has six forms per
      personal tense and one per impersonal tense; no script raises on its
      own tables; every auxiliary the scripts configure is [avere] or
      [essere].
    - Agreement (C2 to C6, C28): with [avere] the participle is
      never changed; with [essere] the heuristic agrees with the person
      rule on the imperfect, remote-past and future rows, but also makes
      slot 0 of the present plural ("io sono partiti") and misses slot 5
      of the conditional ("loro sarebbero partito"); the subjunctive
      compounds never agree.
    - Rules and overrides (C8 to C10, C13, C14, C16, C17, C27): stem and
      ending decomposition, the "-isc-" augment as the spec's slot rule,
      fallbacks and their reachability, and two defects of the irregular
      defaults ("io andvo", "che voi andasste").
    - Index and runs (C19 to C25): the merge keeps the old index as a
      prefix and adds only new names, re-running is idempotent, one new
      verb adds exactly one name to the index and one document to the deck,
      a failing run leaves the index alone; two scripts write [finir.json]
      and, on any deck, the irregular one wins.
    - Effects in order (C29 to C31): until the last step [index.json] is
      as it was.  A run whose documents build and whose index merges
      reaches [Done] with every new name in the index (the machine ends
      within [length verbs + 3] steps and its final configuration is
      [Writer.run]'s outcome: lemmas [exec_terminal_le] and
      [run_reaches_final]).  Two runs
      interleaved so that both read the index before either writes it lose
      25 of the 45 names.
    - File names (C11, C18): [ascii_name] meets the slug rules of spec
      sections 4.5 and 6 on every lemma of its repertoire and is
      idempotent.  It agrees with the literal file names of the second-
      and third-conjugation tables, but not with two of the irregular
      table ([retenir_trattenere], [rester_rimanere]).

    ** Bounds and fuel
    Every function of the scripts is structurally recursive on a string or
    a list (the scripts have no unbounded loop); the theorems on whole
    tables are decided by [vm_compute] on the tables themselves.  Two
    definitions count steps:
    - [Run.exec n] runs the machine [n] steps.  [length verbs + 3] is
      enough: one step per verb, then the read, the merge and the write
      ([Run.measure] decreases at every step).
    - [Json.parse_value] takes fuel, one unit per call of the parser.
      [load] gives [2 * length s + 1].  A call on a value, the elements of
      an array or the members of an object consumes a character before it
      recurses, except the call of an element on its value, which pays
      with the second unit per character.  [Json.parse_total] proves the
      bound, and [Json.json_size_dump] shows that the fuel
      [Json.dump_reads_back] needs, the size of the value, is at most the
      length of its text.

    ** Not modelled
    [serve.py] (pure I/O); [ascii_name] on lemmas with characters beyond
    its repertoire (the model is [None] there); file-system
    errors other than the missing or unreadable index; the [print] calls.
    Strings are byte strings: accented literals are their UTF-8 bytes, and
    every string the scripts slice is ASCII, so byte and code-point
    slicing agree.  Of Python's [json] module, [Json.load] leaves out what
    the deck's files never hold: numbers with a fraction or an exponent,
    [NaN] and [Infinity], u escapes that [int(..., 16)] accepts without
    being four hexadecimal digits, and lone surrogate escapes.  It reports
    them as errors, where Python returns a value.

    ** Plan for later work
    1. An abstract conjugation contract (override precedence over default
       rules, per tense) and a refinement theorem for each script.
    2. The machine of [Run] on the disk of [Disk], so that the
       interleavings of C30 are stated on the files as text. *)

From Stdlib Require Import Ascii.
From stdpp Require Import base list strings sets.

(** ** Python values used by the scripts

    Python [str] values are modelled as [string] (byte strings).  Literals
    written with accented letters ("avrò", "è", "—") are the UTF-8 bytes of
    those letters; every string the scripts slice ([v[:-3]], [pp[:-1]]) is
    an ASCII infinitive or participle, on which bytes and code points agree
    (see [ascii_only]). *)

Declare Scope py_scope.
Delimit Scope py_scope with py.

(** [f"{a} {b}"]: two values joined by one space. *)
Notation "a ␣ b" := (a +:+ " " +:+ b)
  (at level 60, right associativity) : py_scope.
Open Scope py_scope.

(** [s[:-n]]: all but the last [n] characters; [""] when [s] is shorter. *)
Definition drop_last (n : nat) (s : string) : string :=
  String.substring 0 (String.length s - n) s.

(** [s.endswith(suf)]. *)
Definition endswith (suf s : string) : bool :=
  String.eqb (String.substring (String.length s - String.length suf)
                (String.length s) s) suf.

(** [s.endswith((t1, t2, ...))]. *)
Definition endswith_any (sufs : list string) (s : string) : bool :=
  existsb (λ suf, endswith suf s) sufs.

(** [k in s] on strings: [k] occurs as a substring of [s]. *)
Fixpoint contains (k s : string) : bool :=
  String.prefix k s ||
  match s with
  | EmptyString => false
  | String _ s' => contains k s'
  end.

(** [s.lower()] on ASCII letters. *)
Definition ascii_lower (c : ascii) : ascii :=
  let n := Ascii.nat_of_ascii c in
  if (65 <=? n) && (n <=? 90) then Ascii.ascii_of_nat (n + 32) else c.

Fixpoint py_lower (s : string) : string :=
  match s with
  | EmptyString => EmptyString
  | String c s' => String (ascii_lower c) (py_lower s')
  end.

(** [s.replace(c, "")] for a one-character [c]. *)
Fixpoint py_remove (c : ascii) (s : string) : string :=
  match s with
  | EmptyString => EmptyString
  | String c' s' =>
      if Ascii.eqb c c' then py_remove c s' else String c' (py_remove c s')
  end.

(** Every character is below 128: such a string has as many bytes as code
    points, so byte slicing is Python slicing. *)
Fixpoint ascii_only (s : string) : bool :=
  match s with
  | EmptyString => true
  | String c s' => (Ascii.nat_of_ascii c <? 128) && ascii_only s'
  end.

(** ** Dictionaries and sets

    A Python dict literal keyed by strings is an association list in the
    order of the literal.  [d[k]] raises [KeyError] on a missing key: it is
    modelled by [dict_get] returning [None].  Lookup returns the first
    binding; every table of the scripts has distinct keys
    ([dict_keys_nodup]), so first and last binding coincide. *)

Fixpoint dict_get {V} (d : list (string * V)) (k : string) : option V :=
  match d with
  | [] => None
  | (k', v) :: d' => if String.eqb k k' then Some v else dict_get d' k
  end.

(** [d.get(k, default)]. *)
Definition dict_get_or {V} (d : list (string * V)) (k : string) (dflt : V) : V :=
  default dflt (dict_get d k).

(** [d[k] = v]: an existing key keeps its position and takes the new
    value; a new key is appended. *)
Fixpoint dict_set {V} (d : list (string * V)) (k : string) (v : V) : list (string * V) :=
  match d with
  | [] => [(k, v)]
  | (k', v') :: d' =>
      if String.eqb k k' then (k', v) :: d' else (k', v') :: dict_set d' k v
  end.

(** [k in d]. *)
Definition dict_mem {V} (k : string) (d : list (string * V)) : bool :=
  bool_decide (is_Some (dict_get d k)).

(** [k in s] for a Python set (or list) of strings. *)
Definition set_mem (k : string) (s : list string) : bool :=
  existsb (String.eqb k) s.

Definition dict_keys_nodup {V} (d : list (string * V)) : bool :=
  bool_decide (NoDup d.*1).

(** Every row of a table has [n] entries. *)
Definition rows_have_length {V} (n : nat) (d : list (string * list V)) : bool :=
  forallb (λ kv, length kv.2 =? n) d.

(** ** Automation *)

Create HintDb pystr discriminated.
Create Rewrite HintDb pyrw.

Ltac eval_tables := vm_compute; reflexivity.

(** Peel the binds of an option computation [H : m ≫= k = Some x], one
    [destruct m] per bind, without unfolding the lookups in [m]. *)
Ltac inv_bind H :=
  repeat match type of H with
  | mbind _ ?m = Some _ =>
      let E := fresh "E" in
      destruct m eqn:E; cbn [mbind option_bind] in H; [|discriminate H]
  end.

(** ** Generic lemmas on the Python string operations *)

(** stdpp declares [String.append] [simpl never]: its equations are lemmas. *)
Lemma string_app_cons c (s t : string) : String c s +:+ t = String c (s +:+ t).
Proof. reflexivity. Qed.

Lemma string_length_app (s t : string) :
  String.length (s +:+ t) = String.length s + String.length t.
Proof. induction s as [|c s IH]; simpl; auto. Qed.

Lemma substring_app_l (s t : string) :
  String.substring 0 (String.length s) (s +:+ t) = s.
Proof. induction s as [|c s IH]; simpl; [by destruct t|by rewrite IH]. Qed.

Lemma substring_whole (s : string) m :
  String.length s ≤ m → String.substring 0 m s = s.
Proof.
  revert m; induction s as [|c s IH]; intros [|m] Hm; simpl in *;
    [done|done|lia|rewrite IH; [done|lia]].
Qed.

Lemma substring_app_r (s t : string) :
  String.substring (String.length s) (String.length t) (s +:+ t) = t.
Proof.
  induction s as [|c s IH]; simpl; [apply substring_whole; lia|done].
Qed.

Lemma substring_suffix_long (s : string) n m :
  String.length s ≤ n + m →
  String.substring n m s = String.substring n (String.length s - n) s.
Proof.
  revert n m; induction s as [|c s IH]; intros [|n] m Hm.
  - by destruct m.
  - by destruct m.
  - rewrite (substring_whole _ m), (substring_whole _ (_ - 0)); [done|lia|done].
  - simpl in *. apply IH. lia.
Qed.

Lemma drop_last_app (s t : string) :
  drop_last (String.length t) (s +:+ t) = s.
Proof.
  unfold drop_last. rewrite string_length_app.
  replace (String.length s + String.length t - String.length t)
    with (String.length s) by lia.
  apply substring_app_l.
Qed.

Lemma endswith_app (s t : string) : endswith t (s +:+ t) = true.
Proof.
  unfold endswith. rewrite string_length_app.
  replace (String.length s + String.length t - String.length t)
    with (String.length s) by lia.
  rewrite substring_suffix_long; rewrite ?string_length_app; [|lia].
  replace (String.length s + String.length t - String.length s)
    with (String.length t) by lia.
  rewrite substring_app_r. apply String.eqb_refl.
Qed.

Lemma substring_split (s : string) n :
  n ≤ String.length s →
  s = String.substring 0 n s +:+ String.substring n (String.length s - n) s.
Proof.
  revert n; induction s as [|c s IH]; intros [|n] Hn; simpl in *; try lia.
  - done.
  - by rewrite substring_whole.
  - rewrite string_app_cons, <- IH by lia. done.
Qed.

(** A string that ends with [t] is its prefix followed by [t]. *)
Lemma endswith_spec (t s : string) :
  endswith t s = true → s = drop_last (String.length t) s +:+ t.
Proof.
  unfold endswith, drop_last. intros H%String.eqb_eq.
  destruct (decide (String.length t ≤ String.length s)) as [Hle|Hgt].
  - rewrite substring_suffix_long in H by lia.
    pose proof (substring_split s (String.length s - String.length t)) as Hs.
    rewrite H in Hs. apply Hs. lia.
  - replace (String.length s - String.length t) with 0 in H by lia.
    rewrite substring_whole in H by lia. subst. lia.
Qed.

Lemma dict_get_Some_In {V} (d : list (string * V)) k v :
  dict_get d k = Some v → (k, v) ∈ d.
Proof.
  induction d as [|[k' v'] d IH]; simpl; [done|].
  destruct (String.eqb_spec k k') as [->|]; intros H.
  - injection H as ->. left.
  - right. by apply IH.
Qed.

Lemma dict_get_None_notin {V} (d : list (string * V)) k :
  dict_get d k = None ↔ k ∉ d.*1.
Proof.
  induction d as [|[k' v'] d IH]; simpl; [set_solver|].
  destruct (String.eqb_spec k k') as [->|Hne].
  - split; [done|]. intros H. exfalso. apply H. left.
  - rewrite IH. set_solver.
Qed.

Lemma dict_get_or_Some {V} (d : list (string * V)) k dflt v :
  dict_get d k = Some v → dict_get_or d k dflt = v.
Proof. unfold dict_get_or. by intros ->. Qed.

Lemma dict_get_or_None {V} (d : list (string * V)) k dflt :
  dict_get d k = None → dict_get_or d k dflt = dflt.
Proof. unfold dict_get_or. by intros ->. Qed.

Lemma rows_have_length_spec {V} n (d : list (string * list V)) k row :
  rows_have_length n d = true → dict_get d k = Some row → length row = n.
Proof.
  unfold rows_have_length. rewrite forallb_forall. intros Hall Hget.
  apply dict_get_Some_In, list_elem_of_In, Hall in Hget.
  by apply Nat.eqb_eq in Hget.
Qed.

Lemma set_mem_spec k s : set_mem k s = true ↔ k ∈ s.
Proof.
  unfold set_mem. rewrite existsb_exists, list_elem_of_In. split.
  - intros (x & Hx & Heq). apply String.eqb_eq in Heq. by subst.
  - intros H. exists k. split; [done|]. apply String.eqb_refl.
Qed.

#[export] Hint Rewrite string_length_app drop_last_app endswith_app : pyrw.
#[export] Hint Resolve endswith_app dict_get_Some_In : pystr.

Lemma string_app_assoc (s t u : string) : s +:+ (t +:+ u) = (s +:+ t) +:+ u.
Proof. induction s as [|c s IH]; [done|by rewrite !string_app_cons, IH]. Qed.

(** A form [x ␣ y ␣ z] ends with [" " +:+ z]. *)
Lemma endswith_spaced (x y z : string) : endswith (" " +:+ z) (x ␣ y ␣ z) = true.
Proof. by rewrite (string_app_assoc x " "), (string_app_assoc (x +:+ " ") y), endswith_app. Qed.

#[export] Hint Resolve endswith_spaced : pystr.

(** A loop [mapM f l] that succeeds on every element succeeds, and its
    results are related to its inputs pointwise. *)
Lemma mapM_total {A B} (f : A → option B) (P : A → B → Prop) (l : list A) :
  (∀ x, x ∈ l → ∃ y, f x = Some y ∧ P x y) →
  ∃ k, mapM f l = Some k ∧ Forall2 P l k.
Proof.
  induction l as [|x l IH]; intros Hall; simpl.
  - by exists [].
  - destruct (Hall x) as (y & Hy & HP); [left|].
    destruct IH as (k & Hk & HPk); [intros z Hz; apply Hall; by right|].
    exists (y :: k). rewrite Hy, Hk. simpl. split; [done|by constructor].
Qed.
