(* ===== verification/Compound.v ===== *)
(** * Compound tenses: auxiliary paradigms and the participle composer

    The helpers [aux_pres] ... [aux_cong_impf] and [compose] are written out
    identically in [src/Create2ndGroupVerbs.py] (lines 142-161) and
    [src/Create3rdGroupVerbs.py] (lines 118-137); [src/CreateIrregularVerbs.py]
    has the same tables under other names and a rewritten [compose], modelled
    and compared in [Irregular].  This file models the shared version and
    compares it with the person-indexed agreement rule of the spec. *)

From stdpp Require Import base list strings.
From S2P Require Import Prelude.

Module Compound.

(** ** Persons (lines 27-28 of every script) *)

Definition FR_PRONOUNS : list string :=
  ["je"; "tu"; "il/elle"; "nous"; "vous"; "ils/elles"].
Definition IT_PRONOUNS : list string :=
  ["io"; "tu"; "lui/lei"; "noi"; "voi"; "loro"].

(** ** Auxiliary paradigms, selected by the string ["avere"]; any other
    string selects the paradigm of [essere]. *)

Definition aux_pres (it : string) : list string :=
  if String.eqb it "avere" then ["ho"; "hai"; "ha"; "abbiamo"; "avete"; "hanno"]
  else ["sono"; "sei"; "è"; "siamo"; "siete"; "sono"].
Definition aux_impf (it : string) : list string :=
  if String.eqb it "avere" then ["avevo"; "avevi"; "aveva"; "avevamo"; "avevate"; "avevano"]
  else ["ero"; "eri"; "era"; "eravamo"; "eravate"; "erano"].
Definition aux_rem (it : string) : list string :=
  if String.eqb it "avere" then ["ebbi"; "avesti"; "ebbe"; "avemmo"; "aveste"; "ebbero"]
  else ["fui"; "fosti"; "fu"; "fummo"; "foste"; "furono"].
Definition aux_fut (it : string) : list string :=
  if String.eqb it "avere" then ["avrò"; "avrai"; "avrà"; "avremo"; "avrete"; "avranno"]
  else ["sarò"; "sarai"; "sarà"; "saremo"; "sarete"; "saranno"].
Definition aux_cond (it : string) : list string :=
  if String.eqb it "avere" then ["avrei"; "avresti"; "avrebbe"; "avremmo"; "avreste"; "avrebbero"]
  else ["sarei"; "saresti"; "sarebbe"; "saremmo"; "sareste"; "sarebbero"].
Definition aux_cong_pres (it : string) : list string :=
  if String.eqb it "avere" then
    ["che io abbia"; "che tu abbia"; "che lui/lei abbia"; "che noi abbiamo";
     "che voi abbiate"; "che loro abbiano"]
  else
    ["che io sia"; "che tu sia"; "che lui/lei sia"; "che noi siamo";
     "che voi siate"; "che loro siano"].
Definition aux_cong_impf (it : string) : list string :=
  if String.eqb it "avere" then
    ["che io avessi"; "che tu avessi"; "che lui/lei avesse"; "che noi avessimo";
     "che voi aveste"; "che loro avessero"]
  else
    ["che io fossi"; "che tu fossi"; "che lui/lei fosse"; "che noi fossimo";
     "che voi foste"; "che loro fossero"].

(** ** The composer

    With [essere], the participle is put in the plural when the auxiliary
    form "looks plural": it contains one of eight plural forms, or ends in
    "mo", "te" or "no".  The plural replaces a final "o" by "i". *)

Definition PLURAL_MARKERS : list string :=
  ["siamo"; "siete"; "eravamo"; "eravate"; "saremo"; "sarete"; "fummo"; "foste"].

Definition looks_plural (a : string) : bool :=
  existsb (λ k, contains k a) PLURAL_MARKERS || endswith_any ["mo"; "te"; "no"] a.

Definition pluralise (pp : string) : string :=
  if endswith "o" pp then drop_last 1 pp +:+ "i" else pp.

Definition compose_slot (essere : bool) (pp p a : string) : string :=
  if essere then
    if looks_plural a then p ␣ a ␣ pluralise pp else p ␣ a ␣ pp
  else p ␣ a ␣ pp.

Definition compose (aux_forms : list string) (pp : string) (essere : bool) : list string :=
  zip_with (compose_slot essere pp) IT_PRONOUNS aux_forms.

(** ** The agreement rule of the spec: keyed on the person slot

    Slot [i] of a form array is plural when [plural i]; the spec's rule is
    [person_plural] (slots 3, 4, 5). *)

Definition person_plural (i : nat) : bool := 3 <=? i.

Definition compose_by_slot (plural : nat → bool) (aux_forms : list string)
    (pp : string) (essere : bool) : list string :=
  imap (λ i pa, pa.1 ␣ pa.2 ␣ (if essere && plural i then pluralise pp else pp))
    (zip IT_PRONOUNS aux_forms).

(** The plural flags the heuristic computes on an auxiliary row. *)
Definition plural_flags (aux_forms : list string) : list bool :=
  map looks_plural aux_forms.

(** ** Lemmas *)

Lemma compose_slot_by_flag essere pp p a :
  compose_slot essere pp p a =
  p ␣ a ␣ (if essere && looks_plural a then pluralise pp else pp).
Proof. unfold compose_slot. by destruct essere, (looks_plural a). Qed.

(** The heuristic composer is the slot-indexed composer whose plural test
    at slot [i] is the heuristic applied to the auxiliary form of slot [i]. *)
Lemma compose_as_by_slot aux_forms pp essere :
  compose aux_forms pp essere =
  compose_by_slot (λ i, looks_plural (nth i aux_forms "")) aux_forms pp essere.
Proof.
  unfold compose, compose_by_slot.
  generalize IT_PRONOUNS as ps. intros ps.
  revert ps; induction aux_forms as [|a aux IH]; intros [|p ps]; simpl; try done.
  rewrite compose_slot_by_flag. f_equal.
  rewrite IH. apply imap_ext. intros i [x y] _. done.
Qed.

Lemma compose_by_slot_ext (f g : nat → bool) aux_forms pp essere :
  (∀ i, i < length aux_forms → f i = g i) →
  compose_by_slot f aux_forms pp essere = compose_by_slot g aux_forms pp essere.
Proof.
  intros Hfg. unfold compose_by_slot. apply imap_ext. intros i [x y] Hi.
  apply lookup_lt_Some in Hi. rewrite length_zip in Hi.
  rewrite Hfg; [done|lia].
Qed.

Lemma length_compose aux_forms pp essere :
  length (compose aux_forms pp essere) = 6 `min` length aux_forms.
Proof. unfold compose. by rewrite length_zip_with. Qed.

(** The heuristic agrees with a slot rule [f] on a row when their flags
    coincide; the flags of a concrete row are computed by [vm_compute]. *)
Lemma compose_refines_by_slot (f : nat → bool) aux_forms pp essere :
  plural_flags aux_forms = map f (seq 0 (length aux_forms)) →
  compose aux_forms pp essere = compose_by_slot f aux_forms pp essere.
Proof.
  intros Hflags. rewrite compose_as_by_slot. apply compose_by_slot_ext.
  intros i Hi. unfold plural_flags in Hflags.
  rewrite <- (map_nth looks_plural aux_forms "").
  rewrite Hflags, (nth_indep _ _ (f 0)) by (rewrite length_map, length_seq; lia).
  rewrite map_nth, seq_nth by lia. done.
Qed.

Lemma length_zip_pronouns {B C} (f : string → B → C) (l : list B) :
  length l = 6 → length (zip_with f IT_PRONOUNS l) = 6.
Proof. intros Hl. by rewrite length_zip_with, Hl. Qed.

Lemma compose_lookup aux_forms pp essere i p a :
  IT_PRONOUNS !! i = Some p → aux_forms !! i = Some a →
  compose aux_forms pp essere !! i = Some (compose_slot essere pp p a).
Proof. intros Hp Ha. unfold compose. by rewrite lookup_zip_with, Hp, Ha. Qed.

(** ** Properties of the composer *)

(** C2: with [essere], for the imperfect, remote-past and future auxiliary
    rows the heuristic composer is exactly the person-indexed composer of
    the spec: the participle is made plural in slots 3, 4 and 5 only. *)
Theorem compose_essere_by_person pp :
  compose (aux_impf "essere") pp true =
    compose_by_slot person_plural (aux_impf "essere") pp true ∧
  compose (aux_rem "essere") pp true =
    compose_by_slot person_plural (aux_rem "essere") pp true ∧
  compose (aux_fut "essere") pp true =
    compose_by_slot person_plural (aux_fut "essere") pp true.
Proof. split_and!; apply compose_refines_by_slot; eval_tables. Qed.

(** C3: with [essere], for the present auxiliary row the heuristic also
    treats slot 0 as plural, because "sono" (io) ends in "no" like "sono"
    (loro): the passato prossimo of an [essere] verb reads "io sono partiti". *)
Theorem compose_essere_present_io_plural pp :
  compose (aux_pres "essere") pp true =
    compose_by_slot (λ i, (i =? 0) || person_plural i) (aux_pres "essere") pp true.
Proof. apply compose_refines_by_slot. eval_tables. Qed.

(** C4: with [essere], for the conditional auxiliary row the heuristic
    misses slot 5: "sarebbero" is neither a marker nor ends in "mo", "te" or
    "no", so the condizionale passato reads "loro sarebbero partito". *)
Theorem compose_essere_conditional_loro_singular pp :
  compose (aux_cond "essere") pp true =
    compose_by_slot (λ i, (i =? 3) || (i =? 4)) (aux_cond "essere") pp true.
Proof. apply compose_refines_by_slot. eval_tables. Qed.

(** C5: with [avere] no agreement is made: each slot is the pronoun, the
    auxiliary form and the participle unchanged. *)
Theorem compose_avere_unchanged aux_forms pp i p a :
  IT_PRONOUNS !! i = Some p → aux_forms !! i = Some a →
  compose aux_forms pp false !! i = Some (p ␣ a ␣ pp).
Proof. intros Hp Ha. by rewrite (compose_lookup _ _ _ _ p a). Qed.

Lemma compose_avere_unchanged_witness :
  IT_PRONOUNS !! 3 = Some "noi" ∧ aux_pres "avere" !! 3 = Some "abbiamo" ∧
  compose (aux_pres "avere") "scritto" false !! 3 = Some ("noi" ␣ "abbiamo" ␣ "scritto").
Proof.
  split_and!; [reflexivity|reflexivity|].
  apply compose_avere_unchanged; reflexivity.
Defined.

Example compose_partire_present :
  compose (aux_pres "essere") "partito" true =
  ["io sono partiti"; "tu sei partito"; "lui/lei è partito"; "noi siamo partiti";
   "voi siete partiti"; "loro sono partiti"].
Proof. reflexivity. Qed.

End Compound.
