(* ===== verification/Engine.v ===== *)
(** * The record builder and the interface of the tense generators

    The three scripts build the same JSON document (lines 173-216 of
    [src/Create2ndGroupVerbs.py], 149-192 of [src/Create3rdGroupVerbs.py],
    376-419 of [src/CreateIrregularVerbs.py]).  They differ only in the
    generators of the simple tenses they call and in the metadata strings.
    The generators are the interface [Conjugator]; [assemble] is the
    document literal, written once against the interface; each script
    provides an instance.  A generator that may raise [KeyError] returns
    [None]; [assemble] fails when one of them does, as the script does. *)

From stdpp Require Import base list strings.
From S2P Require Import Prelude Compound.

Import Compound.

(** ** The document (the [data] dict of [build_json]) *)

Record verb_record := {
  source_lang : string;
  target_lang : string;
  source_lemma : string;
  target_lemma : string;
  regularity_fr : string;
  regularity_it : string;
  auxiliary_fr : string;
  auxiliary_it : string;
  pronouns_fr : list string;
  pronouns_it : list string;
  ind_presente : list string;
  ind_passato_prossimo : list string;
  ind_imperfetto : list string;
  ind_trapassato_prossimo : list string;
  ind_passato_remoto : list string;
  ind_trapassato_remoto : list string;
  ind_futuro_semplice : list string;
  ind_futuro_anteriore : list string;
  cond_presente : list string;
  cond_passato : list string;
  cong_presente : list string;
  cong_passato : list string;
  cong_imperfetto : list string;
  cong_trapassato : list string;
  imp_presente : list string;
  inf_presente : list string;
  inf_passato : list string;
  part_presente : list string;
  part_passato : list string;
  ger_presente : list string;
  ger_passato : list string
}.

(** ** What a script's generators provide to the builder *)

Class Conjugator := {
  gen_presente : string → option (list string);
  gen_imperfetto : string → option (list string);
  gen_passato_remoto : string → option (list string);
  gen_futuro : string → option (list string);
  gen_condizionale : string → option (list string);
  gen_cong_presente : string → option (list string);
  gen_cong_imperfetto : string → option (list string);
  gen_imperativo : string → option (list string);
  gen_part_presente : string → option string;
  gen_ger_presente : string → option string
}.

(** The laws a script's generators satisfy: every personal tense has six
    forms, one per person of [IT_PRONOUNS]. *)
Definition six_forms (g : string → option (list string)) : Prop :=
  ∀ v fs, g v = Some fs → length fs = 6.

Class ConjugatorLaws `{Conjugator} := {
  presente_six : six_forms gen_presente;
  imperfetto_six : six_forms gen_imperfetto;
  passato_remoto_six : six_forms gen_passato_remoto;
  futuro_six : six_forms gen_futuro;
  condizionale_six : six_forms gen_condizionale;
  cong_presente_six : six_forms gen_cong_presente;
  cong_imperfetto_six : six_forms gen_cong_imperfetto;
  imperativo_six : six_forms gen_imperativo
}.

Section Builder.
Context `{Conjugator}.

(** [build_json]'s dict literal, for verb [v] with French display lemma
    [fr_disp], auxiliary [aux] and past participle [pp]; the regularity
    strings are the script's. *)
Definition assemble (reg_fr reg_it v fr_disp aux pp : string) : option verb_record :=
  let essere := String.eqb aux "essere" in
  pres ← gen_presente v;
  impf ← gen_imperfetto v;
  rem ← gen_passato_remoto v;
  fut ← gen_futuro v;
  cond ← gen_condizionale v;
  cpres ← gen_cong_presente v;
  cimpf ← gen_cong_imperfetto v;
  imp ← gen_imperativo v;
  ppres ← gen_part_presente v;
  ger ← gen_ger_presente v;
  Some {|
    source_lang := "fr"; target_lang := "it";
    source_lemma := fr_disp; target_lemma := v;
    regularity_fr := reg_fr; regularity_it := reg_it;
    auxiliary_fr := if essere then "être" else "avoir"; auxiliary_it := aux;
    pronouns_fr := FR_PRONOUNS; pronouns_it := IT_PRONOUNS;
    ind_presente := pres;
    ind_passato_prossimo := compose (aux_pres aux) pp essere;
    ind_imperfetto := impf;
    ind_trapassato_prossimo := compose (aux_impf aux) pp essere;
    ind_passato_remoto := rem;
    ind_trapassato_remoto := compose (aux_rem aux) pp essere;
    ind_futuro_semplice := fut;
    ind_futuro_anteriore := compose (aux_fut aux) pp essere;
    cond_presente := cond;
    cond_passato := compose (aux_cond aux) pp essere;
    cong_presente := cpres;
    cong_passato := map (λ a, a ␣ pp) (aux_cong_pres aux);
    cong_imperfetto := cimpf;
    cong_trapassato := map (λ a, a ␣ pp) (aux_cong_impf aux);
    imp_presente := imp;
    inf_presente := [v];
    inf_passato := [(if essere then "essere" else "avere") +:+ " " +:+ pp];
    part_presente := [ppres];
    part_passato := [pp];
    ger_presente := [ger];
    ger_passato := [(if essere then "essendo" else "avendo") +:+ " " +:+ pp]
  |}.

End Builder.

(** ** Views of a document *)

Definition personal_tenses (r : verb_record) : list (list string) :=
  [ind_presente r; ind_passato_prossimo r; ind_imperfetto r;
   ind_trapassato_prossimo r; ind_passato_remoto r; ind_trapassato_remoto r;
   ind_futuro_semplice r; ind_futuro_anteriore r; cond_presente r;
   cond_passato r; cong_presente r; cong_passato r; cong_imperfetto r;
   cong_trapassato r; imp_presente r].

Definition impersonal_tenses (r : verb_record) : list (list string) :=
  [inf_presente r; inf_passato r; part_presente r; part_passato r;
   ger_presente r; ger_passato r].

(** The compound tenses that put the participle after an auxiliary. *)
Definition compound_tenses (r : verb_record) : list (list string) :=
  [ind_passato_prossimo r; ind_trapassato_prossimo r; ind_trapassato_remoto r;
   ind_futuro_anteriore r; cond_passato r; cong_passato r; cong_trapassato r].

(** Spec section 8, first property, as a decidable check. *)
Definition record_shape (r : verb_record) : bool :=
  forallb (λ l, length l =? 6) (personal_tenses r) &&
  forallb (λ l, length l =? 1) (impersonal_tenses r).

(** ** Lemmas on the builder *)

Lemma aux_rows_six aux :
  Forall (λ l : list string, length l = 6)
    [aux_pres aux; aux_impf aux; aux_rem aux; aux_fut aux; aux_cond aux;
     aux_cong_pres aux; aux_cong_impf aux].
Proof.
  unfold aux_pres, aux_impf, aux_rem, aux_fut, aux_cond, aux_cong_pres, aux_cong_impf.
  destruct (String.eqb aux "avere"); repeat constructor.
Qed.

Lemma assemble_Some `{Conjugator} reg_fr reg_it v fr_disp aux pp r :
  assemble reg_fr reg_it v fr_disp aux pp = Some r →
  ∃ pres impf rem fut cond cpres cimpf imp ppres ger,
    gen_presente v = Some pres ∧ gen_imperfetto v = Some impf ∧
    gen_passato_remoto v = Some rem ∧ gen_futuro v = Some fut ∧
    gen_condizionale v = Some cond ∧ gen_cong_presente v = Some cpres ∧
    gen_cong_imperfetto v = Some cimpf ∧ gen_imperativo v = Some imp ∧
    gen_part_presente v = Some ppres ∧ gen_ger_presente v = Some ger ∧
    ind_presente r = pres ∧ ind_imperfetto r = impf ∧ ind_passato_remoto r = rem ∧
    ind_futuro_semplice r = fut ∧ cond_presente r = cond ∧
    cong_presente r = cpres ∧ cong_imperfetto r = cimpf ∧ imp_presente r = imp ∧
    compound_tenses r =
      [compose (aux_pres aux) pp (String.eqb aux "essere");
       compose (aux_impf aux) pp (String.eqb aux "essere");
       compose (aux_rem aux) pp (String.eqb aux "essere");
       compose (aux_fut aux) pp (String.eqb aux "essere");
       compose (aux_cond aux) pp (String.eqb aux "essere");
       map (λ a, a ␣ pp) (aux_cong_pres aux);
       map (λ a, a ␣ pp) (aux_cong_impf aux)] ∧
    impersonal_tenses r =
      [[v]; [(if String.eqb aux "essere" then "essere" else "avere") +:+ " " +:+ pp];
       [ppres]; [pp]; [ger];
       [(if String.eqb aux "essere" then "essendo" else "avendo") +:+ " " +:+ pp]].
Proof.
  unfold assemble. intros Hr.
  repeat match goal with
         | Hr : (?m ≫= _) = Some _ |- _ =>
             destruct m eqn:?; simpl in Hr; [|discriminate]
         end.
  injection Hr as <-. eexists _, _, _, _, _, _, _, _, _, _. by split_and!.
Qed.

Lemma map_spaced_endswith (l : list string) pp :
  Forall (λ f, endswith (" " +:+ pp) f = true) (map (λ a, a ␣ pp) l).
Proof. apply Forall_map, Forall_forall. intros a _. apply endswith_app. Qed.

Lemma length_map_spaced (l : list string) pp : length (map (λ a, a ␣ pp) l) = length l.
Proof. apply length_map. Qed.

(** ** Properties of the builder, for every script *)

Section BuilderProperties.
Context `{C : Conjugator} `{!ConjugatorLaws}.

(** C1: every document the builder produces has the shape of spec
    section 8: each of the fifteen personal tenses has six forms and each
    of the six impersonal ones a single form. *)
Theorem assemble_shape reg_fr reg_it v fr_disp aux pp r :
  assemble reg_fr reg_it v fr_disp aux pp = Some r → record_shape r = true.
Proof.
  intros (pres & impf & rem & fut & cond & cpres & cimpf & imp & ppres & ger &
          Hp & Hi & Hr & Hf & Hc & Hcp & Hci & Him & _ & _ &
          E1 & E2 & E3 & E4 & E5 & E6 & E7 & E8 & Hcomp & Himp)%assemble_Some.
  pose proof (aux_rows_six aux) as Haux.
  repeat (apply Forall_cons in Haux as [? Haux]).
  unfold compound_tenses in Hcomp.
  injection Hcomp as F1 F2 F3 F4 F5 F6 F7.
  unfold record_shape, personal_tenses. rewrite Himp.
  rewrite E1, E2, E3, E4, E5, E6, E7, E8, F1, F2, F3, F4, F5, F6, F7. cbn [forallb].
  rewrite (presente_six _ _ Hp), (imperfetto_six _ _ Hi), (passato_remoto_six _ _ Hr),
    (futuro_six _ _ Hf), (condizionale_six _ _ Hc), (cong_presente_six _ _ Hcp),
    (cong_imperfetto_six _ _ Hci), (imperativo_six _ _ Him), !length_compose,
    !length_map_spaced.
  repeat match goal with H : length _ = 6 |- _ => rewrite H; clear H end.
  reflexivity.
Qed.

(** C6: with the auxiliary [avere], every form of every compound tense ends
    with the past participle unchanged, and the auxiliary metadata, the
    infinito passato and the gerundio passato use [avere]. *)
Theorem assemble_avere_participle reg_fr reg_it v fr_disp pp r :
  assemble reg_fr reg_it v fr_disp "avere" pp = Some r →
  Forall (Forall (λ f, endswith (" " +:+ pp) f = true)) (compound_tenses r) ∧
  auxiliary_fr r = "avoir" ∧ auxiliary_it r = "avere" ∧
  inf_passato r = ["avere" ␣ pp] ∧ ger_passato r = ["avendo" ␣ pp].
Proof.
  unfold assemble. intros Hr.
  repeat match goal with
         | Hr : (?m ≫= _) = Some _ |- _ => destruct m; simpl in Hr; [|discriminate]
         end.
  injection Hr as <-. simpl. split_and!; try done.
  repeat constructor; unfold compose_slot; first [apply endswith_spaced | apply endswith_app].
Qed.

(** C28: the congiuntivo passato and trapassato never make the participle
    agree, whatever the auxiliary: with [essere] the plural slots read
    "che noi siamo partito" (spec section 8 asks for the plural). *)
Theorem assemble_congiuntivo_no_agreement reg_fr reg_it v fr_disp aux pp r :
  assemble reg_fr reg_it v fr_disp aux pp = Some r →
  Forall (λ f, endswith (" " +:+ pp) f = true) (cong_passato r) ∧
  Forall (λ f, endswith (" " +:+ pp) f = true) (cong_trapassato r).
Proof.
  intros (? & ? & ? & ? & ? & ? & ? & ? & ? & ? & _ & _ & _ & _ & _ & _ & _ & _ & _ & _ &
          _ & _ & _ & _ & _ & _ & _ & _ & Hcomp & _)%assemble_Some.
  unfold compound_tenses in Hcomp. injection Hcomp as _ _ _ _ _ -> ->.
  split; apply map_spaced_endswith.
Qed.

End BuilderProperties.

Lemma assemble_identity `{Conjugator} reg_fr reg_it v fr_disp aux pp r :
  assemble reg_fr reg_it v fr_disp aux pp = Some r →
  target_lemma r = v ∧ source_lemma r = fr_disp ∧ auxiliary_it r = aux ∧
  part_passato r = [pp].
Proof.
  unfold assemble. intros Hr.
  repeat match goal with
         | Hr : (?m ≫= _) = Some _ |- _ => destruct m; simpl in Hr; [|discriminate]
         end.
  by injection Hr as <-.
Qed.
