(* ===== verification/Ere.v ===== *)
(** * The second-conjugation script: [src/Create2ndGroupVerbs.py]

    Module [Ere] holds the script's tables ([SPEC], [PP], [FUT_STEM],
    [REMOTO]), its stem rule [st] (drop "ere"), one definition per tense
    generator, the instance of the [Conjugator] interface, [build_json]
    (the document and its file name) and [documents], the loop over [SPEC].
    Writing the files and the index is modelled in [Writer]. *)

From stdpp Require Import base list strings.
From S2P Require Import Prelude Compound Engine.

Import Compound.

Module Ere.

(** ** Tables (lines 35-103) *)

Definition SPEC : list (string * (string * string * string)) :=
  [("scrivere", ("écrire", "ecrire", "avere"));
   ("prendere", ("prendre", "prendre", "avere"));
   ("chiedere", ("demander", "demander", "avere"));
   ("chiudere", ("fermer", "fermer", "avere"));
   ("conoscere", ("connaître", "connaitre", "avere"));
   ("correre", ("courir", "courir", "avere"));
   ("decidere", ("décider", "decider", "avere"));
   ("leggere", ("lire", "lire", "avere"));
   ("mettere", ("mettre", "mettre", "avere"));
   ("perdere", ("perdre", "perdre", "avere"));
   ("piangere", ("pleurer", "pleurer", "avere"));
   ("ridere", ("rire", "rire", "avere"));
   ("sorridere", ("sourire", "sourire", "avere"));
   ("vedere", ("voir", "voir", "avere"));
   ("vendere", ("vendre", "vendre", "avere"));
   ("rispondere", ("répondre", "repondre", "avere"));
   ("vincere", ("gagner", "gagner", "avere"));
   ("vivere", ("vivre", "vivre", "avere"));
   ("crescere", ("grandir", "grandir", "essere"));
   ("spendere", ("dépenser", "depenser", "avere"));
   ("ricevere", ("recevoir", "recevoir", "avere"));
   ("dividere", ("diviser", "diviser", "avere"));
   ("offendere", ("offenser", "offenser", "avere"));
   ("temere", ("craindre", "craindre", "avere"));
   ("scendere", ("descendre", "descendre", "essere"))].

Definition PP : list (string * string) :=
  [("scrivere", "scritto");
   ("prendere", "preso");
   ("chiedere", "chiesto");
   ("chiudere", "chiuso");
   ("conoscere", "conosciuto");
   ("correre", "corso");
   ("decidere", "deciso");
   ("leggere", "letto");
   ("mettere", "messo");
   ("perdere", "perso");
   ("piangere", "pianto");
   ("ridere", "riso");
   ("sorridere", "sorriso");
   ("vedere", "visto");
   ("vendere", "venduto");
   ("rispondere", "risposto");
   ("vincere", "vinto");
   ("vivere", "vissuto");
   ("crescere", "cresciuto");
   ("spendere", "speso");
   ("ricevere", "ricevuto");
   ("dividere", "diviso");
   ("offendere", "offeso");
   ("temere", "temuto");
   ("scendere", "sceso")].

Definition FUT_STEM : list (string * string) :=
  [("vedere", "vedr");
   ("vivere", "vivr")].

Definition REMOTO : list (string * list string) :=
  [("scrivere", ["scrissi"; "scrivesti"; "scrisse"; "scrivemmo"; "scriveste"; "scrissero"]);
   ("prendere", ["presi"; "prendesti"; "prese"; "prendemmo"; "prendeste"; "presero"]);
   ("chiedere", ["chiesi"; "chiedesti"; "chiese"; "chiedemmo"; "chiedeste"; "chiesero"]);
   ("chiudere", ["chiusi"; "chiudesti"; "chiuse"; "chiudemmo"; "chiudeste"; "chiusero"]);
   ("conoscere", ["conobbi"; "conoscesti"; "conobbe"; "conoscemmo"; "conosceste"; "conobbero"]);
   ("correre", ["corsi"; "corresti"; "corse"; "corremmo"; "correste"; "corsero"]);
   ("decidere", ["decisi"; "decidesti"; "decise"; "decidemmo"; "decideste"; "decisero"]);
   ("leggere", ["lessi"; "leggesti"; "lesse"; "leggemmo"; "leggeste"; "lessero"]);
   ("mettere", ["misi"; "mettesti"; "mise"; "mettemmo"; "metteste"; "misero"]);
   ("perdere", ["persi"; "perdesti"; "perse"; "perdemmo"; "perdeste"; "persero"]);
   ("piangere", ["piansi"; "piangesti"; "pianse"; "piangemmo"; "piangeste"; "piansero"]);
   ("ridere", ["risi"; "ridesti"; "rise"; "ridemmo"; "rideste"; "risero"]);
   ("sorridere", ["sorrisi"; "sorridesti"; "sorrise"; "sorridemmo"; "sorrideste"; "sorrisero"]);
   ("vedere", ["vidi"; "vedesti"; "vide"; "vedemmo"; "vedeste"; "videro"]);
   ("vendere", ["vendetti"; "vendesti"; "vendette"; "vendemmo"; "vendeste"; "vendettero"]);
   ("rispondere", ["risposi"; "rispondesti"; "rispose"; "rispondemmo"; "rispondeste"; "risposero"]);
   ("vincere", ["vinsi"; "vincesti"; "vinse"; "vincemmo"; "vinceste"; "vinsero"]);
   ("vivere", ["vissi"; "vivesti"; "visse"; "vivemmo"; "viveste"; "vissero"]);
   ("crescere", ["crebbi"; "crescesti"; "crebbe"; py_lower "crescEmmo"; "cresceste"; "crebbero"]);
   ("spendere", ["spesi"; "spendesti"; "spese"; "spendemmo"; "spendeste"; "spesero"]);
   ("ricevere", ["ricevetti"; "ricevesti"; "ricevette"; "ricevemmo"; "riceveste"; "ricevettero"]);
   ("dividere", ["divisi"; "dividesti"; "divise"; "dividemmo"; "divideste"; "divisero"]);
   ("offendere", ["offesi"; "offendesti"; "offese"; "offendemmo"; "offendeste"; "offesero"]);
   ("temere", ["temetti"; "temesti"; "temette"; "tememmo"; "temeste"; "temettero"]);
   ("scendere", ["scesi"; "scendesti"; "scese"; "scendemmo"; "scendeste"; "scesero"])].

(** ** Generators (lines 105-140, 163-166) *)

Definition st (verb_it : string) : string := drop_last 3 verb_it.

Definition indicativo_presente (verb_it : string) : list string :=
  let base := st verb_it in
  zip_with (λ p e, p ␣ base +:+ e) IT_PRONOUNS ["o"; "i"; "e"; "iamo"; "ete"; "ono"].

Definition imperfetto (verb_it : string) : list string :=
  let base := st verb_it in
  zip_with (λ p e, p ␣ base +:+ e) IT_PRONOUNS ["evo"; "evi"; "eva"; "evamo"; "evate"; "evano"].

Definition passato_remoto (verb_it : string) : list string :=
  let forms := dict_get_or REMOTO verb_it
    [st verb_it +:+ "etti"; st verb_it +:+ "esti"; st verb_it +:+ "ette";
     st verb_it +:+ "emmo"; st verb_it +:+ "este"; st verb_it +:+ "ettero"] in
  zip_with (λ p f, p ␣ f) IT_PRONOUNS forms.

Definition futuro_root (verb_it : string) : string :=
  dict_get_or FUT_STEM verb_it (drop_last 1 verb_it).

Definition futuro_semplice (verb_it : string) : list string :=
  let r := futuro_root verb_it in
  zip_with (λ p e, p ␣ r +:+ e) IT_PRONOUNS ["ò"; "ai"; "à"; "emo"; "ete"; "anno"].

Definition condizionale_presente (verb_it : string) : list string :=
  let r := futuro_root verb_it in
  zip_with (λ p e, p ␣ r +:+ e) IT_PRONOUNS ["ei"; "esti"; "ebbe"; "emmo"; "este"; "ebbero"].

Definition congiuntivo_presente (verb_it : string) : list string :=
  let base := st verb_it in
  zip_with (λ p e, "che" ␣ p ␣ base +:+ e) IT_PRONOUNS ["a"; "a"; "a"; "iamo"; "iate"; "ano"].

Definition congiuntivo_imperfetto (verb_it : string) : list string :=
  let base := st verb_it in
  zip_with (λ p e, "che" ␣ p ␣ base +:+ e) IT_PRONOUNS
    ["essi"; "essi"; "esse"; "essimo"; "este"; "essero"].

Definition imperativo (verb_it : string) : list string :=
  let base := st verb_it in
  ["—"; base +:+ "i"; base +:+ "a"; base +:+ "iamo"; base +:+ "ete"; base +:+ "ano"].

(** The impersonal forms written inline in [build_json] (lines 209, 213). *)
Definition participio_presente (verb_it : string) : string := st verb_it +:+ "ente".
Definition gerundio_presente (verb_it : string) : string := st verb_it +:+ "endo".

#[export] Instance ere_conjugator : Conjugator := {|
  gen_presente v := Some (indicativo_presente v);
  gen_imperfetto v := Some (imperfetto v);
  gen_passato_remoto v := Some (passato_remoto v);
  gen_futuro v := Some (futuro_semplice v);
  gen_condizionale v := Some (condizionale_presente v);
  gen_cong_presente v := Some (congiuntivo_presente v);
  gen_cong_imperfetto v := Some (congiuntivo_imperfetto v);
  gen_imperativo v := Some (imperativo v);
  gen_part_presente v := Some (participio_presente v);
  gen_ger_presente v := Some (gerundio_presente v)
|}.

(** ** The document of one verb (lines 168-221) and the loop (224-226)

    [PP[verb_it]] raises [KeyError] for a verb without a participle. *)

Definition build_json (verb_it fr_disp fr_ascii aux_it : string)
    : option (string * verb_record) :=
  pp ← dict_get PP verb_it;
  r ← assemble "2e groupe (-ere) avec irrégularités" "seconda coniugazione (-ere)"
        verb_it fr_disp aux_it pp;
  Some (fr_ascii +:+ ".json", r).

Definition documents : option (list (string * verb_record)) :=
  mapM (λ '(it, (fr_disp, fr_ascii, aux)), build_json it fr_disp fr_ascii aux) SPEC.

(** ** Table checks *)

Lemma ere_REMOTO_rows : rows_have_length 6 REMOTO = true.
Proof. eval_tables. Qed.

Lemma SPEC_has_participles : forallb (λ e, dict_mem e.1 PP) SPEC = true.
Proof. eval_tables. Qed.

(** ** Lemmas *)

Lemma st_app b : st (b +:+ "ere") = b.
Proof. apply (drop_last_app b "ere"). Qed.

Lemma ere_passato_remoto_six v : length (passato_remoto v) = 6.
Proof.
  unfold passato_remoto, dict_get_or. apply length_zip_pronouns.
  destruct (dict_get REMOTO v) eqn:E; [|done].
  exact (rows_have_length_spec _ _ _ _ ere_REMOTO_rows E).
Qed.

#[export] Instance ere_laws : ConjugatorLaws.
Proof.
  split; intros v fs [= <-]; try apply ere_passato_remoto_six;
    first [by apply length_zip_pronouns | reflexivity].
Qed.

Lemma ere_build_json_ok verb_it fr_disp fr_ascii aux_it :
  dict_mem verb_it PP = true →
  ∃ r, build_json verb_it fr_disp fr_ascii aux_it = Some (fr_ascii +:+ ".json", r) ∧
       record_shape r = true ∧ target_lemma r = verb_it.
Proof.
  unfold dict_mem. rewrite bool_decide_eq_true. intros [pp Hpp].
  unfold build_json. rewrite Hpp. eexists. split_and!; [reflexivity| |reflexivity].
  apply (assemble_shape "2e groupe (-ere) avec irrégularités" "seconda coniugazione (-ere)"
           verb_it fr_disp aux_it pp).
  reflexivity.
Qed.

(** ** Properties *)

(** C7: every verb of [SPEC] yields a document, in the order of [SPEC],
    named after its ASCII French lemma, with the shape of spec section 8:
    the script never raises [KeyError] on its own tables. *)
Theorem ere_documents_total :
  ∃ docs, documents = Some docs ∧
    Forall2 (λ e d, d.1 = e.2.1.2 +:+ ".json" ∧ record_shape d.2 = true ∧
                    target_lemma d.2 = e.1) SPEC docs.
Proof.
  apply mapM_total. intros [it [[fr_disp fr_ascii] aux]] Hin.
  pose proof SPEC_has_participles as Hpp. rewrite forallb_forall in Hpp.
  apply list_elem_of_In, Hpp in Hin.
  destruct (ere_build_json_ok it fr_disp fr_ascii aux Hin) as (r & Hr & Hs & Ht).
  eexists. split; [exact Hr|done].
Qed.

(** C8: the regular present of an [-ere] verb is its stem (the infinitive
    without "ere") followed by the six endings, in the order of the
    pronouns. *)
Theorem indicativo_presente_ere b :
  indicativo_presente (b +:+ "ere") =
  ["io" ␣ b +:+ "o"; "tu" ␣ b +:+ "i"; "lui/lei" ␣ b +:+ "e";
   "noi" ␣ b +:+ "iamo"; "voi" ␣ b +:+ "ete"; "loro" ␣ b +:+ "ono"].
Proof. unfold indicativo_presente. by rewrite st_app. Qed.

(** C9: without a [REMOTO] row, the passato remoto falls back to the
    "-etti" paradigm on the stem. *)
Theorem passato_remoto_fallback b :
  dict_get REMOTO (b +:+ "ere") = None →
  passato_remoto (b +:+ "ere") =
  ["io" ␣ b +:+ "etti"; "tu" ␣ b +:+ "esti"; "lui/lei" ␣ b +:+ "ette";
   "noi" ␣ b +:+ "emmo"; "voi" ␣ b +:+ "este"; "loro" ␣ b +:+ "ettero"].
Proof. intros H. unfold passato_remoto. by rewrite (dict_get_or_None _ _ _ H), st_app. Qed.

Lemma passato_remoto_fallback_witness :
  dict_get REMOTO ("batt" +:+ "ere") = None ∧
  passato_remoto ("batt" +:+ "ere") =
  ["io" ␣ "batt" +:+ "etti"; "tu" ␣ "batt" +:+ "esti"; "lui/lei" ␣ "batt" +:+ "ette";
   "noi" ␣ "batt" +:+ "emmo"; "voi" ␣ "batt" +:+ "este"; "loro" ␣ "batt" +:+ "ettero"].
Proof. split; [reflexivity|]. apply passato_remoto_fallback. reflexivity. Defined.

(** C10: every verb of [SPEC] has a literal passato remoto row, so the
    fallback of C9 is never used by the script. *)
Theorem remoto_overrides_every_verb :
  Forall (λ e, ∃ row, dict_get REMOTO e.1 = Some row ∧
                      passato_remoto e.1 = zip_with (λ p f, p ␣ f) IT_PRONOUNS row) SPEC.
Proof.
  assert (Hall : forallb (λ e, dict_mem e.1 REMOTO) SPEC = true) by eval_tables.
  apply Forall_forall. intros e He. apply list_elem_of_In in He.
  rewrite forallb_forall in Hall. apply Hall in He.
  unfold dict_mem in He. rewrite bool_decide_eq_true in He. destruct He as [row Hrow].
  exists row. split; [done|]. unfold passato_remoto. by rewrite (dict_get_or_Some _ _ _ _ Hrow).
Qed.

(** For [crescere] (auxiliary [essere]) the script writes
    "io sono cresciuti", a plural participle for the first person singular
    (see C3). *)
Theorem crescere_passato_prossimo :
  ∃ r, build_json "crescere" "grandir" "grandir" "essere" = Some ("grandir.json", r) ∧
  ind_passato_prossimo r =
    ["io sono cresciuti"; "tu sei cresciuto"; "lui/lei è cresciuto";
     "noi siamo cresciuti"; "voi siete cresciuti"; "loro sono cresciuti"].
Proof. eexists. split; reflexivity. Qed.

(** Instances of the builder properties C1 and C6 on the verb [scrivere]. *)
Lemma assemble_shape_witness :
  ∃ r, assemble "2e groupe (-ere) avec irrégularités" "seconda coniugazione (-ere)"
         "scrivere" "écrire" "avere" "scritto" = Some r ∧ record_shape r = true.
Proof.
  eexists. split; [reflexivity|].
  eapply (assemble_shape "2e groupe (-ere) avec irrégularités" "seconda coniugazione (-ere)"
            "scrivere" "écrire" "avere" "scritto"). reflexivity.
Defined.

Lemma assemble_avere_participle_witness :
  ∃ r, assemble "2e groupe (-ere) avec irrégularités" "seconda coniugazione (-ere)"
         "scrivere" "écrire" "avere" "scritto" = Some r ∧
  Forall (Forall (λ f, endswith (" " +:+ "scritto") f = true)) (compound_tenses r).
Proof.
  eexists. split; [reflexivity|].
  eapply (assemble_avere_participle "2e groupe (-ere) avec irrégularités"
            "seconda coniugazione (-ere)" "scrivere" "écrire" "scritto"). reflexivity.
Defined.

End Ere.
