(* ===== verification/Ire.v ===== *)
(** * The third-conjugation script: [src/Create3rdGroupVerbs.py]

    Module [Ire] holds the script's tables ([VERBS], [FR_MAP], [AUX], [PP],
    [ISC]), its stem rule [stem] (drop "ire"), the tense generators with
    their "-isc-" branches, the [Conjugator] instance, [build_json] and the
    loop [documents].  The "-isc-" augment is compared with the rule of the
    spec (section 4.2): "isc" inserted before the ending in the slots of
    io, tu, lui/lei and loro. *)

From stdpp Require Import base list strings.
From S2P Require Import Prelude Compound Engine.

Import Compound.

Module Ire.

(** ** Tables (lines 31-73) *)

Definition VERBS : list string :=
  ["aprire"; "partire"; "coprire"; "offrire"; "scoprire"; "seguire";
   "sentire"; "servire"; "finire"; "capire"; "pulire"; "preferire";
   "costruire"; "bollire"; "nutrire"; "proibire"; "spedire"; "unire";
   "vestire"; "tossire"].

Definition FR_MAP : list (string * (string * string)) :=
  [("aprire", ("ouvrir", "ouvrir"));
   ("partire", ("partir", "partir"));
   ("coprire", ("couvrir", "couvrir"));
   ("offrire", ("offrir", "offrir"));
   ("scoprire", ("découvrir", "decouvrir"));
   ("seguire", ("suivre", "suivre"));
   ("sentire", ("entendre", "entendre"));
   ("servire", ("servir", "servir"));
   ("finire", ("finir", "finir"));
   ("capire", ("comprendre", "comprendre"));
   ("pulire", ("nettoyer", "nettoyer"));
   ("preferire", ("préférer", "preferer"));
   ("costruire", ("construire", "construire"));
   ("bollire", ("bouillir", "bouillir"));
   ("nutrire", ("nourrir", "nourrir"));
   ("proibire", ("interdire", "interdire"));
   ("spedire", ("envoyer", "envoyer"));
   ("unire", ("unir", "unir"));
   ("vestire", ("habiller", "habiller"));
   ("tossire", ("tousser", "tousser"))].

Definition PP : list (string * string) :=
  [("aprire", "aperto");
   ("partire", "partito");
   ("coprire", "coperto");
   ("offrire", "offerto");
   ("scoprire", "scoperto");
   ("seguire", "seguito");
   ("sentire", "sentito");
   ("servire", "servito");
   ("finire", "finito");
   ("capire", "capito");
   ("pulire", "pulito");
   ("preferire", "preferito");
   ("costruire", "costruito");
   ("bollire", "bollito");
   ("nutrire", "nutrito");
   ("proibire", "proibito");
   ("spedire", "spedito");
   ("unire", "unito");
   ("vestire", "vestito");
   ("tossire", "tossito")].

Definition ISC : list string :=
  ["finire"; "capire"; "pulire"; "preferire"; "costruire"; "proibire"; "spedire"; "unire"; "tossire"].

(** [AUX = {v: ("essere" if v=="partire" else "avere") for v in VERBS}] *)
Definition AUX : list (string * string) :=
  map (λ v, (v, if String.eqb v "partire" then "essere" else "avere")) VERBS.

(** ** Generators (lines 75-116, 139-144) *)

Definition stem (v : string) : string := drop_last 3 v.

Definition indicativo_presente (v : string) : list string :=
  let b := stem v in
  let forms :=
    if set_mem v ISC then
      [b +:+ "isco"; b +:+ "isci"; b +:+ "isce"; b +:+ "iamo"; b +:+ "ite"; b +:+ "iscono"]
    else [b +:+ "o"; b +:+ "i"; b +:+ "e"; b +:+ "iamo"; b +:+ "ite"; b +:+ "ono"] in
  zip_with (λ p f, p ␣ f) IT_PRONOUNS forms.

Definition imperfetto (v : string) : list string :=
  let b := stem v in
  zip_with (λ p e, p ␣ b +:+ e) IT_PRONOUNS ["ivo"; "ivi"; "iva"; "ivamo"; "ivate"; "ivano"].

Definition passato_remoto (v : string) : list string :=
  let b := stem v in
  let forms := [b +:+ "ii"; b +:+ "isti"; b +:+ "ì"; b +:+ "immo"; b +:+ "iste"; b +:+ "irono"] in
  zip_with (λ p f, p ␣ f) IT_PRONOUNS forms.

Definition futuro_root (v : string) : string := drop_last 1 v.

Definition futuro_semplice (v : string) : list string :=
  let r := futuro_root v in
  zip_with (λ p e, p ␣ r +:+ e) IT_PRONOUNS ["ò"; "ai"; "à"; "emo"; "ete"; "anno"].

Definition condizionale_presente (v : string) : list string :=
  let r := futuro_root v in
  zip_with (λ p e, p ␣ r +:+ e) IT_PRONOUNS ["ei"; "esti"; "ebbe"; "emmo"; "este"; "ebbero"].

Definition congiuntivo_presente (v : string) : list string :=
  let b := stem v in
  let forms :=
    if set_mem v ISC then
      [b +:+ "isca"; b +:+ "isca"; b +:+ "isca"; b +:+ "iamo"; b +:+ "iate"; b +:+ "iscano"]
    else [b +:+ "a"; b +:+ "a"; b +:+ "a"; b +:+ "iamo"; b +:+ "iate"; b +:+ "ano"] in
  zip_with (λ p f, "che" ␣ p ␣ f) IT_PRONOUNS forms.

Definition congiuntivo_imperfetto (v : string) : list string :=
  let b := stem v in
  zip_with (λ p e, "che" ␣ p ␣ b +:+ e) IT_PRONOUNS
    ["issi"; "issi"; "isse"; "issimo"; "iste"; "issero"].

Definition participio_presente (v : string) : string := stem v +:+ "ente".
Definition gerundio_presente (v : string) : string := stem v +:+ "endo".

Definition imperativo (v : string) : list string :=
  let b := stem v in
  if set_mem v ISC then
    ["—"; b +:+ "isci"; b +:+ "isca"; b +:+ "iamo"; b +:+ "ite"; b +:+ "iscano"]
  else ["—"; b +:+ "i"; b +:+ "a"; b +:+ "iamo"; b +:+ "ite"; b +:+ "ano"].

#[export] Instance ire_conjugator : Conjugator := {|
  gen_presente v := Some (indicativo_presente v);
  gen_imperfetto v := Some (imperfetto v);
  gen_passato_remoto v := Some (passato_remoto v);
  gen_futuro v := Some (futuro_semplice v);
  gen_condizionale v := Some (condizionale_presente v);
  gen_cong_presente v := Some (congiuntivo_presente v);
  gen_cong_imperfetto v := Some (congiuntivo_imperfetto v);
  gen_imperativo v := Some (imperativo v);
  gen_part_presente v := Some (participio_presente v);
  gen_ger_presente v := Some (gerundio_presente v)
|}.

(** ** The document of one verb (lines 146-196) and the loop (line 199)

    [FR_MAP[v]], [AUX[v]] and [PP[v]] raise [KeyError] on a missing verb. *)

Definition build_json (v : string) : option (string * verb_record) :=
  '(fr_disp, fr_ascii) ← dict_get FR_MAP v;
  aux ← dict_get AUX v;
  pp ← dict_get PP v;
  r ← assemble "3e groupe (-ire)"
        ("terza coniugazione (-ire)" +:+ (if set_mem v ISC then " con -isc-" else ""))
        v fr_disp aux pp;
  Some (fr_ascii +:+ ".json", r).

Definition documents : option (list (string * verb_record)) := mapM build_json VERBS.

(** ** The augment rule of the spec (section 4.2)

    An augmented verb inserts "isc" between the stem and the ending in the
    slots of io, tu, lui/lei and loro (0, 1, 2, 5), never in those of noi
    and voi. *)

Definition augmented_slot (i : nat) : bool := (i <? 3) || (i =? 5).

Definition with_augment (aug : bool) (b : string) (ends : list string) : list string :=
  imap (λ i e, b +:+ (if aug && augmented_slot i then "isc" else "") +:+ e) ends.

(** ** Table checks and lemmas *)

Lemma ire_VERBS_configured :
  forallb (λ v, dict_mem v FR_MAP && dict_mem v AUX && dict_mem v PP) VERBS = true.
Proof. eval_tables. Qed.

Lemma stem_app b : stem (b +:+ "ire") = b.
Proof. apply (drop_last_app b "ire"). Qed.

#[export] Instance ire_laws : ConjugatorLaws.
Proof.
  split; intros v fs [= <-]; unfold imperativo, indicativo_presente, congiuntivo_presente;
    try destruct (set_mem v ISC); first [by apply length_zip_pronouns | reflexivity].
Qed.

Lemma ire_build_json_ok v :
  dict_mem v FR_MAP && dict_mem v AUX && dict_mem v PP = true →
  ∃ fr_disp fr_ascii r, dict_get FR_MAP v = Some (fr_disp, fr_ascii) ∧
    build_json v = Some (fr_ascii +:+ ".json", r) ∧
    record_shape r = true ∧ target_lemma r = v.
Proof.
  rewrite !andb_true_iff. unfold dict_mem. rewrite !bool_decide_eq_true.
  intros [[[[fr_disp fr_ascii] Hfr] [aux Haux]] [pp Hpp]].
  exists fr_disp, fr_ascii. unfold build_json. rewrite Hfr, Haux, Hpp.
  eexists. split_and!; [done|reflexivity| |reflexivity].
  eapply (assemble_shape "3e groupe (-ire)"
    ("terza coniugazione (-ire)" +:+ (if set_mem v ISC then " con -isc-" else ""))
    v fr_disp aux pp). reflexivity.
Qed.

(** ** Properties *)

(** C12: the loop over [VERBS] never raises [KeyError]: every verb yields a
    document named after its ASCII French lemma ([FR_MAP]), with the shape
    of spec section 8, in the order of [VERBS]. *)
Theorem ire_documents_total :
  ∃ docs, documents = Some docs ∧
    Forall2 (λ v d, (∃ fr_disp, dict_get FR_MAP v = Some (fr_disp, drop_last 5 d.1)) ∧
                    endswith ".json" d.1 = true ∧ record_shape d.2 = true ∧
                    target_lemma d.2 = v) VERBS docs.
Proof.
  apply mapM_total. intros v Hin.
  pose proof ire_VERBS_configured as Hc. rewrite forallb_forall in Hc.
  apply list_elem_of_In, Hc in Hin.
  destruct (ire_build_json_ok v Hin) as (fr_disp & fr_ascii & r & Hfr & Hr & Hs & Ht).
  eexists. split; [exact Hr|]. simpl. split_and!; [|apply endswith_app|done|done].
  exists fr_disp. by rewrite (drop_last_app fr_ascii ".json" : drop_last 5 _ = _).
Qed.

(** C13: the "-isc-" branches of the present indicative, present
    subjunctive and imperative are the augment rule of the spec: for an
    infinitive [b ++ "ire"], "isc" is inserted after the stem [b] in the
    slots 0, 1, 2 and 5 exactly when the verb is in [ISC]. *)
Theorem isc_augment_rule b :
  let aug := set_mem (b +:+ "ire") ISC in
  indicativo_presente (b +:+ "ire") =
    zip_with (λ p f, p ␣ f) IT_PRONOUNS
      (with_augment aug b ["o"; "i"; "e"; "iamo"; "ite"; "ono"]) ∧
  congiuntivo_presente (b +:+ "ire") =
    zip_with (λ p f, "che" ␣ p ␣ f) IT_PRONOUNS
      (with_augment aug b ["a"; "a"; "a"; "iamo"; "iate"; "ano"]) ∧
  imperativo (b +:+ "ire") =
    "—" :: tail (with_augment aug b [""; "i"; "a"; "iamo"; "ite"; "ano"]).
Proof.
  unfold indicativo_presente, congiuntivo_presente, imperativo. rewrite stem_app.
  by destruct (set_mem (b +:+ "ire") ISC).
Qed.

(** An instance of C28 on [partire]. *)
Lemma assemble_congiuntivo_no_agreement_witness :
  ∃ r, assemble "3e groupe (-ire)" "terza coniugazione (-ire)" "partire" "partir" "essere"
         "partito" = Some r ∧
  cong_passato r !! 3 = Some "che noi siamo partito" ∧
  Forall (λ f, endswith (" " +:+ "partito") f = true) (cong_passato r).
Proof.
  eexists. split_and!; [reflexivity|reflexivity|].
  eapply (assemble_congiuntivo_no_agreement "3e groupe (-ire)" "terza coniugazione (-ire)"
            "partire" "partir" "essere" "partito"). reflexivity.
Defined.

End Ire.
