(* ===== verification/Irregular.v ===== *)
(** * The irregular-verb script: [src/CreateIrregularVerbs.py]

    Module [Irregular] holds the script's literal tables, including the
    dicts local to [cong_pres], [congiuntivo_imperfetto] and [imperativo]
    ([cong_pres_mapping], [cong_impf_base_map], [imperativo_mp]), the
    default rules the script falls back on, its own copies of the auxiliary
    rows and of [compose] (shown equal to the shared ones of [Compound]),
    the [Conjugator] instance, [build_json] and the loop [documents].
    [d[k]] on a missing key ([KeyError]) and [l[i]] out of range
    ([IndexError]) are [None]. *)

From Stdlib Require Import Ascii.
From stdpp Require Import base list strings.
From S2P Require Import Prelude Compound Engine.

Import Compound.

Module Irregular.

(** ** Tables *)

(* lines 29-34 *)
Definition VERBS : list string :=
  ["andare"; "fare"; "dare"; "stare"; "bere"; "sapere";
   "tenere"; "ottenere"; "mantenere"; "ritenere"; "sostenere"; "trattenere";
   "rimanere"; "scegliere"; "togliere"; "cogliere"; "raccogliere"; "volere";
   "condurre"; "tradurre"; "produrre"; "introdurre"; "proporre"; "porre";
   "esporre"; "opporre"; "uscire"; "dire"; "predire"; "disdire";
   "venire"; "salire"; "apparire"; "scomparire"; "finire"; "avere";
   "essere"].

(* lines 37-39: AUX = {v: "avere" for v in VERBS}, then AUX[v] = "essere" *)
Definition ESSERE_VERBS : list string :=
  ["andare"; "stare"; "rimanere"; "uscire"; "venire"; "salire"; "apparire"; "scomparire"].

Definition AUX : list (string * string) :=
  foldl (λ d v, dict_set d v "essere") (map (λ v, (v, "avere")) VERBS) ESSERE_VERBS.

(* lines 42-80 *)
Definition FR_MAP : list (string * (string * string)) :=
  [("andare", ("aller", "aller"));
   ("fare", ("faire", "faire"));
   ("dare", ("donner", "donner"));
   ("stare", ("rester", "rester"));
   ("bere", ("boire", "boire"));
   ("sapere", ("savoir", "savoir"));
   ("tenere", ("tenir", "tenir"));
   ("ottenere", ("obtenir", "obtenir"));
   ("mantenere", ("maintenir", "maintenir"));
   ("ritenere", ("retenir", "retenir"));
   ("sostenere", ("soutenir", "soutenir"));
   ("trattenere", ("retenir (trattenere)", "retenir_trattenere"));
   ("rimanere", ("rester (rimanere)", "rester_rimanere"));
   ("scegliere", ("choisir", "choisir"));
   ("togliere", ("enlever", "enlever"));
   ("cogliere", ("cueillir", "cueillir"));
   ("raccogliere", ("recueillir", "recueillir"));
   ("volere", ("vouloir", "vouloir"));
   ("condurre", ("conduire", "conduire"));
   ("tradurre", ("traduire", "traduire"));
   ("produrre", ("produire", "produire"));
   ("introdurre", ("introduire", "introduire"));
   ("porre", ("poser", "poser"));
   ("proporre", ("proposer", "proposer"));
   ("esporre", ("exposer", "exposer"));
   ("opporre", ("opposer", "opposer"));
   ("uscire", ("sortir", "sortir"));
   ("dire", ("dire", "dire"));
   ("predire", ("prédire", "predire"));
   ("disdire", ("décommander", "decommander"));
   ("venire", ("venir", "venir"));
   ("salire", ("monter", "monter"));
   ("apparire", ("apparaître", "apparaitre"));
   ("scomparire", ("disparaître", "disparaitre"));
   ("finire", ("finir", "finir"));
   ("avere", ("avoir", "avoir"));
   ("essere", ("être", "etre"))].

(* lines 83-121 *)
Definition PRES_IND : list (string * list string) :=
  [("andare", ["vado"; "vai"; "va"; "andiamo"; "andate"; "vanno"]);
   ("fare", ["faccio"; "fai"; "fa"; "facciamo"; "fate"; "fanno"]);
   ("dare", ["do"; "dai"; "dà"; "diamo"; "date"; "danno"]);
   ("stare", ["sto"; "stai"; "sta"; "stiamo"; "state"; "stanno"]);
   ("bere", ["bevo"; "bevi"; "beve"; "beviamo"; "bevete"; "bevono"]);
   ("sapere", ["so"; "sai"; "sa"; "sappiamo"; "sapete"; "sanno"]);
   ("tenere", ["tengo"; "tieni"; "tiene"; "teniamo"; "tenete"; "tengono"]);
   ("ottenere", ["ottengo"; "ottieni"; "ottiene"; "otteniamo"; "ottenete"; "ottengono"]);
   ("mantenere", ["mantengo"; "mantieni"; "mantiene"; "manteniamo"; "mantenete"; "mantengono"]);
   ("ritenere", ["ritengo"; "ritieni"; "ritiene"; "riteniamo"; "ritenete"; "ritengono"]);
   ("sostenere", ["sostengo"; "sostieni"; "sostiene"; "sosteniamo"; "sostenete"; "sostengono"]);
   ("trattenere", ["trattengo"; "trattieni"; "trattiene"; "tratteniamo"; "trattenete"; "trattengono"]);
   ("rimanere", ["rimango"; "rimani"; "rimane"; "rimaniamo"; "rimanete"; "rimangono"]);
   ("scegliere", ["scelgo"; "scegli"; "sceglie"; "scegliamo"; "scegliete"; "scelgono"]);
   ("togliere", ["tolgo"; "togli"; "toglie"; "togliamo"; "togliete"; "tolgono"]);
   ("cogliere", ["colgo"; "cogli"; "coglie"; "cogliamo"; "cogliete"; "colgono"]);
   ("raccogliere", ["raccolgo"; "raccogli"; "raccoglie"; "raccogliamo"; "raccogliete"; "raccolgono"]);
   ("volere", ["voglio"; "vuoi"; "vuole"; "vogliamo"; "volete"; "vogliono"]);
   ("condurre", ["conduco"; "conduci"; "conduce"; "conduciamo"; "conducete"; "conducono"]);
   ("tradurre", ["traduco"; "traduci"; "traduce"; "traduciamo"; "traducete"; "traducono"]);
   ("produrre", ["produco"; "produci"; "produce"; "produciamo"; "producete"; "producono"]);
   ("introdurre", ["introduco"; "introduci"; "introduce"; "introduciamo"; "introducete"; "introducono"]);
   ("porre", ["pongo"; "poni"; "pone"; "poniamo"; "ponete"; "pongono"]);
   ("proporre", ["propongo"; "proponi"; "propone"; "proponiamo"; "proponete"; "propongono"]);
   ("esporre", ["espongo"; "esponi"; "espone"; "esponiamo"; "esponete"; "espongono"]);
   ("opporre", ["oppongo"; "opponi"; "oppone"; "opponiamo"; "opponete"; "oppongono"]);
   ("uscire", ["esco"; "esci"; "esce"; "usciamo"; "uscite"; "escono"]);
   ("dire", ["dico"; "dici"; "dice"; "diciamo"; "dite"; "dicono"]);
   ("predire", ["predico"; "predici"; "predice"; "prediciamo"; "predite"; "predicono"]);
   ("disdire", ["disdico"; "disdici"; "disdice"; "disdiciamo"; "disdite"; "disdicono"]);
   ("venire", ["vengo"; "vieni"; "viene"; "veniamo"; "venite"; "vengono"]);
   ("salire", ["salgo"; "sali"; "sale"; "saliamo"; "salite"; "salgono"]);
   ("apparire", ["appaio"; "appari"; "appare"; "appariamo"; "apparite"; "appaiono"]);
   ("scomparire", ["scompaio"; "scompari"; "scompare"; "scompariamo"; "scomparite"; "scompaiono"]);
   ("finire", ["finisco"; "finisci"; "finisce"; "finiamo"; "finite"; "finiscono"]);
   ("avere", ["ho"; "hai"; "ha"; "abbiamo"; "avete"; "hanno"]);
   ("essere", ["sono"; "sei"; "è"; "siamo"; "siete"; "sono"])].

(* lines 126-134 *)
Definition FUT_STEM : list (string * string) :=
  [("andare", "andr");
   ("fare", "far");
   ("dare", "dar");
   ("stare", "star");
   ("bere", "berr");
   ("sapere", "sapr");
   ("tenere", "terr");
   ("ottenere", "otterr");
   ("mantenere", "manterr");
   ("ritenere", "riterr");
   ("sostenere", "sosterr");
   ("trattenere", "tratterr");
   ("rimanere", "rimarr");
   ("scegliere", "sceglier");
   ("togliere", "toglier");
   ("cogliere", "coglier");
   ("raccogliere", "raccoglier");
   ("volere", "vorr");
   ("condurre", "condurr");
   ("tradurre", "tradurr");
   ("produrre", "produrr");
   ("introdurre", "introdurr");
   ("porre", "porr");
   ("proporre", "proporr");
   ("esporre", "esporr");
   ("opporre", "opporr");
   ("uscire", "uscir");
   ("dire", "dir");
   ("predire", "predir");
   ("disdire", "disdir");
   ("venire", "verr");
   ("salire", "salir");
   ("apparire", "apparir");
   ("scomparire", "scomparir");
   ("finire", "finir");
   ("avere", "avr");
   ("essere", "sar")].

(* lines 143-180 *)
Definition REMOTO : list (string * list string) :=
  [("fare", ["feci"; "facesti"; "fece"; "facemmo"; "faceste"; "fecero"]);
   ("dare", ["diedi"; "desti"; "diede"; "demmo"; "deste"; "diedero"]);
   ("stare", ["stetti"; "stesti"; "stette"; "stemmo"; "steste"; "stettero"]);
   ("bere", ["bevvi"; "bevesti"; "bevve"; "bevemmo"; "beveste"; "bevvero"]);
   ("sapere", ["seppi"; "sapesti"; "seppe"; "sapemmo"; "sapeste"; "seppero"]);
   ("tenere", ["tenni"; "tenesti"; "tenne"; "tenemmo"; "teneste"; "tennero"]);
   ("ottenere", ["ottenni"; "ottenesti"; "ottenne"; "ottenemmo"; "otteneste"; "ottennero"]);
   ("mantenere", ["mantenni"; "mantenesti"; "mantenne"; "mantenemmo"; "manteneste"; "mantennero"]);
   ("ritenere", ["ritenni"; "ritenesti"; "ritenne"; "ritenemmo"; "riteneste"; "ritennero"]);
   ("sostenere", ["sostenni"; "sostenesti"; "sostenne"; "sostenemmo"; "sosteneste"; "sostennero"]);
   ("trattenere", ["trattenni"; "trattenesti"; "trattenne"; "trattenemmo"; "tratteneste"; "trattennero"]);
   ("rimanere", ["rimasi"; "rimanesti"; "rimase"; "rimanemmo"; "rimaneste"; "rimasero"]);
   ("scegliere", ["scelsi"; "scegliesti"; "scelse"; "scegliemmo"; "sceglieste"; "scelsero"]);
   ("togliere", ["tolsi"; "togliesti"; "tolse"; "togliemmo"; "toglieste"; "tolsero"]);
   ("cogliere", ["colsi"; "cogliesti"; "colse"; "cogliemmo"; "coglieste"; "colsero"]);
   ("raccogliere", ["raccolsi"; "raccogliesti"; "raccolse"; "raccogliemmo"; "raccoglieste"; "raccolsero"]);
   ("volere", ["volli"; "volesti"; "volle"; "volemmo"; "voleste"; "vollero"]);
   ("condurre", ["condussi"; "conducesti"; "condusse"; "conducemmo"; "conduceste"; "condussero"]);
   ("tradurre", ["tradussi"; "traducesti"; "tradusse"; "traducemmo"; "traduceste"; "tradussero"]);
   ("produrre", ["produssi"; "producesti"; "produsse"; "producemmo"; "produceste"; "produssero"]);
   ("introdurre", ["introdussi"; "introducesti"; "introdusse"; "introducemmo"; "introduceste"; "introdussero"]);
   ("porre", ["posi"; "ponesti"; "pose"; "ponemmo"; "poneste"; "posero"]);
   ("proporre", ["proposi"; "proponesti"; "propose"; "proponemmo"; "proponeste"; "proposero"]);
   ("esporre", ["esposi"; "esponesti"; "espose"; "esponemmo"; "esponeste"; "esposero"]);
   ("opporre", ["opposi"; "opponesti"; "oppose"; "opponemmo"; "opponeste"; "opposero"]);
   ("dire", ["dissi"; "dicesti"; "disse"; "dicemmo"; "diceste"; "dissero"]);
   ("predire", ["predissi"; "predicesti"; "predisse"; "predicemmo"; "prediceste"; "predissero"]);
   ("disdire", ["disdissi"; "disdicesti"; "disdisse"; "disdicemmo"; "disdiceste"; "disdissero"]);
   ("venire", ["venni"; "venisti"; "venne"; "venimmo"; "veniste"; "vennero"]);
   ("essere", ["fui"; "fosti"; "fu"; "fummo"; "foste"; "furono"]);
   ("avere", ["ebbi"; "avesti"; "ebbe"; "avemmo"; "aveste"; "ebbero"]);
   ("uscire", ["uscii"; "uscisti"; "uscì"; "uscimmo"; "usciste"; "uscirono"]);
   ("salire", ["salii"; "salisti"; "salì"; "salimmo"; "saliste"; "salirono"]);
   ("apparire", ["apparvi"; "apparisti"; "apparve"; "apparimmo"; "appariste"; "apparvero"]);
   ("scomparire", ["scomparvi"; "scomparisti"; "scomparve"; "scomparimmo"; "scompariste"; "scomparvero"]);
   ("finire", ["finii"; "finisti"; "finì"; "finimmo"; "finiste"; "finirono"])].

(* lines 195-204 *)
Definition PP : list (string * string) :=
  [("andare", "andato");
   ("fare", "fatto");
   ("dare", "dato");
   ("stare", "stato");
   ("bere", "bevuto");
   ("sapere", "saputo");
   ("tenere", "tenuto");
   ("ottenere", "ottenuto");
   ("mantenere", "mantenuto");
   ("ritenere", "ritenuto");
   ("sostenere", "sostenuto");
   ("trattenere", "trattenuto");
   ("rimanere", "rimasto");
   ("scegliere", "scelto");
   ("togliere", "tolto");
   ("cogliere", "colto");
   ("raccogliere", "raccolto");
   ("volere", "voluto");
   ("condurre", "condotto");
   ("tradurre", "tradotto");
   ("produrre", "prodotto");
   ("introdurre", "introdotto");
   ("porre", "posto");
   ("proporre", "proposto");
   ("esporre", "esposto");
   ("opporre", "opposto");
   ("uscire", "uscito");
   ("dire", "detto");
   ("predire", "predetto");
   ("disdire", "disdetto");
   ("venire", "venuto");
   ("salire", "salito");
   ("apparire", "apparso");
   ("scomparire", "scomparso");
   ("finire", "finito");
   ("avere", "avuto");
   ("essere", "stato")].

(* lines 207-211 *)
Definition IMPF_STEM : list (string * string) :=
  [("fare", "face");
   ("dire", "dice");
   ("bere", "beve");
   ("porre", "pone");
   ("proporre", "propone");
   ("esporre", "espone");
   ("opporre", "oppone");
   ("condurre", "conduce");
   ("tradurre", "traduce");
   ("produrre", "produce");
   ("introdurre", "introduce")].

(* lines 224-260 *)
Definition cong_pres_mapping : list (string * list string) :=
  [("andare", ["vada"; "vada"; "vada"; "andiamo"; "andiate"; "vadano"]);
   ("dare", ["dia"; "dia"; "dia"; "diamo"; "diate"; "diano"]);
   ("stare", ["stia"; "stia"; "stia"; "stiamo"; "stiate"; "stiano"]);
   ("fare", ["faccia"; "faccia"; "faccia"; "facciamo"; py_remove " "%char "facc iate"; "facciano"]);
   ("bere", ["beva"; "beva"; "beva"; "beviamo"; "beviate"; "bevano"]);
   ("sapere", ["sappia"; "sappia"; "sappia"; "sappiamo"; "sappiate"; "sappiano"]);
   ("tenere", ["tenga"; "tenga"; "tenga"; "teniamo"; "teniate"; "tengano"]);
   ("ottenere", ["ottenga"; "ottenga"; "ottenga"; "otteniamo"; "otteniate"; "ottengano"]);
   ("mantenere", ["mantenga"; "mantenga"; "mantenga"; "manteniamo"; "manteniate"; "mantengano"]);
   ("ritenere", ["ritenga"; "ritenga"; "ritenga"; "riteniamo"; "riteniate"; "ritengano"]);
   ("sostenere", ["sostenga"; "sostenga"; "sostenga"; "sosteniamo"; "sosteniate"; "sostengano"]);
   ("trattenere", ["trattenga"; "trattenga"; "trattenga"; "tratteniamo"; "tratteniate"; "trattengano"]);
   ("rimanere", ["rimanga"; "rimanga"; "rimanga"; "rimaniamo"; "rimaniate"; "rimangano"]);
   ("scegliere", ["scelga"; "scelga"; "scelga"; "scegliamo"; "scegliate"; "scelgano"]);
   ("togliere", ["tolga"; "tolga"; "tolga"; "togliamo"; "togliate"; "tolgano"]);
   ("cogliere", ["colga"; "colga"; "colga"; "cogliamo"; "cogliate"; "colgano"]);
   ("raccogliere", ["raccolga"; "raccolga"; "raccolga"; "raccogliamo"; "raccogliate"; "raccolgano"]);
   ("volere", ["voglia"; "voglia"; "voglia"; "vogliamo"; "vogliate"; "vogliano"]);
   ("condurre", ["conduca"; "conduca"; "conduca"; "conduciamo"; "conduciate"; "conducano"]);
   ("tradurre", ["traduca"; "traduca"; "traduca"; "traduciamo"; "traduciate"; "traducano"]);
   ("produrre", ["produca"; "produca"; "produca"; "produciamo"; "produciate"; "producano"]);
   ("introdurre", ["introduca"; "introduca"; "introduca"; "introduciamo"; "introduciate"; "introducano"]);
   ("porre", ["ponga"; "ponga"; "ponga"; "poniamo"; "poniate"; "pongano"]);
   ("proporre", ["proponga"; "proponga"; "proponga"; "proponiamo"; "proponiate"; "propongano"]);
   ("esporre", ["esponga"; "esponga"; "esponga"; "esponiamo"; "esponiate"; "espongano"]);
   ("opporre", ["opponga"; "opponga"; "opponga"; "opponiamo"; "opponiate"; "oppongano"]);
   ("uscire", ["esca"; "esca"; "esca"; "usciamo"; "usciate"; "escano"]);
   ("dire", ["dica"; "dica"; "dica"; "diciamo"; "diciate"; "dicano"]);
   ("predire", ["predica"; "predica"; "predica"; "prediciamo"; "prediciate"; "predicano"]);
   ("disdire", ["disdica"; "disdica"; "disdica"; "disdiciamo"; "disdiciate"; "disdicano"]);
   ("venire", ["venga"; "venga"; "venga"; "veniamo"; "veniate"; "vengano"]);
   ("salire", ["salga"; "salga"; "salga"; "saliamo"; "salite"; "salgano"]);
   ("apparire", ["appaia"; "appaia"; "appaia"; "appariamo"; "appariate"; "appaiano"]);
   ("scomparire", ["scompaia"; "scompaia"; "scompaia"; "scompariamo"; "scompariate"; "scompaiano"]);
   ("finire", ["finisca"; "finisca"; "finisca"; "finiamo"; "finiate"; "finiscano"])].

(* lines 271-280 *)
Definition cong_impf_base_map : list (string * string) :=
  [("andare", "andass");
   ("dare", "dess");
   ("stare", "stess");
   ("fare", "facess");
   ("dire", "dicess");
   ("bere", "bevess");
   ("sapere", "sapess");
   ("tenere", "teness");
   ("ottenere", "otteness");
   ("mantenere", "manteness");
   ("ritenere", "riteness");
   ("sostenere", "sosteness");
   ("trattenere", "tratteness");
   ("rimanere", "rimaness");
   ("volere", "voless");
   ("porre", "poness");
   ("proporre", "proponess");
   ("esporre", "esponess");
   ("opporre", "opponess");
   ("condurre", "conducess");
   ("tradurre", "traducess");
   ("produrre", "producess");
   ("introdurre", "introducess");
   ("scegliere", "scegliess");
   ("togliere", "togliess");
   ("cogliere", "cogliess");
   ("raccogliere", "raccogliess");
   ("uscire", "usciss");
   ("venire", "veniss");
   ("salire", "saliss");
   ("apparire", "appariss");
   ("scomparire", "scompariss");
   ("finire", "finiss");
   ("avere", "avess");
   ("essere", "foss");
   ("predire", "predicess");
   ("disdire", "disdicess")].

(* lines 287-325 *)
Definition imperativo_mp : list (string * list string) :=
  [("andare", ["—"; "vai"; "vada"; "andiamo"; "andate"; "vadano"]);
   ("dare", ["—"; "dai"; "dia"; "diamo"; "date"; "diano"]);
   ("stare", ["—"; "stai"; "stia"; "stiamo"; "state"; "stiano"]);
   ("fare", ["—"; "fai"; "faccia"; "facciamo"; "fate"; "facciano"]);
   ("bere", ["—"; "bevi"; "beva"; "beviamo"; "bevete"; "bevano"]);
   ("sapere", ["—"; "sappi"; "sappia"; "sappiamo"; "sappiate"; "sappiano"]);
   ("tenere", ["—"; "tieni"; "tenga"; "teniamo"; "tenete"; "tengano"]);
   ("ottenere", ["—"; "ottieni"; "ottenga"; "otteniamo"; "ottenete"; "ottengano"]);
   ("mantenere", ["—"; "mantieni"; "mantenga"; "manteniamo"; "mantenete"; "mantengano"]);
   ("ritenere", ["—"; "ritieni"; "ritenga"; "riteniamo"; "ritenete"; "ritengano"]);
   ("sostenere", ["—"; "sostieni"; "sostenga"; "sosteniamo"; "sostenete"; "sostengano"]);
   ("trattenere", ["—"; "trattieni"; "trattenga"; "tratteniamo"; "trattenete"; "trattengano"]);
   ("rimanere", ["—"; "rimani"; "rimanga"; "rimaniamo"; "rimanete"; "rimangano"]);
   ("scegliere", ["—"; "scegli"; "scelga"; "scegliamo"; "scegliete"; "scelgano"]);
   ("togliere", ["—"; "togli"; "tolga"; "togliamo"; "togliete"; "tolgano"]);
   ("cogliere", ["—"; "cogli"; "colga"; "cogliamo"; "cogliete"; "colgano"]);
   ("raccogliere", ["—"; "raccogli"; "raccolga"; "raccogliamo"; "raccogliete"; "raccolgano"]);
   ("volere", ["—"; "vuoi"; "voglia"; "vogliamo"; "volete"; "vogliano"]);
   ("condurre", ["—"; "conduci"; "conduca"; "conduciamo"; "conducete"; "conducano"]);
   ("tradurre", ["—"; "traduci"; "traduca"; "traduciamo"; "traducete"; "traducano"]);
   ("produrre", ["—"; "produci"; "produca"; "produciamo"; "producete"; "producano"]);
   ("introdurre", ["—"; "introduci"; "introduca"; "introduciamo"; "introducete"; "introducano"]);
   ("porre", ["—"; "poni"; "ponga"; "poniamo"; "ponete"; "pongano"]);
   ("proporre", ["—"; "proponi"; "proponga"; "proponiamo"; "proponete"; "propongano"]);
   ("esporre", ["—"; "esponi"; "esponga"; "esponiamo"; "esponete"; "espongano"]);
   ("opporre", ["—"; "opponi"; "opponga"; "opponiamo"; "opponete"; "oppongano"]);
   ("uscire", ["—"; "esci"; "esca"; "usciamo"; "uscite"; "escano"]);
   ("dire", ["—"; "di'"; "dica"; "diciamo"; "dite"; "dicano"]);
   ("predire", ["—"; "predici"; "predica"; "prediciamo"; "predite"; "predicano"]);
   ("disdire", ["—"; "disdici"; "disdica"; "disdiciamo"; "disdite"; "disdicano"]);
   ("venire", ["—"; "vieni"; "venga"; "veniamo"; "venite"; "vengano"]);
   ("salire", ["—"; "sali"; "salga"; "saliamo"; "salite"; "salgano"]);
   ("apparire", ["—"; "appari"; "appaia"; "appariamo"; "apparite"; "appaiano"]);
   ("scomparire", ["—"; "scompari"; "scompaia"; "scompariamo"; "scomparite"; "scompaiano"]);
   ("finire", ["—"; "finisci"; "finisca"; "finiamo"; "finite"; "finiscano"]);
   ("avere", ["—"; "abbi"; "abbia"; "abbiamo"; "abbiate"; "abbiano"]);
   ("essere", ["—"; "sii"; "sia"; "siamo"; "siate"; "siano"])].

(* lines 331-335 *)
Definition GERUND_EX : list (string * string) :=
  [("fare", "facendo");
   ("dire", "dicendo");
   ("porre", "ponendo");
   ("proporre", "proponendo");
   ("esporre", "esponendo");
   ("opporre", "opponendo");
   ("condurre", "conducendo");
   ("tradurre", "traducendo");
   ("produrre", "producendo");
   ("introdurre", "introducendo");
   ("bere", "bevendo")].

(** ** Generators *)

(* line 123 *)
Definition with_pronouns (forms : list string) : list string :=
  zip_with (λ p f, p ␣ f) IT_PRONOUNS forms.

(* lines 135-140: FUT_STEM[v] raises KeyError on a missing verb *)
Definition futuro_semplice (v : string) : option (list string) :=
  r ← dict_get FUT_STEM v;
  Some (with_pronouns (map (λ e, r +:+ e) ["ò"; "ai"; "à"; "emo"; "ete"; "anno"])).

Definition condizionale_presente (v : string) : option (list string) :=
  r ← dict_get FUT_STEM v;
  Some (with_pronouns (map (λ e, r +:+ e) ["ei"; "esti"; "ebbe"; "emmo"; "este"; "ebbero"])).

(* lines 181-192 *)
Definition passato_remoto (v : string) : list string :=
  match dict_get REMOTO v with
  | Some row => with_pronouns row
  | None =>
      let forms :=
        if endswith "are" v then ["ai"; "asti"; "ò"; "ammo"; "aste"; "arono"]
        else if endswith "ere" v then ["ei"; "esti"; "é"; "emmo"; "este"; "erono"]
        else ["ii"; "isti"; "ì"; "immo"; "iste"; "irono"] in
      let base := drop_last 3 v in
      with_pronouns (map (λ e, base +:+ e) forms)
  end.

(* lines 212-218 *)
Definition imperfetto (v : string) : list string :=
  if String.eqb v "essere" then
    with_pronouns ["ero"; "eri"; "era"; "eravamo"; "eravate"; "erano"]
  else
    let base := dict_get_or IMPF_STEM v (drop_last 3 v) in
    with_pronouns (map (λ e, base +:+ e) ["vo"; "vi"; "va"; "vamo"; "vate"; "vano"]).

(* lines 221-264: PRES_IND[v][0] raises KeyError or IndexError *)
Definition cong_pres (v : string) : option (list string) :=
  if String.eqb v "avere" then Some ["abbia"; "abbia"; "abbia"; "abbiamo"; "abbiate"; "abbiano"]
  else if String.eqb v "essere" then Some ["sia"; "sia"; "sia"; "siamo"; "siate"; "siano"]
  else match dict_get cong_pres_mapping v with
  | Some row => Some row
  | None =>
      pres ← dict_get PRES_IND v;
      pres1 ← head pres;
      let base := if endswith "go" pres1 then drop_last 2 pres1 else drop_last 1 pres1 in
      Some [base +:+ "a"; base +:+ "a"; base +:+ "a"; base +:+ "iamo"; base +:+ "iate"; base +:+ "ano"]
  end.

(* lines 266-267 and 364-365 (two identical functions) *)
Definition congiuntivo_presente (v : string) : option (list string) :=
  forms ← cong_pres v;
  Some (zip_with (λ p f, "che" ␣ p ␣ f) IT_PRONOUNS forms).

Definition congiuntivo_presente_full (v : string) : option (list string) :=
  forms ← cong_pres v;
  Some (zip_with (λ p f, "che" ␣ p ␣ f) IT_PRONOUNS forms).

(* lines 270-283 *)
Definition congiuntivo_imperfetto (v : string) : list string :=
  let base := dict_get_or cong_impf_base_map v (drop_last 3 v +:+ "ss") in
  zip_with (λ p e, "che" ␣ p ␣ base +:+ e) IT_PRONOUNS ["i"; "i"; "e"; "imo"; "te"; "ero"].

(* lines 367-368 *)
Definition congiuntivo_imperfetto_full (v : string) : list string := congiuntivo_imperfetto v.

(* lines 286-328: PRES_IND[v] and pres[1..5] may raise *)
Definition imperativo (v : string) : option (list string) :=
  match dict_get imperativo_mp v with
  | Some row => Some row
  | None =>
      pres ← dict_get PRES_IND v;
      p1 ← pres !! 1; p2 ← pres !! 2; p3 ← pres !! 3; p4 ← pres !! 4; p5 ← pres !! 5;
      Some ["—"; p1; p2; p3; p4; p5]
  end.

(* lines 336-341 *)
Definition gerundio_presente (v : string) : string :=
  match dict_get GERUND_EX v with
  | Some g => g
  | None => if endswith "are" v then drop_last 3 v +:+ "ando" else drop_last 3 v +:+ "endo"
  end.

Definition participio_presente (v : string) : string := drop_last 3 v +:+ "ente".

(** ** The script's own auxiliary rows and composer (lines 344-362) *)

Definition aux_present (aux : string) : list string :=
  if String.eqb aux "avere" then ["ho"; "hai"; "ha"; "abbiamo"; "avete"; "hanno"]
  else ["sono"; "sei"; "è"; "siamo"; "siete"; "sono"].
Definition aux_imperf (aux : string) : list string :=
  if String.eqb aux "avere" then ["avevo"; "avevi"; "aveva"; "avevamo"; "avevate"; "avevano"]
  else ["ero"; "eri"; "era"; "eravamo"; "eravate"; "erano"].
Definition aux_rem (aux : string) : list string :=
  if String.eqb aux "avere" then ["ebbi"; "avesti"; "ebbe"; "avemmo"; "aveste"; "ebbero"]
  else ["fui"; "fosti"; "fu"; "fummo"; "foste"; "furono"].
Definition aux_fut (aux : string) : list string :=
  if String.eqb aux "avere" then ["avrò"; "avrai"; "avrà"; "avremo"; "avrete"; "avranno"]
  else ["sarò"; "sarai"; "sarà"; "saremo"; "sarete"; "saranno"].
Definition aux_cond (aux : string) : list string :=
  if String.eqb aux "avere" then ["avrei"; "avresti"; "avrebbe"; "avremmo"; "avreste"; "avrebbero"]
  else ["sarei"; "saresti"; "sarebbe"; "saremmo"; "sareste"; "sarebbero"].
Definition aux_cong_pres (aux : string) : list string :=
  if String.eqb aux "avere" then
    ["che io abbia"; "che tu abbia"; "che lui/lei abbia"; "che noi abbiamo";
     "che voi abbiate"; "che loro abbiano"]
  else
    ["che io sia"; "che tu sia"; "che lui/lei sia"; "che noi siamo";
     "che voi siate"; "che loro siano"].
Definition aux_cong_impf (aux : string) : list string :=
  if String.eqb aux "avere" then
    ["che io avessi"; "che tu avessi"; "che lui/lei avesse"; "che noi avessimo";
     "che voi aveste"; "che loro avessero"]
  else
    ["che io fossi"; "che tu fossi"; "che lui/lei fosse"; "che noi fossimo";
     "che voi foste"; "che loro fossero"].

Definition compose (aux_forms : list string) (pp : string) (essere : bool) : list string :=
  zip_with (λ p a,
    if essere then
      let plural :=
        existsb (λ k, contains k a)
          ["siamo"; "siete"; "eravamo"; "eravate"; "saremo"; "sarete"; "fummo"; "foste"]
        || endswith_any ["mo"; "te"; "no"] a in
      let adj := if plural && endswith "o" pp then drop_last 1 pp +:+ "i" else pp in
      p ␣ a ␣ adj
    else p ␣ a ␣ pp) IT_PRONOUNS aux_forms.

#[export] Instance irregular_conjugator : Conjugator := {|
  gen_presente v := forms ← dict_get PRES_IND v; Some (with_pronouns forms);
  gen_imperfetto v := Some (imperfetto v);
  gen_passato_remoto v := Some (passato_remoto v);
  gen_futuro := futuro_semplice;
  gen_condizionale := condizionale_presente;
  gen_cong_presente := congiuntivo_presente_full;
  gen_cong_imperfetto v := Some (congiuntivo_imperfetto_full v);
  gen_imperativo := imperativo;
  gen_part_presente v := Some (participio_presente v);
  gen_ger_presente v := Some (gerundio_presente v)
|}.

(** ** The document of one verb (lines 370-424) and the loop (line 427) *)

Definition build_json (v : string) : option (string * verb_record) :=
  aux ← dict_get AUX v;
  pp ← dict_get PP v;
  '(fr_disp, fr_ascii) ← dict_get FR_MAP v;
  r ← assemble "irrégulier" "verbo irregolare" v fr_disp aux pp;
  Some (fr_ascii +:+ ".json", r).

Definition documents : option (list (string * verb_record)) := mapM build_json VERBS.

(** ** Table checks *)

Lemma PRES_IND_rows : rows_have_length 6 PRES_IND = true.
Proof. eval_tables. Qed.
Lemma irr_REMOTO_rows : rows_have_length 6 REMOTO = true.
Proof. eval_tables. Qed.
Lemma cong_pres_mapping_rows : rows_have_length 6 cong_pres_mapping = true.
Proof. eval_tables. Qed.
Lemma imperativo_mp_rows : rows_have_length 6 imperativo_mp = true.
Proof. eval_tables. Qed.

Lemma irr_VERBS_configured :
  forallb (λ v, dict_mem v AUX && dict_mem v PP && dict_mem v FR_MAP &&
                dict_mem v PRES_IND && dict_mem v FUT_STEM) VERBS = true.
Proof. eval_tables. Qed.

(** ** Lemmas *)

Lemma with_pronouns_six forms : length forms = 6 → length (with_pronouns forms) = 6.
Proof. apply length_zip_pronouns. Qed.

Lemma cong_pres_six v forms : cong_pres v = Some forms → length forms = 6.
Proof.
  unfold cong_pres. destruct (String.eqb v "avere"); [by intros [= <-]|].
  destruct (String.eqb v "essere"); [by intros [= <-]|].
  destruct (dict_get cong_pres_mapping v) as [row|] eqn:E.
  - intros [= <-]. exact (rows_have_length_spec _ _ _ _ cong_pres_mapping_rows E).
  - destruct (dict_get PRES_IND v) as [pres|]; simpl; [|discriminate].
    destruct (head pres); simpl; [|discriminate]. by intros [= <-].
Qed.

Lemma imperativo_six v forms : imperativo v = Some forms → length forms = 6.
Proof.
  unfold imperativo. destruct (dict_get imperativo_mp v) as [row|] eqn:E.
  - intros [= <-]. exact (rows_have_length_spec _ _ _ _ imperativo_mp_rows E).
  - destruct (dict_get PRES_IND v) as [pres|]; simpl; [|discriminate].
    destruct (pres !! 1), (pres !! 2), (pres !! 3), (pres !! 4), (pres !! 5);
      simpl; try discriminate. by intros [= <-].
Qed.

Lemma irr_passato_remoto_six v : length (passato_remoto v) = 6.
Proof.
  unfold passato_remoto. destruct (dict_get REMOTO v) as [row|] eqn:E.
  - apply with_pronouns_six. exact (rows_have_length_spec _ _ _ _ irr_REMOTO_rows E).
  - apply with_pronouns_six. by repeat case_match.
Qed.

#[export] Instance irregular_laws : ConjugatorLaws.
Proof.
  split; intros v fs;
    cbn [gen_presente gen_imperfetto gen_passato_remoto gen_futuro gen_condizionale
         gen_cong_presente gen_cong_imperfetto gen_imperativo irregular_conjugator].
  - destruct (dict_get PRES_IND v) as [row|] eqn:E; simpl; [|discriminate].
    intros [= <-]. apply with_pronouns_six, (rows_have_length_spec _ _ _ _ PRES_IND_rows E).
  - intros [= <-]. unfold imperfetto. by case_match; apply with_pronouns_six.
  - intros [= <-]. apply irr_passato_remoto_six.
  - unfold futuro_semplice. destruct (dict_get FUT_STEM v); simpl; [|discriminate].
    intros [= <-]. by apply with_pronouns_six.
  - unfold condizionale_presente. destruct (dict_get FUT_STEM v); simpl; [|discriminate].
    intros [= <-]. by apply with_pronouns_six.
  - unfold congiuntivo_presente_full. destruct (cong_pres v) as [forms|] eqn:E;
      [|discriminate].
    intros H. apply (inj Some) in H. rewrite <- H.
    apply length_zip_pronouns, (cong_pres_six v _ E).
  - intros [= <-]. unfold congiuntivo_imperfetto_full, congiuntivo_imperfetto.
    by apply length_zip_pronouns.
  - apply imperativo_six.
Qed.

(** The script's copies of the auxiliary rows are the shared ones. *)
Lemma aux_rows_shared :
  aux_present = Compound.aux_pres ∧ aux_imperf = Compound.aux_impf ∧
  aux_rem = Compound.aux_rem ∧ aux_fut = Compound.aux_fut ∧
  aux_cond = Compound.aux_cond ∧ aux_cong_pres = Compound.aux_cong_pres ∧
  aux_cong_impf = Compound.aux_cong_impf.
Proof. split_and!; reflexivity. Qed.


Lemma build_json_Some_inv v f r :
  build_json v = Some (f, r) →
  ∃ fr_disp fr_ascii, dict_get FR_MAP v = Some (fr_disp, fr_ascii) ∧
    f = fr_ascii +:+ ".json" ∧ record_shape r = true ∧ target_lemma r = v.
Proof.
  unfold build_json. intros Hb. inv_bind Hb.
  destruct p as [fr_disp fr_ascii]. inv_bind Hb.
  injection Hb as <- <-. exists fr_disp, fr_ascii. split_and!; [done|done| |].
  - by eapply assemble_shape.
  - by apply assemble_identity in E2 as [-> _].
Qed.

Lemma VERBS_build : forallb (λ v, bool_decide (is_Some (build_json v))) VERBS = true.
Proof. eval_tables. Qed.

(** ** Properties *)

(** C14: the irregular script's rewritten [compose] (with its local
    [plural] and [adj]) is the composer of the other two scripts. *)
Theorem compose_equiv aux_forms pp essere :
  compose aux_forms pp essere = Compound.compose aux_forms pp essere.
Proof.
  unfold compose, Compound.compose. apply zip_with_ext; [|done|done].
  intros p a. unfold compose_slot, looks_plural, pluralise, PLURAL_MARKERS.
  destruct essere; [|done].
  by destruct (_ || _), (endswith "o" pp).
Qed.

(** C15: the loop over [VERBS] never raises [KeyError] nor [IndexError]:
    every verb yields a document named after its ASCII French lemma, with
    the shape of spec section 8, in the order of [VERBS]. *)
Theorem irr_documents_total :
  ∃ docs, documents = Some docs ∧
    Forall2 (λ v d, (∃ fr_disp, dict_get FR_MAP v = Some (fr_disp, drop_last 5 d.1)) ∧
                    endswith ".json" d.1 = true ∧ record_shape d.2 = true ∧
                    target_lemma d.2 = v) VERBS docs.
Proof.
  apply mapM_total. intros v Hin.
  pose proof VERBS_build as Hb. rewrite forallb_forall in Hb.
  apply list_elem_of_In, Hb, bool_decide_eq_true in Hin as [[f r] Hr].
  destruct (build_json_Some_inv v f r Hr) as (fr_disp & fr_ascii & Hfr & -> & Hs & Ht).
  eexists. split; [exact Hr|]. simpl. split_and!; [|apply endswith_app|done|done].
  exists fr_disp. by rewrite (drop_last_app fr_ascii ".json" : drop_last 5 _ = _).
Qed.

(** C16: the default imperfect stem [v[:-3]] drops the thematic vowel: a
    verb [b ++ tv ++ "re"] that is neither [essere] nor in [IMPF_STEM] gets
    "io " ++ b ++ "vo" (so "io andvo" for andare, "io avvo" for avere)
    instead of "io " ++ b ++ tv ++ "vo". *)
Theorem imperfetto_default_drops_vowel b tv :
  String.length tv = 1 →
  b +:+ tv +:+ "re" ≠ "essere" →
  dict_get IMPF_STEM (b +:+ tv +:+ "re") = None →
  imperfetto (b +:+ tv +:+ "re") =
  with_pronouns [b +:+ "vo"; b +:+ "vi"; b +:+ "va"; b +:+ "vamo"; b +:+ "vate"; b +:+ "vano"].
Proof.
  intros Hlen Hne Himpf. unfold imperfetto.
  destruct (String.eqb_spec (b +:+ tv +:+ "re") "essere"); [done|].
  rewrite (dict_get_or_None _ _ _ Himpf).
  destruct tv as [|c [|]]; simpl in Hlen; try lia.
  change (String c "" +:+ "re") with (String c "re").
  by rewrite (drop_last_app b (String c "re") : drop_last 3 _ = _).
Qed.

Lemma imperfetto_default_drops_vowel_witness :
  imperfetto ("and" +:+ "a" +:+ "re") =
  with_pronouns ["and" +:+ "vo"; "and" +:+ "vi"; "and" +:+ "va"; "and" +:+ "vamo";
                 "and" +:+ "vate"; "and" +:+ "vano"].
Proof. apply imperfetto_default_drops_vowel; [reflexivity|discriminate|reflexivity]. Defined.

(** C17: without a [REMOTO] row, the passato remoto of an [-are] verb is
    the regular [-ai] paradigm on [v[:-3]] (the case of andare). *)
Theorem passato_remoto_fallback_are b :
  dict_get REMOTO (b +:+ "are") = None →
  passato_remoto (b +:+ "are") =
  with_pronouns [b +:+ "ai"; b +:+ "asti"; b +:+ "ò"; b +:+ "ammo"; b +:+ "aste"; b +:+ "arono"].
Proof.
  intros H. unfold passato_remoto. rewrite H, endswith_app.
  by rewrite (drop_last_app b "are" : drop_last 3 _ = _).
Qed.

Lemma passato_remoto_fallback_are_witness :
  dict_get REMOTO ("and" +:+ "are") = None ∧
  passato_remoto ("and" +:+ "are") =
  with_pronouns ["and" +:+ "ai"; "and" +:+ "asti"; "and" +:+ "ò"; "and" +:+ "ammo";
                 "and" +:+ "aste"; "and" +:+ "arono"].
Proof. split; [reflexivity|]. apply passato_remoto_fallback_are. reflexivity. Defined.

(** The literal tables cover every configured verb: the present
    subjunctive and the imperative of every verb of [VERBS] come from a
    literal row (or the avere/essere cases), never from the fallback on
    [PRES_IND]. *)
Theorem overrides_cover_verbs :
  Forall (λ v, (v = "avere" ∨ v = "essere" ∨ is_Some (dict_get cong_pres_mapping v)) ∧
               is_Some (dict_get imperativo_mp v)) VERBS.
Proof.
  assert (H : forallb (λ v, (String.eqb v "avere" || String.eqb v "essere" ||
                             dict_mem v cong_pres_mapping) && dict_mem v imperativo_mp)
                VERBS = true) by eval_tables.
  apply Forall_forall. intros v Hv. apply list_elem_of_In in Hv.
  rewrite forallb_forall in H. apply H in Hv. unfold dict_mem in Hv.
  apply andb_prop in Hv as [Hc Hi]. split; [|by apply bool_decide_eq_true in Hi].
  apply orb_prop in Hc as [[Ha|He]%orb_prop|Hm].
  - left. by apply String.eqb_eq.
  - right; left. by apply String.eqb_eq.
  - right; right. by apply bool_decide_eq_true in Hm.
Qed.

(** The present subjunctive of [salire] in the table has "salite" (the
    indicative) for voi where "saliate" is expected. *)
Example salire_congiuntivo_voi :
  congiuntivo_presente_full "salire" ≫= (.!! 4) = Some "che voi salite".
Proof. reflexivity. Qed.

(** C27: the voi form of the imperfect subjunctive doubles the "s" for
    every verb: the stems ([cong_impf_base_map] or [v[:-3] + "ss"]) all end
    in "ss" and the ending is "te", so the script writes "che voi andasste"
    where its own comment (line 282) announces "andaste". *)
Theorem congiuntivo_imperfetto_voi_doubled v :
  ∃ b, congiuntivo_imperfetto v !! 4 = Some ("che voi" ␣ b +:+ "sste").
Proof.
  assert (Hss : forallb (λ kv, endswith "ss" kv.2) cong_impf_base_map = true)
    by eval_tables.
  unfold congiuntivo_imperfetto, dict_get_or.
  destruct (dict_get cong_impf_base_map v) as [base|] eqn:E; simpl.
  - apply dict_get_Some_In, list_elem_of_In in E.
    rewrite forallb_forall in Hss. apply Hss in E. simpl in E.
    exists (drop_last 2 base). apply endswith_spec in E.
    rewrite E at 1. by rewrite <- string_app_assoc.
  - exists (drop_last 3 v). by rewrite <- string_app_assoc.
Qed.

Example andare_congiuntivo_imperfetto :
  congiuntivo_imperfetto "andare" =
  ["che io andassi"; "che tu andassi"; "che lui/lei andasse"; "che noi andassimo";
   "che voi andasste"; "che loro andassero"].
Proof. reflexivity. Qed.

(** The present participle [v[:-3] + "ente"] is wrong for [-are] verbs. *)
Example andare_participio_presente : participio_presente "andare" = "andente".
Proof. reflexivity. Qed.

End Irregular.
