(* ===== verification/Unicode.v ===== *)
(** * UTF-8: Python [str] as the bytes of the files

    The development keeps Python strings as Rocq strings of bytes, the
    UTF-8 encoding every file of the program is written in ([# -*- coding:
    utf-8 -*-], [open(path, "w", encoding="utf-8")]).  This file states
    that encoding: [encode] is [str.encode("utf-8")] on a sequence of code
    points, and [decode] is [bytes.decode("utf-8")] in Python's strict
    mode, which rejects overlong forms, surrogates and values past
    U+10FFFF.  The two are inverse: [decode] undoes [encode] on every
    sequence of scalar values, and a byte string [decode] accepts is the
    encoding of what it returns.  Reading [index.json] decodes it this way
    ([Json]), and [ascii_name] works on the decoded code points
    ([Slug]). *)

From Stdlib Require Import Ascii ZArith.
From stdpp Require Import base list strings.
From S2P Require Import Prelude.

Module Unicode.

Local Open Scope Z_scope.

(** ** Bytes and code points *)

Definition val (a : ascii) : Z := Z.of_N (N_of_ascii a).
Definition byte_of (n : Z) : ascii := ascii_of_N (Z.to_N n).

(** A Unicode scalar value: a code point that is not a surrogate. *)
Definition valid_cp (c : Z) : bool :=
  (0 <=? c) && (c <? 0x110000) && negb ((0xD800 <=? c) && (c <? 0xE000)).

Definition is_cont (a : ascii) : bool := (0x80 <=? val a) && (val a <? 0xC0).
Definition cont (a : ascii) : Z := val a - 0x80.

(** ** Encoding *)

Definition encode_cp (c : Z) : string :=
  if c <? 0x80 then String (byte_of c) ""
  else if c <? 0x800 then
    String (byte_of (0xC0 + c / 64)) (String (byte_of (0x80 + c mod 64)) "")
  else if c <? 0x10000 then
    String (byte_of (0xE0 + c / 4096))
      (String (byte_of (0x80 + (c / 64) mod 64)) (String (byte_of (0x80 + c mod 64)) ""))
  else
    String (byte_of (0xF0 + c / 262144))
      (String (byte_of (0x80 + (c / 4096) mod 64))
         (String (byte_of (0x80 + (c / 64) mod 64)) (String (byte_of (0x80 + c mod 64)) ""))).

Definition encode (cps : list Z) : string := foldr (λ c s, encode_cp c +:+ s) "" cps.

(** ** Strict decoding *)

Fixpoint decode (s : string) : option (list Z) :=
  match s with
  | EmptyString => Some []
  | String a r =>
      let b := val a in
      if b <? 0x80 then (b ::.) <$> decode r
      else if b <? 0xE0 then
        match r with
        | String a2 r2 =>
            if (0xC2 <=? b) && is_cont a2
            then ((b - 0xC0) * 64 + cont a2 ::.) <$> decode r2 else None
        | EmptyString => None
        end
      else if b <? 0xF0 then
        match r with
        | String a2 (String a3 r3) =>
            let c := (b - 0xE0) * 4096 + cont a2 * 64 + cont a3 in
            if is_cont a2 && is_cont a3 && (0x800 <=? c) && negb ((0xD800 <=? c) && (c <? 0xE000))
            then (c ::.) <$> decode r3 else None
        | _ => None
        end
      else if b <? 0xF5 then
        match r with
        | String a2 (String a3 (String a4 r4)) =>
            let c := (b - 0xF0) * 262144 + cont a2 * 4096 + cont a3 * 64 + cont a4 in
            if is_cont a2 && is_cont a3 && is_cont a4 && (0x10000 <=? c) && (c <? 0x110000)
            then (c ::.) <$> decode r4 else None
        | _ => None
        end
      else None
  end.

Definition utf8_valid (s : string) : bool := bool_decide (is_Some (decode s)).

(** ** Byte arithmetic *)

Lemma val_bound a : 0 ≤ val a < 256.
Proof. unfold val. pose proof (N_ascii_bounded a). lia. Qed.

Lemma val_byte_of n : 0 ≤ n < 256 → val (byte_of n) = n.
Proof.
  intros Hn. unfold val, byte_of. rewrite N_ascii_embedding; [lia|].
  apply N2Z.inj_lt. rewrite Z2N.id by lia. simpl. lia.
Qed.

Lemma byte_of_val a : byte_of (val a) = a.
Proof. unfold val, byte_of. rewrite N2Z.id. apply ascii_N_embedding. Qed.

(** Division by 64 as a pair of digits. *)
Lemma div64 c : 0 ≤ c → c = 64 * (c / 64) + c mod 64 ∧ 0 ≤ c mod 64 < 64 ∧ 0 ≤ c / 64.
Proof.
  intros Hc. pose proof (Z.mod_pos_bound c 64 ltac:(lia)).
  pose proof (Z.div_pos c 64 Hc ltac:(lia)).
  split_and!; [apply Z.div_mod; lia|lia..].
Qed.

Lemma divmod64 c q r : c = q * 64 + r → 0 ≤ r < 64 → c / 64 = q ∧ c mod 64 = r.
Proof.
  intros -> Hr. split; symmetry; [apply Z.div_unique with r|apply Z.mod_unique with q]; lia.
Qed.

Lemma div_4096 c : c / 4096 = c / 64 / 64.
Proof. rewrite Z.div_div by lia. reflexivity. Qed.

Lemma div_262144 c : c / 262144 = c / 64 / 64 / 64.
Proof. rewrite !Z.div_div by lia. reflexivity. Qed.

(** Rewrites the [val] of the bytes [encode_cp] builds, once their range is
    known. *)
Ltac vals := repeat (rewrite val_byte_of; [|lia]).

(** Settles the comparisons of a goal that [lia] can decide. *)
Ltac decide_cmp :=
  repeat match goal with
  | |- context [?x <? ?y] =>
      first [rewrite (proj2 (Z.ltb_lt x y)) by lia | rewrite (proj2 (Z.ltb_ge x y)) by lia]
  | |- context [?x <=? ?y] =>
      first [rewrite (proj2 (Z.leb_le x y)) by lia | rewrite (proj2 (Z.leb_gt x y)) by lia]
  | |- context [?x =? ?y] =>
      first [rewrite (proj2 (Z.eqb_eq x y)) by lia | rewrite (proj2 (Z.eqb_neq x y)) by lia]
  end; cbn [andb orb negb].

Lemma fmap_cons_eq (x y : Z) (o : option (list Z)) : x = y → (x ::.) <$> o = (y ::.) <$> o.
Proof. by intros ->. Qed.

Lemma valid_cp_spec c : valid_cp c = true ↔ 0 ≤ c < 0x110000 ∧ ¬ (0xD800 ≤ c < 0xE000).
Proof.
  unfold valid_cp. rewrite !andb_true_iff, negb_true_iff, andb_false_iff, Z.leb_le,
    Z.ltb_lt, Z.leb_gt, Z.ltb_ge. lia.
Qed.

(** ** Decoding undoes encoding *)

Lemma decode_encode_cp c rest :
  valid_cp c = true → decode (encode_cp c +:+ rest) = (c ::.) <$> decode rest.
Proof.
  intros [[H0 H1] Hs]%valid_cp_spec.
  destruct (div64 c H0) as (Ec & Hr0 & Ha).
  destruct (div64 (c / 64) Ha) as (Ea & Hr1 & Hb).
  destruct (div64 (c / 64 / 64) Hb) as (Eb & Hr2 & Hd).
  unfold encode_cp. rewrite div_4096, div_262144.
  set (r0 := c mod 64) in *. set (a := c / 64) in *. set (r1 := a mod 64) in *.
  set (b := a / 64) in *. set (r2 := b mod 64) in *. set (d := b / 64) in *.
  destruct (Z.ltb_spec c 0xD800), (Z.ltb_spec c 0x80), (Z.ltb_spec c 0x800),
    (Z.ltb_spec c 0x10000); try lia;
    rewrite ?string_app_cons; cbn [decode]; unfold is_cont, cont; vals; decide_cmp;
    apply fmap_cons_eq; lia.
Qed.

Lemma decode_encode cps : Forall (λ c, valid_cp c = true) cps → decode (encode cps) = Some cps.
Proof.
  induction 1 as [|c cps Hc _ IH]; [done|]. simpl.
  by rewrite decode_encode_cp, IH.
Qed.

(** ** Encoding undoes decoding *)

Lemma byte_of_eq x a : x = val a → byte_of x = a.
Proof. intros ->. apply byte_of_val. Qed.

Lemma is_cont_spec a : is_cont a = true ↔ 0x80 ≤ val a < 0xC0.
Proof. unfold is_cont. rewrite andb_true_iff, Z.leb_le, Z.ltb_lt. lia. Qed.

Lemma encode_cp_1 x : val x < 0x80 → encode_cp (val x) = String x "".
Proof. intros. unfold encode_cp. decide_cmp. by rewrite byte_of_val. Qed.

Lemma encode_cp_2 x x2 :
  0xC2 ≤ val x < 0xE0 → is_cont x2 = true →
  encode_cp ((val x - 0xC0) * 64 + cont x2) = String x (String x2 "").
Proof.
  intros Hx Hx2%is_cont_spec. unfold cont.
  destruct (divmod64 ((val x - 0xC0) * 64 + (val x2 - 0x80)) (val x - 0xC0) (val x2 - 0x80))
    as [Hq Hr]; [lia|lia|].
  unfold encode_cp. decide_cmp. rewrite Hq, Hr.
  f_equal; [|f_equal]; apply byte_of_eq; lia.
Qed.

Lemma encode_cp_3 x x2 x3 (c := (val x - 0xE0) * 4096 + cont x2 * 64 + cont x3) :
  0xE0 ≤ val x < 0xF0 → is_cont x2 = true → is_cont x3 = true → 0x800 ≤ c →
  encode_cp c = String x (String x2 (String x3 "")).
Proof.
  subst c. unfold cont. intros Hx Hx2%is_cont_spec Hx3%is_cont_spec Hc.
  set (c := (val x - 0xE0) * 4096 + (val x2 - 0x80) * 64 + (val x3 - 0x80)) in *.
  destruct (divmod64 c ((val x - 0xE0) * 64 + (val x2 - 0x80)) (val x3 - 0x80))
    as [Hq Hr]; [unfold c; lia|lia|].
  destruct (divmod64 (c / 64) (val x - 0xE0) (val x2 - 0x80)) as [Hq2 Hr2]; [lia|lia|].
  unfold encode_cp. rewrite div_4096, Hq2, Hr2, Hr. decide_cmp.
  f_equal; [|f_equal; [|f_equal]]; apply byte_of_eq; lia.
Qed.

Lemma encode_cp_4 x x2 x3 x4
    (c := (val x - 0xF0) * 262144 + cont x2 * 4096 + cont x3 * 64 + cont x4) :
  0xF0 ≤ val x < 0xF5 → is_cont x2 = true → is_cont x3 = true → is_cont x4 = true →
  0x10000 ≤ c →
  encode_cp c = String x (String x2 (String x3 (String x4 ""))).
Proof.
  subst c. unfold cont. intros Hx Hx2%is_cont_spec Hx3%is_cont_spec Hx4%is_cont_spec Hc.
  set (c := (val x - 0xF0) * 262144 + (val x2 - 0x80) * 4096 + (val x3 - 0x80) * 64
            + (val x4 - 0x80)) in *.
  destruct (divmod64 c (((val x - 0xF0) * 64 + (val x2 - 0x80)) * 64 + (val x3 - 0x80))
              (val x4 - 0x80)) as [Hq Hr]; [unfold c; lia|lia|].
  destruct (divmod64 (c / 64) ((val x - 0xF0) * 64 + (val x2 - 0x80)) (val x3 - 0x80))
    as [Hq2 Hr2]; [lia|lia|].
  destruct (divmod64 (c / 64 / 64) (val x - 0xF0) (val x2 - 0x80)) as [Hq3 Hr3]; [lia|lia|].
  unfold encode_cp. rewrite div_4096, div_262144, Hq3, Hr3, Hr2, Hr. decide_cmp.
  f_equal; [|f_equal; [|f_equal; [|f_equal]]]; apply byte_of_eq; lia.
Qed.

Lemma encode_cons c l : encode (c :: l) = encode_cp c +:+ encode l.
Proof. reflexivity. Qed.

(** The code point of a sequence, then the bytes after it by induction. *)
Local Ltac decoded IH :=
  lazymatch goal with
  | |- (_ ::.) <$> decode ?r' = Some _ → _ =>
      let l := fresh "l" in let Hr := fresh "Hr" in let Hv := fresh "Hv" in
      destruct (decode r') as [l|] eqn:Hr; [|discriminate]; intros [= <-];
      destruct (IH (String.length r') ltac:(simpl; lia) r' l eq_refl Hr) as [<- Hv];
      split; [rewrite encode_cons|constructor; [apply valid_cp_spec; unfold cont in *; lia|done]]
  end.

(** A byte string the decoder accepts is the encoding of the code points it
    returns, and these are scalar values. *)
Lemma decode_sound s cps :
  decode s = Some cps → encode cps = s ∧ Forall (λ c, valid_cp c = true) cps.
Proof.
  remember (String.length s) as n eqn:Hn. revert s cps Hn.
  induction n as [n IH] using lt_wf_ind. intros [|x r] cps -> Hd; cbn [decode] in Hd.
  { by injection Hd as <-. }
  pose proof (val_bound x). revert Hd.
  destruct (Z.ltb_spec (val x) 0x80); [decoded IH; by rewrite encode_cp_1|].
  destruct (Z.ltb_spec (val x) 0xE0).
  { destruct r as [|x2 r2]; [discriminate|].
    destruct (0xC2 <=? val x) eqn:Hl1, (is_cont x2) eqn:Hc2; try discriminate; cbn [andb].
    apply Z.leb_le in Hl1. pose proof Hc2 as Hk2. apply is_cont_spec in Hk2.
    decoded IH. rewrite encode_cp_2 by done. by rewrite !string_app_cons. }
  destruct (Z.ltb_spec (val x) 0xF0).
  { destruct r as [|x2 [|x3 r3]]; try discriminate.
    destruct (is_cont x2) eqn:Hc2, (is_cont x3) eqn:Hc3; try discriminate; cbn [andb].
    pose proof Hc2 as Hk2. pose proof Hc3 as Hk3. apply is_cont_spec in Hk2, Hk3.
    destruct (Z.leb_spec 0x800 ((val x - 0xE0) * 4096 + cont x2 * 64 + cont x3));
      [|discriminate].
    destruct (Z.leb_spec 0xD800 ((val x - 0xE0) * 4096 + cont x2 * 64 + cont x3)),
      (Z.ltb_spec ((val x - 0xE0) * 4096 + cont x2 * 64 + cont x3) 0xE000);
      cbn [andb negb]; try discriminate;
      decoded IH; rewrite encode_cp_3 by done; by rewrite !string_app_cons. }
  destruct (Z.ltb_spec (val x) 0xF5); [|discriminate].
  destruct r as [|x2 [|x3 [|x4 r4]]]; try discriminate.
  destruct (is_cont x2) eqn:Hc2, (is_cont x3) eqn:Hc3, (is_cont x4) eqn:Hc4;
    try discriminate; cbn [andb].
  pose proof Hc2 as Hk2. pose proof Hc3 as Hk3. pose proof Hc4 as Hk4.
  apply is_cont_spec in Hk2, Hk3, Hk4.
  destruct (Z.leb_spec 0x10000
              ((val x - 0xF0) * 262144 + cont x2 * 4096 + cont x3 * 64 + cont x4)),
    (Z.ltb_spec ((val x - 0xF0) * 262144 + cont x2 * 4096 + cont x3 * 64 + cont x4)
       0x110000); cbn [andb]; try discriminate.
  decoded IH. rewrite encode_cp_4 by done. by rewrite !string_app_cons.
Qed.

(** Bytes that decode, followed by bytes that decode, decode. *)
Lemma decode_app s t cs ct :
  decode s = Some cs → decode t = Some ct → decode (s +:+ t) = Some (cs ++ ct).
Proof.
  intros [<- Hs]%decode_sound [<- Ht]%decode_sound.
  revert Hs; induction cs as [|c cs IH]; intros Hs; [exact (decode_encode ct Ht)|].
  inversion Hs as [|? ? Hc Hcs]; subst.
  rewrite encode_cons, <- string_app_assoc, decode_encode_cp, IH by done. done.
Qed.

Lemma utf8_valid_app s t : utf8_valid s = true → utf8_valid t = true → utf8_valid (s +:+ t) = true.
Proof.
  unfold utf8_valid. rewrite !bool_decide_eq_true. intros [cs Hs] [ct Ht].
  rewrite (decode_app s t cs ct Hs Ht). eauto.
Qed.

(** ** The bytes of a character beyond ASCII *)

Lemma string_app_nil_r s : s +:+ "" = s.
Proof. induction s as [|c s IH]; [done|]. by rewrite string_app_cons, IH. Qed.

(** Every byte is 0x80 or more: no byte of a character of two, three or
    four bytes is an ASCII character. *)
Fixpoint high_bytes (s : string) : Prop :=
  match s with EmptyString => True | String a r => 128 ≤ val a ∧ high_bytes r end.

Lemma encode_cp_high c : 0x80 ≤ c < 0x110000 → high_bytes (encode_cp c).
Proof.
  intros Hc. unfold encode_cp.
  pose proof (Z.mod_pos_bound c 64 ltac:(lia)). pose proof (Z.mod_pos_bound (c / 64) 64 ltac:(lia)).
  pose proof (Z.mod_pos_bound (c / 4096) 64 ltac:(lia)).
  pose proof (Z.div_pos c 64 ltac:(lia) ltac:(lia)). pose proof (Z.div_pos c 4096 ltac:(lia) ltac:(lia)).
  pose proof (Z.div_pos c 262144 ltac:(lia) ltac:(lia)).
  destruct (Z.ltb_spec c 0x80); [lia|].
  destruct (Z.ltb_spec c 0x800);
    [assert (c / 64 < 32) by (apply Z.div_lt_upper_bound; lia)|
     destruct (Z.ltb_spec c 0x10000);
     [assert (c / 4096 < 16) by (apply Z.div_lt_upper_bound; lia)|
      assert (c / 262144 < 16) by (apply Z.div_lt_upper_bound; lia)]];
    cbn [high_bytes]; vals; lia.
Qed.

Lemma utf8_valid_encode_cp c : valid_cp c = true → utf8_valid (encode_cp c) = true.
Proof.
  intros Hc. unfold utf8_valid. apply bool_decide_eq_true.
  rewrite <- (string_app_nil_r (encode_cp c)), decode_encode_cp by done. by eexists.
Qed.

(** Valid text whose first byte is not ASCII starts with a whole character
    of two to four bytes, and what follows it is valid. *)
Lemma utf8_valid_high_split a r :
  utf8_valid (String a r) = true → 128 ≤ val a →
  ∃ p t, String a r = p +:+ t ∧ high_bytes p ∧ p ≠ "" ∧ utf8_valid p = true ∧ utf8_valid t = true.
Proof.
  unfold utf8_valid at 1. rewrite bool_decide_eq_true. intros [cps Hd] Ha.
  destruct (decode_sound _ _ Hd) as [Ee Hv]. destruct cps as [|c cps]; [done|].
  inversion Hv as [|? ? Hc Hcs]; subst. rewrite encode_cons in Ee.
  apply valid_cp_spec in Hc as Hc'.
  destruct (Z.ltb_spec c 0x80) as [Hlt|Hge].
  - exfalso. assert (E1 : encode_cp c = String (byte_of c) "") by (unfold encode_cp; by decide_cmp).
    rewrite E1, string_app_cons in Ee.
    injection Ee as Ea _. subst a. rewrite val_byte_of in Ha; lia.
  - exists (encode_cp c), (encode cps). split_and!; [done|apply encode_cp_high; lia| |
      by apply utf8_valid_encode_cp|].
    + unfold encode_cp. by repeat case_match.
    + unfold utf8_valid. apply bool_decide_eq_true. rewrite decode_encode by done. by eexists.
Qed.

End Unicode.
