(* ===== verification/Writer.v ===== *)
(** * The dataset writer: documents on disk and the merge of [index.json]

    Every script ends the same way (lines 218-241 of
    [src/Create2ndGroupVerbs.py], 193-214 of [src/Create3rdGroupVerbs.py],
    421-441 of [src/CreateIrregularVerbs.py]): [build_json] writes one
    document per verb as it goes, then [index.json] is read and merged with
    the new file names by [list(dict.fromkeys(old + new))], or replaced by
    the new names when the file does not exist, and written back.

    The file system is a [gmap] from file name to document plus the state
    of [index.json]: missing, unparsable, or a parsed JSON value.  An
    exception ends the run: the documents written before it stay on disk
    and [index.json] is left as it was. *)

From Stdlib Require Import ZArith.
From stdpp Require Import base list strings gmap.
From S2P Require Import Prelude Engine.

Module Writer.

(** ** JSON values as [json.load] returns them (numbers: integers) *)

Inductive json :=
  | JNull
  | JBool (b : bool)
  | JNum (n : Z)
  | JStr (s : string)
  | JArr (l : list json)
  | JObj (kvs : list (string * json)).

(** Python truthiness ([x or []]). *)
Definition py_truthy (j : json) : bool :=
  match j with
  | JNull => false
  | JBool b => b
  | JNum n => negb (Z.eqb n 0)
  | JStr s => negb (String.eqb s "")
  | JArr l => negb (bool_decide (l = []))
  | JObj kvs => negb (bool_decide (kvs = []))
  end.

(** Keys of a dict: lists and objects are unhashable; [True == 1] and
    [False == 0] in Python, so they are the same key. *)
Definition hashable (j : json) : bool :=
  match j with JArr _ | JObj _ => false | _ => true end.

Definition py_key_eqb (a b : json) : bool :=
  match a, b with
  | JStr s, JStr t => String.eqb s t
  | JNum n, JNum m => Z.eqb n m
  | JBool x, JNum m | JNum m, JBool x => Z.eqb m (if x then 1 else 0)
  | JBool x, JBool y => Bool.eqb x y
  | JNull, JNull => true
  | _, _ => false
  end.

(** [idx.get(k)] on a parsed object: [json.load] keeps the last of
    duplicate keys. *)
Definition obj_get (kvs : list (string * json)) (k : string) : option json :=
  foldl (λ acc kv, if String.eqb kv.1 k then Some kv.2 else acc) None kvs.

(** ** [list(dict.fromkeys(l))]: the first occurrence of each key, in order *)

Definition fromkeys {A} (eqb : A → A → bool) (l : list A) : list A :=
  foldl (λ d x, if existsb (eqb x) d then d else d ++ [x]) [] l.

(** ** [dict.fromkeys] over a key equivalence *)

Section FromKeys.
Context {A : Type} (eqb : A → A → bool).
Hypothesis eqb_sym : ∀ x y, eqb x y = eqb y x.
Hypothesis eqb_trans : ∀ x y z, eqb x y = true → eqb y z = true → eqb x z = true.

Definition mem (x : A) (d : list A) : bool := existsb (eqb x) d.

Definition fk_step (d : list A) (x : A) : list A := if mem x d then d else d ++ [x].

(** No two entries are equivalent keys. *)
Fixpoint distinct (l : list A) : bool :=
  match l with
  | [] => true
  | x :: l' => negb (mem x l') && distinct l'
  end.

Lemma mem_app x d e : mem x (d ++ e) = mem x d || mem x e.
Proof. unfold mem. by rewrite existsb_app. Qed.

Lemma mem_trans x y d : eqb x y = true → mem y d = true → mem x d = true.
Proof.
  unfold mem. rewrite !existsb_exists. intros Hxy (z & Hz & Hyz).
  exists z. split; [done|]. by apply (eqb_trans x y z).
Qed.

Lemma mem_step x d y : mem x (fk_step d y) = mem x d || eqb x y.
Proof.
  unfold fk_step. destruct (mem y d) eqn:Hy.
  - destruct (mem x d) eqn:Hx; [done|]. simpl.
    destruct (eqb x y) eqn:Hxy; [|done].
    by rewrite (mem_trans x y d Hxy Hy) in Hx.
  - rewrite mem_app. simpl. by rewrite orb_false_r.
Qed.

Lemma mem_fold x d l : mem x (foldl fk_step d l) = mem x d || mem x l.
Proof.
  revert d; induction l as [|y l IH]; intros d; simpl.
  - by rewrite orb_false_r.
  - rewrite IH, mem_step. unfold mem at 3. simpl. by rewrite orb_assoc.
Qed.

Lemma distinct_app d e :
  distinct (d ++ e) = distinct d && distinct e && forallb (λ x, negb (mem x e)) d.
Proof.
  induction d as [|x d IH]; simpl; [by rewrite andb_true_r|].
  rewrite IH, mem_app, negb_orb.
  destruct (mem x d), (mem x e), (distinct d), (distinct e); simpl; by rewrite ?andb_false_r.
Qed.

Lemma distinct_step d x : distinct d = true → distinct (fk_step d x) = true.
Proof.
  unfold fk_step. destruct (mem x d) eqn:Hx; [done|]. intros Hd.
  rewrite distinct_app, Hd. simpl. apply forallb_forall. intros y Hy.
  unfold mem. simpl. rewrite orb_false_r, eqb_sym. apply negb_true_iff.
  destruct (eqb x y) eqn:Hxy; [|done].
  exfalso. assert (mem x d = true) as Hm; [|by rewrite Hm in Hx].
  unfold mem. apply existsb_exists. eauto.
Qed.

Lemma distinct_fold d l : distinct d = true → distinct (foldl fk_step d l) = true.
Proof.
  revert d; induction l as [|y l IH]; intros d Hd; simpl; [done|].
  by apply IH, distinct_step.
Qed.

(** Keys already present change nothing. *)
Lemma fold_all_mem d l :
  forallb (λ x, mem x d) l = true → foldl fk_step d l = d.
Proof.
  revert d; induction l as [|y l IH]; intros d Hl; simpl in *; [done|].
  apply andb_true_iff in Hl as [Hy Hl]. unfold fk_step at 2. rewrite Hy. by apply IH.
Qed.

(** A distinct list is its own set of keys, in order. *)
Lemma fold_distinct d l :
  distinct (d ++ l) = true → foldl fk_step d l = d ++ l.
Proof.
  revert d; induction l as [|y l IH]; intros d Hdl; simpl; [by rewrite app_nil_r|].
  rewrite distinct_app in Hdl. apply andb_true_iff in Hdl as [[Hd Hl]%andb_true_iff Hnot].
  assert (Hy : mem y d = false).
  { destruct (mem y d) eqn:Hy; [|done]. exfalso.
    unfold mem in Hy. apply existsb_exists in Hy as (z & Hz & Hyz).
    rewrite forallb_forall in Hnot. specialize (Hnot z Hz).
    assert (mem z (y :: l) = true) as Hm; [|by rewrite Hm in Hnot].
    unfold mem. simpl. by rewrite eqb_sym, Hyz. }
  unfold fk_step at 2. rewrite Hy, IH; [by rewrite <- app_assoc|].
  rewrite <- app_assoc. simpl. rewrite distinct_app, Hd, Hl. simpl.
  rewrite forallb_forall in Hnot |- *. intros z Hz. specialize (Hnot z Hz).
  unfold mem in *. simpl in Hnot. exact Hnot.
Qed.

Lemma fromkeys_distinct l : distinct (fromkeys eqb l) = true.
Proof. apply distinct_fold. done. Qed.

Lemma mem_fromkeys x l : mem x (fromkeys eqb l) = mem x l.
Proof. unfold fromkeys. fold fk_step. by rewrite mem_fold. Qed.

(** The merge extends a distinct index: the old entries stay first and in
    order, followed by the new keys not already present. *)
Lemma fromkeys_extends old new :
  distinct old = true →
  fromkeys eqb (old ++ new) = foldl fk_step old new.
Proof.
  intros Hold. unfold fromkeys. rewrite foldl_app. fold fk_step.
  f_equal. by apply (fold_distinct [] old).
Qed.

Lemma fold_step_prefix d l : ∃ k, foldl fk_step d l = d ++ k.
Proof.
  revert d; induction l as [|y l IH]; intros d; simpl.
  - exists []. by rewrite app_nil_r.
  - destruct (IH (fk_step d y)) as [k ->]. unfold fk_step.
    destruct (mem y d); [by exists k|]. exists (y :: k). by rewrite <- app_assoc.
Qed.

Lemma mem_refl_in x l : eqb x x = true → x ∈ l → mem x l = true.
Proof. intros Hx Hin. apply existsb_exists. exists x. by rewrite <- list_elem_of_In. Qed.

(** Merging the same keys again changes nothing. *)
Lemma fromkeys_again l k :
  Forall (λ x, eqb x x = true) k → (∀ x, x ∈ k → mem x l = true) →
  fromkeys eqb (fromkeys eqb l ++ k) = fromkeys eqb l.
Proof.
  intros Hrefl Hk. rewrite fromkeys_extends by apply fromkeys_distinct.
  apply fold_all_mem, forallb_forall. intros x Hx%list_elem_of_In.
  rewrite mem_fromkeys. by apply Hk.
Qed.

Lemma fold_step_incl x d l : x ∈ foldl fk_step d l → x ∈ d ∨ x ∈ l.
Proof.
  revert d; induction l as [|y l IH]; intros d Hx; simpl in *; [by left|].
  apply IH in Hx as [Hx|Hx]; [|set_solver].
  unfold fk_step in Hx. destruct (mem y d); [by left|]. set_solver.
Qed.

Lemma fromkeys_incl x l : x ∈ fromkeys eqb l → x ∈ l.
Proof. intros Hx. by apply (fold_step_incl x [] l) in Hx as [Hx|Hx]; [set_solver|]. Qed.

End FromKeys.

(** ** Python key equality on JSON scalars *)

Lemma py_key_eqb_sym a b : py_key_eqb a b = py_key_eqb b a.
Proof.
  destruct a, b; simpl; try done;
    [by destruct b, b0|apply Z.eqb_sym|apply String.eqb_sym].
Qed.

Lemma py_key_eqb_trans a b c :
  py_key_eqb a b = true → py_key_eqb b c = true → py_key_eqb a c = true.
Proof.
  destruct a, b, c; simpl; try done;
    rewrite ?Z.eqb_eq, ?String.eqb_eq; intros; subst;
    repeat match goal with
           | H : Bool.eqb _ _ = true |- _ => apply Bool.eqb_prop in H; subst
           end;
    rewrite ?Z.eqb_eq, ?String.eqb_eq; try done;
    repeat match goal with b : bool |- _ => destruct b end; simpl in *; lia.
Qed.

(** The laws the [FromKeys] lemmas ask of Python key equality. *)
Ltac key_laws := first [exact py_key_eqb_sym | exact py_key_eqb_trans].

Lemma fk_extends old new :
  distinct py_key_eqb old = true →
  fromkeys py_key_eqb (old ++ new) = foldl (fk_step py_key_eqb) old new.
Proof. apply fromkeys_extends; key_laws. Qed.

Lemma py_key_eqb_str_refl x : py_key_eqb (JStr x) (JStr x) = true.
Proof. apply String.eqb_refl. Qed.

(** ** The state of [decks/fr-it] *)

Inductive index_file :=
  | IndexMissing
  | IndexMalformed
  | IndexParsed (j : json).

Record fs_state := {
  documents : gmap string verb_record;
  index : index_file
}.

(** The files list of a parsed index merged with [new_files] (lines
    229-235); [None] is the exception the script dies with: a parse error,
    an index that is not an object ([AttributeError]), a truthy [files]
    that is not a list or holds a list or an object ([TypeError]). *)
Definition merge_index (f : index_file) (new_files : list string) : option (list json) :=
  match f with
  | IndexMissing => Some (map JStr new_files)
  | IndexMalformed => None
  | IndexParsed (JObj kvs) =>
      old ← match obj_get kvs "files" with
            | Some v => if py_truthy v then
                          match v with JArr l => Some l | _ => None end
                        else Some []
            | None => Some []
            end;
      let all := old ++ map JStr new_files in
      if forallb hashable all then Some (fromkeys py_key_eqb all) else None
  | IndexParsed _ => None
  end.

(** ** The index file *)

(** The [index.json] a successful run writes. *)
Definition index_of (files : list json) : index_file :=
  IndexParsed (JObj [("files", JArr files)]).

Lemma hashable_refl x : hashable x = true → py_key_eqb x x = true.
Proof.
  destruct x; simpl; intros H; try done.
  - by destruct b. - apply Z.eqb_refl. - apply String.eqb_refl.
Qed.

Lemma merge_index_of old new :
  merge_index (index_of old) new =
  if forallb hashable (old ++ map JStr new)
  then Some (fromkeys py_key_eqb (old ++ map JStr new)) else None.
Proof. destruct old; reflexivity. Qed.

Lemma fromkeys_hashable l :
  forallb hashable l = true → forallb hashable (fromkeys py_key_eqb l) = true.
Proof.
  rewrite !forallb_forall. intros Hl x Hx. apply list_elem_of_In in Hx.
  apply (fromkeys_incl py_key_eqb py_key_eqb_sym py_key_eqb_trans) in Hx.
  apply Hl. by apply list_elem_of_In.
Qed.

Lemma map_JStr_hashable (new : list string) : forallb hashable (map JStr new) = true.
Proof. by induction new. Qed.

(** [open(path, "w")] and [json.dump] of one document. *)
Definition write_doc (s : fs_state) (name : string) (r : verb_record) : fs_state :=
  {| documents := <[name := r]> (documents s); index := index s |}.

(** The loop [new_files = [build_json(v) for v in verbs]]: each document is
    written when built; a failing [build_json] stops the loop. *)
Fixpoint write_all {A} (build : A → option (string * verb_record)) (xs : list A)
    (s : fs_state) : fs_state * option (list string) :=
  match xs with
  | [] => (s, Some [])
  | x :: xs' =>
      match build x with
      | None => (s, None)
      | Some (name, r) =>
          let '(s', names) := write_all build xs' (write_doc s name r) in
          (s', (name ::.) <$> names)
      end
  end.

(** One run of a script: the documents, then the index (lines 223-238). *)
Definition run {A} (build : A → option (string * verb_record)) (verbs : list A)
    (s : fs_state) : fs_state * bool :=
  match write_all build verbs s with
  | (s', None) => (s', false)
  | (s', Some new_files) =>
      match merge_index (index s') new_files with
      | None => (s', false)
      | Some files =>
          ({| documents := documents s';
              index := IndexParsed (JObj [("files", JArr files)]) |}, true)
      end
  end.


Section IndexProperties.

Local Abbreviation fk := (fromkeys py_key_eqb).
Local Abbreviation memk := (mem py_key_eqb).
Local Abbreviation distinctk := (distinct py_key_eqb).

Lemma mem_JStr_self (new : list string) y : y ∈ map JStr new → memk y (map JStr new) = true.
Proof.
  intros Hy. apply (mem_refl_in py_key_eqb); [|done].
  apply list_elem_of_In, in_map_iff in Hy as (s & <- & _). apply py_key_eqb_str_refl.
Qed.

(** What a successful merge writes: distinct hashable keys, among them
    every new file name. *)
Lemma merge_index_result f new files :
  (f = IndexMissing → distinctk (map JStr new) = true) →
  merge_index f new = Some files →
  distinctk files = true ∧ forallb hashable files = true ∧
  ∀ y, y ∈ map JStr new → memk y files = true.
Proof.
  intros Hmiss Hm. destruct f as [| |[| | | | |kvs]]; simpl in Hm; try discriminate.
  - injection Hm as <-. split_and!; [by apply Hmiss|apply map_JStr_hashable|].
    apply mem_JStr_self.
  - inv_bind Hm. destruct (forallb hashable _) eqn:Hh; [|discriminate].
    injection Hm as <-. split_and!.
    + apply fromkeys_distinct; key_laws.
    + by apply fromkeys_hashable.
    + intros y Hy. rewrite mem_fromkeys; [|key_laws..].
      rewrite mem_app, mem_JStr_self; [apply orb_true_r|done].
Qed.

(** C19: merging into an index that [index.json] holds keeps its entries
    first and in order, appends only keys not yet present, and leaves no
    two equal keys (spec 4.5: "stable-order set union"). *)
Theorem merge_index_extends old new files :
  distinctk old = true →
  merge_index (index_of old) new = Some files →
  ∃ k, files = old ++ k ∧ distinctk files = true ∧
       ∀ x, memk x files = memk x old || memk x (map JStr new).
Proof.
  intros Hold Hm. rewrite merge_index_of in Hm.
  destruct (forallb hashable _); [|discriminate]. injection Hm as <-.
  rewrite fk_extends by done.
  destruct (fold_step_prefix py_key_eqb old (map JStr new)) as [k Hk].
  exists k. split_and!; [done| |].
  - apply distinct_fold; [key_laws|done].
  - intros x. rewrite mem_fold; [done|key_laws].
Qed.

Lemma merge_index_extends_witness :
  distinctk [JStr "ecrire.json"] = true ∧
  merge_index (index_of [JStr "ecrire.json"]) ["prendre.json"; "ecrire.json"] =
    Some [JStr "ecrire.json"; JStr "prendre.json"] ∧
  ∃ k, [JStr "ecrire.json"; JStr "prendre.json"] = [JStr "ecrire.json"] ++ k.
Proof.
  split_and!; [reflexivity|reflexivity|].
  destruct (merge_index_extends [JStr "ecrire.json"] ["prendre.json"; "ecrire.json"]
              [JStr "ecrire.json"; JStr "prendre.json"]) as (k & Hk & _);
    [reflexivity|reflexivity|].
  by exists k.
Defined.

(** C20: a run that succeeds again with the same file names rewrites the
    index it read: the merge is idempotent (spec 8, "no duplicate
    identifiers after re-running"), provided the first run did not start
    without an index from file names that repeat. *)
Theorem merge_index_rerun f new files :
  (f = IndexMissing → distinctk (map JStr new) = true) →
  merge_index f new = Some files →
  merge_index (index_of files) new = Some files.
Proof.
  intros Hmiss Hm.
  destruct (merge_index_result f new files Hmiss Hm) as (Hd & Hh & Hnew).
  rewrite merge_index_of, forallb_app, Hh, map_JStr_hashable. simpl. f_equal.
  rewrite fk_extends by done.
  apply fold_all_mem, forallb_forall. intros y Hy. apply Hnew. by apply list_elem_of_In.
Qed.

Lemma merge_index_rerun_witness :
  merge_index (index_of [JStr "ecrire.json"; JStr "prendre.json"]) ["prendre.json"; "ecrire.json"] =
  Some [JStr "ecrire.json"; JStr "prendre.json"].
Proof.
  apply (merge_index_rerun (index_of [JStr "ecrire.json"]) ["prendre.json"; "ecrire.json"]).
  - discriminate.
  - reflexivity.
Defined.

(** C21: adding one verb whose file name is new and running again leaves
    the index as it was, with exactly that name appended (spec 8). *)
Theorem merge_index_new_verb f new files x :
  (f = IndexMissing → distinctk (map JStr new) = true) →
  merge_index f new = Some files →
  memk (JStr x) files = false →
  merge_index (index_of files) (new ++ [x]) = Some (files ++ [JStr x]).
Proof.
  intros Hmiss Hm Hx.
  destruct (merge_index_result f new files Hmiss Hm) as (Hd & Hh & Hnew).
  rewrite merge_index_of, map_app, !forallb_app, Hh, !map_JStr_hashable. simpl. f_equal.
  rewrite fk_extends, foldl_app by done.
  rewrite (fold_all_mem py_key_eqb files (map JStr new)).
  - simpl. unfold fk_step. by rewrite Hx.
  - apply forallb_forall. intros y Hy. apply Hnew. by apply list_elem_of_In.
Qed.

Lemma merge_index_new_verb_witness :
  merge_index (index_of [JStr "ecrire.json"]) (["ecrire.json"] ++ ["prendre.json"]) =
  Some ([JStr "ecrire.json"] ++ [JStr "prendre.json"]).
Proof.
  apply (merge_index_new_verb IndexMissing ["ecrire.json"]); reflexivity.
Defined.

End IndexProperties.

(** ** Runs *)

(** The documents a successful loop leaves on disk: each name bound to the
    last document written under it. *)
Definition ins_all (ps : list (string * verb_record)) (m : gmap string verb_record)
    : gmap string verb_record :=
  foldl (λ m nr, <[nr.1 := nr.2]> m) m ps.

Lemma ins_all_lookup ps m k :
  ins_all ps m !! k = if bool_decide (k ∈ ps.*1) then ins_all ps ∅ !! k else m !! k.
Proof.
  revert m; induction ps as [|[n r] ps IH]; intros m; simpl; [done|].
  rewrite (IH (<[n:=r]> m)), (IH (<[n:=r]> ∅)).
  destruct (decide (k ∈ ps.*1)) as [Hk|Hk].
  - rewrite !bool_decide_true; set_solver.
  - rewrite (bool_decide_false (k ∈ ps.*1)) by done.
    destruct (decide (k = n)) as [->|Hne].
    + rewrite bool_decide_true by set_solver. by rewrite !lookup_insert_eq.
    + rewrite bool_decide_false by set_solver. by rewrite lookup_insert_ne.
Qed.

Lemma ins_all_idem ps m : ins_all ps (ins_all ps m) = ins_all ps m.
Proof.
  apply map_eq. intros k. rewrite (ins_all_lookup ps (ins_all ps m)).
  case_bool_decide as Hk; [|by rewrite ins_all_lookup, bool_decide_false].
  by rewrite (ins_all_lookup ps m), bool_decide_true.
Qed.

Lemma write_all_index {A} (build : A → option (string * verb_record)) xs s :
  index (write_all build xs s).1 = index s.
Proof.
  revert s; induction xs as [|x xs IH]; intros s; simpl; [done|].
  destruct (build x) as [[n r]|]; [|done].
  destruct (write_all build xs (write_doc s n r)) as [s' names] eqn:E.
  specialize (IH (write_doc s n r)). rewrite E in IH. exact IH.
Qed.

Lemma write_all_Some {A} (build : A → option (string * verb_record)) xs s s' names :
  write_all build xs s = (s', Some names) →
  ∃ ps, mapM build xs = Some ps ∧ names = ps.*1 ∧
        s' = {| documents := ins_all ps (documents s); index := index s |}.
Proof.
  revert s names; induction xs as [|x xs IH]; intros s names Hw; simpl in *.
  - injection Hw as <- <-. exists []. by destruct s.
  - destruct (build x) as [[n r]|] eqn:Hb; [|discriminate].
    destruct (write_all build xs (write_doc s n r)) as [s1 [names1|]] eqn:E;
      simpl in Hw; [|congruence].
    injection Hw as <- <-.
    destruct (IH _ _ E) as (ps & Hps & -> & ->).
    exists ((n, r) :: ps). rewrite Hps. by split_and!.
Qed.

Lemma write_all_mapM {A} (build : A → option (string * verb_record)) xs s ps :
  mapM build xs = Some ps →
  write_all build xs s = ({| documents := ins_all ps (documents s); index := index s |}, Some ps.*1).
Proof.
  revert s ps; induction xs as [|x xs IH]; intros s ps Hm; simpl in *.
  - injection Hm as <-. by destruct s.
  - destruct (build x) as [[n r]|]; simpl in Hm; [|discriminate].
    destruct (mapM build xs) as [ps'|] eqn:E; simpl in Hm; [|discriminate].
    injection Hm as <-. by rewrite (IH _ ps').
Qed.

Section RunProperties.
Context {A : Type} (build : A → option (string * verb_record)) (verbs : list A).

(** C22: a run that dies with an exception ([KeyError] in a build, or an
    unreadable or ill-typed index) leaves [index.json] as it was; only
    documents may have been written (spec 5). *)
Theorem run_failure_keeps_index s s' :
  run build verbs s = (s', false) → index s' = index s.
Proof.
  unfold run. pose proof (write_all_index build verbs s) as Hi.
  destruct (write_all build verbs s) as [s1 [names|]]; simpl in Hi.
  - destruct (merge_index (index s1) names); [discriminate|]. by intros [= <-].
  - by intros [= <-].
Qed.

(** C23: running a script a second time on what its successful run left
    changes nothing: the same documents are rewritten and the index is
    merged to itself (spec 8, "regenerating twice ... idempotent merge"). *)
Theorem run_idempotent s s' :
  (∀ ps, mapM build verbs = Some ps → index s = IndexMissing →
         distinct py_key_eqb (map JStr ps.*1) = true) →
  run build verbs s = (s', true) →
  run build verbs s' = (s', true).
Proof.
  intros Hdist. unfold run.
  destruct (write_all build verbs s) as [s1 [names|]] eqn:Hw; [|discriminate].
  apply write_all_Some in Hw as (ps & Hps & -> & ->). simpl.
  destruct (merge_index (index s) ps.*1) as [files|] eqn:Hm; [|discriminate].
  intros [= <-]. rewrite (write_all_mapM build verbs _ ps Hps). cbn [documents index].
  change (IndexParsed (JObj [("files", JArr files)])) with (index_of files).
  rewrite (merge_index_rerun (index s) ps.*1 files); [|by apply Hdist|done].
  by rewrite ins_all_idem.
Qed.

End RunProperties.

End Writer.
