(* ===== verification/Json.v ===== *)
(** * The text of the JSON files: [json.dump] and [json.load]

    Every script writes its documents and [index.json] with
    [json.dump(x, f, ensure_ascii=False, indent=2)] (lines 219-220 and
    237-238 of [src/Create2ndGroupVerbs.py], 194-195 and 210-211 of
    [src/Create3rdGroupVerbs.py], 422-423 and 438-439 of
    [src/CreateIrregularVerbs.py]), and reads [index.json] back with
    [json.load(f)] (lines 231-232, 204-205 and 432-433).  This file gives the text those
    calls produce and accept, after Python's [json] module:
    - [dump] is [json.encoder] with [indent=2]: a newline and two spaces
      per level before each item, [","] between items, [": "] after a
      key, ["[]"] and ["{}"] for empty containers, and in a string the
      escapes of [ESCAPE_DCT]: a backslash before a double quote or a
      backslash, the letter escapes n r t b f for newline, carriage
      return, tab, backspace and form feed, and u00XX for the other control
      characters; with [ensure_ascii=False] every other character is
      written as it is.
    - [load] is [json.load]: the bytes of the file are decoded as UTF-8
      ([Unicode.decode]), then [json.decoder] reads one value between
      optional whitespace.

    What the model of [json.load] leaves out, and reports as an error
    where Python returns a value: numbers with a fraction or an exponent,
    [NaN] and [Infinity] (Python floats: [Writer.json] has integers only);
    u escapes whose four characters [int(..., 16)] accepts without being
    four hexadecimal digits (a space or a sign among them); lone
    surrogate escapes, which a Python [str] holds but UTF-8 bytes cannot.
    An object keeps its key-value pairs in order, duplicates included;
    [Writer.obj_get] reads the last one, as Python's [dict] does.

    Parsing is by fuel.  Strings and numbers are read by structural
    recursion; a value, the elements of an array and the members of an
    object call one another, each call taking one unit of fuel. *)

From Stdlib Require Import Ascii ZArith DecimalString DecimalPos DecimalZ.
From stdpp Require Import base list strings.
From S2P Require Import Prelude Unicode Writer.

Import Writer Unicode.

Module Json.

Local Open Scope Z_scope.

(** ** Characters *)

Definition chr (n : Z) : ascii := byte_of n.
Definition QUOTE : ascii := chr 34.
Definition BSLASH : ascii := chr 92.
Definition NL : ascii := chr 10.

(** [c] is the character with code [n]. *)
Definition is_chr (n : Z) (c : ascii) : bool := val c =? n.

Definition is_ws (c : ascii) : bool := is_chr 32 c || is_chr 9 c || is_chr 10 c || is_chr 13 c.
Definition is_digit (c : ascii) : bool := (48 <=? val c) && (val c <=? 57).

Definition hex_digit (n : Z) : ascii := chr (if n <? 10 then 48 + n else 87 + n).

Definition hex_val (c : ascii) : option Z :=
  let v := val c in
  if (48 <=? v) && (v <=? 57) then Some (v - 48)
  else if (97 <=? v) && (v <=? 102) then Some (v - 87)
  else if (65 <=? v) && (v <=? 70) then Some (v - 55)
  else None.

Definition hex4 (a b c d : ascii) : option Z :=
  x1 ← hex_val a; x2 ← hex_val b; x3 ← hex_val c; x4 ← hex_val d;
  Some (((x1 * 16 + x2) * 16 + x3) * 16 + x4).

(** ** [json.dump(x, f, ensure_ascii=False, indent=2)] *)

(** One character of a string, after [ESCAPE_DCT]. *)
Definition escape_char (c : ascii) : string :=
  let v := val c in
  if v =? 34 then String BSLASH (String QUOTE "")
  else if v =? 92 then String BSLASH (String BSLASH "")
  else if v =? 10 then String BSLASH "n"
  else if v =? 13 then String BSLASH "r"
  else if v =? 9 then String BSLASH "t"
  else if v =? 8 then String BSLASH "b"
  else if v =? 12 then String BSLASH "f"
  else if v <? 32 then
    String BSLASH ("u00" +:+ String (hex_digit (v / 16)) (String (hex_digit (v mod 16)) ""))
  else String c "".

Fixpoint escape (s : string) : string :=
  match s with
  | EmptyString => ""
  | String c r => escape_char c +:+ escape r
  end.

Definition dump_str (s : string) : string := String QUOTE (escape s +:+ String QUOTE "").

(** [int.__repr__]: the decimal digits, with a minus sign. *)
Definition dump_int (z : Z) : string := NilEmpty.string_of_int (Z.to_int z).

Fixpoint spaces (n : nat) : string :=
  match n with O => "" | S n' => String " " (spaces n') end.

(** A newline and the indentation of level [lvl]. *)
Definition nl (lvl : nat) : string := String NL (spaces (2 * lvl)).

(** The items after the first one, each after [","] and the newline of
    level [lvl]. *)
Definition sep_items {A} (lvl : nat) (d : A → string) (l : list A) : string :=
  foldr (λ y acc, "," +:+ nl lvl +:+ d y +:+ acc) "" l.

(** A key and its value. *)
Definition member (d : json → string) (kv : string * json) : string :=
  dump_str kv.1 +:+ ": " +:+ d kv.2.

Fixpoint dump_at (lvl : nat) (j : json) : string :=
  match j with
  | JNull => "null"
  | JBool true => "true"
  | JBool false => "false"
  | JNum z => dump_int z
  | JStr s => dump_str s
  | JArr [] => "[]"
  | JArr (x :: xs) =>
      "[" +:+ nl (S lvl) +:+ dump_at (S lvl) x +:+
      sep_items (S lvl) (dump_at (S lvl)) xs +:+ nl lvl +:+ "]"
  | JObj [] => "{}"
  | JObj (kv :: kvs) =>
      "{" +:+ nl (S lvl) +:+ member (dump_at (S lvl)) kv +:+
      sep_items (S lvl) (member (dump_at (S lvl))) kvs +:+ nl lvl +:+ "}"
  end.

Definition dump (j : json) : string := dump_at 0 j.

(** ** [json.decoder]: strings, numbers, whitespace *)

Fixpoint skip_ws (s : string) : string :=
  match s with
  | String c r => if is_ws c then skip_ws r else s
  | EmptyString => s
  end.

(** The character a one-letter escape stands for. *)
Definition unescape (e : ascii) : option ascii :=
  let v := val e in
  if v =? 34 then Some QUOTE
  else if v =? 92 then Some BSLASH
  else if v =? 47 then Some (chr 47)
  else if v =? 98 then Some (chr 8)
  else if v =? 102 then Some (chr 12)
  else if v =? 110 then Some NL
  else if v =? 114 then Some (chr 13)
  else if v =? 116 then Some (chr 9)
  else None.

Definition prepend (p : string) (r : option (string * string)) : option (string * string) :=
  (λ '(b, rest), (p +:+ b, rest)) <$> r.

(** [py_scanstring] with [strict=True], after the opening quote: the
    contents up to the closing quote, and what follows it. *)
Fixpoint scan_string (s : string) : option (string * string) :=
  match s with
  | EmptyString => None
  | String c r =>
      if is_chr 34 c then Some ("", r)
      else if is_chr 92 c then
        match r with
        | EmptyString => None
        | String e r' =>
            match unescape e with
            | Some d => prepend (String d "") (scan_string r')
            | None =>
                if is_chr 117 e then
                  match r' with
                  | String h1 (String h2 (String h3 (String h4 r''))) =>
                      u ← hex4 h1 h2 h3 h4;
                      if (u <? 0xD800) || (0xDFFF <? u) then prepend (encode_cp u) (scan_string r'')
                      else if 0xDBFF <? u then None
                      else match r'' with
                           | String b (String e2 (String l1 (String l2 (String l3 (String l4 r3))))) =>
                               if is_chr 92 b && is_chr 117 e2 then
                                 w ← hex4 l1 l2 l3 l4;
                                 if (0xDC00 <=? w) && (w <=? 0xDFFF)
                                 then prepend (encode_cp (0x10000 + (u - 0xD800) * 1024 + (w - 0xDC00)))
                                        (scan_string r3)
                                 else None
                               else None
                           | _ => None
                           end
                  | _ => None
                  end
                else None
            end
        end
      else if val c <? 32 then None
      else prepend (String c "") (scan_string r)
  end.

Fixpoint take_digits (s : string) : string * string :=
  match s with
  | String c r => if is_digit c then let '(d, rest) := take_digits r in (String c d, rest) else ("", s)
  | EmptyString => ("", "")
  end.

(** A fraction or an exponent follows: the number is a Python float. *)
Definition float_follows (rest : string) : bool :=
  match rest with String c _ => is_chr 46 c || is_chr 101 c || is_chr 69 c | EmptyString => false end.

(** [NUMBER_RE] reads a single [0] before other digits, which are then an
    error in every context. *)
Definition leading_zero (ds : string) : bool :=
  match ds with String c (String _ _) => is_chr 48 c | _ => false end.

(** An optional minus sign. *)
Definition sign (s : string) : bool * string :=
  match s with
  | String c r => if is_chr 45 c then (true, r) else (false, s)
  | EmptyString => (false, s)
  end.

(** The digits of [NUMBER_RE] with neither fraction nor exponent: [0] or
    digits not starting with [0]. *)
Definition scan_unsigned (neg : bool) (s : string) : option (Z * string) :=
  let '(ds, rest) := take_digits s in
  if bool_decide (ds = "") || leading_zero ds || float_follows rest then None
  else d ← NilEmpty.uint_of_string ds;
       Some (Z.of_int (if neg then Decimal.Neg d else Decimal.Pos d), rest).

Definition scan_int (s : string) : option (Z * string) :=
  let '(neg, s1) := sign s in scan_unsigned neg s1.

(** ** [json.decoder]: values *)

(** The outcome of reading: a value and what follows it, a syntax error
    ([JSONDecodeError]), or fuel exhausted (which the fuel [load] gives
    never is: [parse_value_fuel]). *)
Inductive presult (A : Type) :=
  | POk (a : A) (rest : string)
  | PErr
  | PFuel.
Arguments POk {A} _ _.
Arguments PErr {A}.
Arguments PFuel {A}.

Definition pmap {A B} (f : A → B) (r : presult A) : presult B :=
  match r with POk a rest => POk (f a) rest | PErr => PErr | PFuel => PFuel end.

Definition of_option {A} (o : option (A * string)) : presult A :=
  match o with Some (a, rest) => POk a rest | None => PErr end.

(** [s] starts with the literal [p]: what follows it. *)
Fixpoint strip (p s : string) : option string :=
  match p, s with
  | EmptyString, _ => Some s
  | String a p', String b s' => if Ascii.eqb a b then strip p' s' else None
  | String _ _, EmptyString => None
  end.

(** [scan_once] (a value, no whitespace before it), [JSONArray] after the
    opening bracket and its whitespace, [JSONObject] after the opening
    brace and its whitespace. *)
Fixpoint parse_value (fuel : nat) (s : string) {struct fuel} : presult json :=
  match fuel with
  | O => PFuel
  | S f =>
      match s with
      | EmptyString => PErr
      | String c r =>
          if is_chr 34 c then of_option ((λ '(x, rest), (JStr x, rest)) <$> scan_string r)
          else if is_chr 91 c then
            match skip_ws r with
            | String d r' =>
                if is_chr 93 d then POk (JArr []) r' else pmap JArr (parse_elems f (String d r'))
            | EmptyString => PErr
            end
          else if is_chr 123 c then
            match skip_ws r with
            | String d r' =>
                if is_chr 125 d then POk (JObj []) r' else pmap JObj (parse_members f (String d r'))
            | EmptyString => PErr
            end
          else
            match strip "null" s with Some r' => POk JNull r' | None =>
            match strip "true" s with Some r' => POk (JBool true) r' | None =>
            match strip "false" s with Some r' => POk (JBool false) r' | None =>
            of_option ((λ '(z, rest), (JNum z, rest)) <$> scan_int s) end end end
      end
  end
with parse_elems (fuel : nat) (s : string) {struct fuel} : presult (list json) :=
  match fuel with
  | O => PFuel
  | S f =>
      match parse_value f s with
      | POk v r =>
          match skip_ws r with
          | String c r' =>
              if is_chr 44 c then pmap (cons v) (parse_elems f (skip_ws r'))
              else if is_chr 93 c then POk [v] r'
              else PErr
          | EmptyString => PErr
          end
      | PErr => PErr
      | PFuel => PFuel
      end
  end
with parse_members (fuel : nat) (s : string) {struct fuel} : presult (list (string * json)) :=
  match fuel with
  | O => PFuel
  | S f =>
      match s with
      | String q r =>
          if is_chr 34 q then
            match scan_string r with
            | Some (k, r1) =>
                match skip_ws r1 with
                | String c r2 =>
                    if is_chr 58 c then
                      match parse_value f (skip_ws r2) with
                      | POk v r3 =>
                          match skip_ws r3 with
                          | String d r4 =>
                              if is_chr 44 d then pmap (cons (k, v)) (parse_members f (skip_ws r4))
                              else if is_chr 125 d then POk [(k, v)] r4
                              else PErr
                          | EmptyString => PErr
                          end
                      | PErr => PErr
                      | PFuel => PFuel
                      end
                    else PErr
                | EmptyString => PErr
                end
            | None => PErr
            end
          else PErr
      | EmptyString => PErr
      end
  end.

(** Enough fuel for any input: every call but the first consumes a
    character, or is an element or member call followed by one that
    does. *)
Definition parse_fuel (s : string) : nat := 2 * String.length s + 1.

(** [json.load(f)]: [f.read()] decodes the bytes ([UnicodeDecodeError]
    otherwise), [raw_decode] reads a value after whitespace, and only
    whitespace may follow it ([Extra data] otherwise). *)
Definition load (s : string) : option json :=
  if utf8_valid s then
    let t := skip_ws s in
    match parse_value (parse_fuel t) t with
    | POk j rest => if bool_decide (skip_ws rest = "") then Some j else None
    | _ => None
    end
  else None.

(** An index as the scripts write it, read back. *)
Example load_index :
  load (dump (JObj [("files", JArr [JStr "ecrire.json"; JStr "connaître.json"])])) =
  Some (JObj [("files", JArr [JStr "ecrire.json"; JStr "connaître.json"])]).
Proof. reflexivity. Qed.

Example dump_index :
  dump (JObj [("files", JArr [JStr "a.json"])]) =
  "{" +:+ String NL "  " +:+ String QUOTE "files" +:+ String QUOTE ": [" +:+
  String NL "    " +:+ String QUOTE "a.json" +:+ String QUOTE "" +:+ String NL "  ]" +:+
  String NL "}".
Proof. reflexivity. Qed.

(** ** Reading back what [dump] writes: strings *)

Lemma val_chr n : 0 ≤ n < 256 → val (chr n) = n.
Proof. apply val_byte_of. Qed.

Lemma chr_val c : chr (val c) = c.
Proof. apply byte_of_val. Qed.

Lemma string_app_nil_l (s : string) : "" +:+ s = s.
Proof. reflexivity. Qed.

Lemma skip_ws_spaces k t : skip_ws (spaces k +:+ t) = skip_ws t.
Proof. induction k as [|k IH]; [done|]. by rewrite <- IH. Qed.

Lemma skip_ws_nl lvl t : skip_ws (nl lvl +:+ t) = skip_ws t.
Proof. unfold nl. rewrite string_app_cons. apply skip_ws_spaces. Qed.

Lemma hex_val_digit n : 0 ≤ n < 16 → hex_val (hex_digit n) = Some n.
Proof.
  intros Hn. unfold hex_val, hex_digit, chr.
  destruct (Z.ltb_spec n 10); rewrite val_byte_of by lia; decide_cmp; f_equal; lia.
Qed.

Lemma hex4_00 v : 0 ≤ v < 256 →
  hex4 (chr 48) (chr 48) (hex_digit (v / 16)) (hex_digit (v mod 16)) = Some v.
Proof.
  intros Hv. unfold hex4.
  rewrite (hex_val_digit (v / 16)), (hex_val_digit (v mod 16)).
  - assert (H0 : hex_val (chr 48) = Some 0) by reflexivity. rewrite H0.
    cbn [mbind option_bind]. f_equal. pose proof (Z.div_mod v 16 ltac:(lia)). lia.
  - apply Z.mod_pos_bound. lia.
  - split; [apply Z.div_pos; lia|apply Z.div_lt_upper_bound; lia].
Qed.

(** [scan_string] reads each escape of [escape_char] back as the
    character. *)
Lemma scan_escape_char c t :
  scan_string (escape_char c +:+ t) = prepend (String c "") (scan_string t).
Proof.
  pose proof (val_bound c) as Hc. unfold escape_char.
  destruct (Z.eqb_spec (val c) 34) as [E|];
    [rewrite <- (chr_val c), E; by rewrite !string_app_cons|].
  destruct (Z.eqb_spec (val c) 92) as [E|];
    [rewrite <- (chr_val c), E; by rewrite !string_app_cons|].
  destruct (Z.eqb_spec (val c) 10) as [E|];
    [rewrite <- (chr_val c), E; by rewrite !string_app_cons|].
  destruct (Z.eqb_spec (val c) 13) as [E|];
    [rewrite <- (chr_val c), E; by rewrite !string_app_cons|].
  destruct (Z.eqb_spec (val c) 9) as [E|];
    [rewrite <- (chr_val c), E; by rewrite !string_app_cons|].
  destruct (Z.eqb_spec (val c) 8) as [E|];
    [rewrite <- (chr_val c), E; by rewrite !string_app_cons|].
  destruct (Z.eqb_spec (val c) 12) as [E|];
    [rewrite <- (chr_val c), E; by rewrite !string_app_cons|].
  destruct (Z.ltb_spec (val c) 32).
  - rewrite string_app_cons, <- string_app_assoc, !string_app_cons, !string_app_nil_l.
    cbn [scan_string].
    rewrite hex4_00 by lia. cbn [mbind option_bind]. decide_cmp.
    rewrite encode_cp_1 by lia. done.
  - rewrite string_app_cons. cbn [scan_string].
    unfold is_chr. decide_cmp. done.
Qed.

Lemma scan_string_escape s rest :
  scan_string (escape s +:+ String QUOTE rest) = Some (s, rest).
Proof.
  induction s as [|c s IH]; [done|]. cbn [escape].
  rewrite <- string_app_assoc, scan_escape_char, IH. done.
Qed.

(** ** Reading back what [dump] writes: integers *)

(** What may follow a number without being read as part of it. *)
Definition follows_num (rest : string) : bool :=
  match rest with
  | String c _ => negb (is_digit c || float_follows rest)
  | EmptyString => true
  end.

Lemma take_digits_uint d rest :
  follows_num rest = true → take_digits (NilEmpty.string_of_uint d +:+ rest) = (NilEmpty.string_of_uint d, rest).
Proof.
  intros Hr. induction d; cbn [NilEmpty.string_of_uint];
    rewrite ?string_app_cons; cbn [take_digits]; rewrite ?IHd; try done.
  destruct rest as [|c r]; [done|]. cbn in Hr. rewrite string_app_nil_l. cbn [take_digits].
  destruct (is_digit c); [discriminate Hr|done].
Qed.

(** [Pos.to_uint] writes no leading zero. *)
Lemma to_uint_head p d : Pos.to_uint p ≠ Decimal.D0 d.
Proof.
  intros E. pose proof (DecimalPos.Unsigned.to_of (Pos.to_uint p)) as H.
  rewrite DecimalPos.Unsigned.of_to in H. cbn [N.to_uint] in H. rewrite E in H.
  unfold Decimal.unorm in H. cbn [Decimal.nzhead] in H.
  assert (Hnz : ∀ e, Decimal.nzhead e ≠ Decimal.D0 e → True) by done.
  destruct (Decimal.nzhead d) eqn:Hn; try discriminate.
  - injection H as ->. by apply (DecimalPos.Unsigned.to_uint_nonzero p).
  - injection H as <-. clear Hnz.
    assert (∀ e f, Decimal.nzhead e = Decimal.D0 f → False) as Hno; [|by apply (Hno d d)].
    intros e; induction e; cbn; try discriminate; done.
Qed.

(** The digits of an integer as [int.__repr__] writes them. *)
Definition canonical (d : Decimal.uint) : Prop := d ≠ Decimal.Nil ∧ (d = Decimal.D0 Decimal.Nil ∨ ∀ d', d ≠ Decimal.D0 d').

Lemma to_int_canonical z :
  ∃ neg d, Z.to_int z = (if neg : bool then Decimal.Neg d else Decimal.Pos d) ∧ canonical d.
Proof.
  destruct z as [|p|p].
  - exists false, (Decimal.D0 Decimal.Nil). split; [done|split; [done|by left]].
  - exists false, (Pos.to_uint p). split; [done|].
    split; [apply DecimalPos.Unsigned.to_uint_nonnil|right; apply to_uint_head].
  - exists true, (Pos.to_uint p). split; [done|].
    split; [apply DecimalPos.Unsigned.to_uint_nonnil|right; apply to_uint_head].
Qed.

Lemma scan_unsigned_uint neg d rest :
  canonical d → follows_num rest = true →
  scan_unsigned neg (NilEmpty.string_of_uint d +:+ rest) =
    Some (Z.of_int (if neg then Decimal.Neg d else Decimal.Pos d), rest).
Proof.
  intros [Hnil Hhead] Hr. unfold scan_unsigned. rewrite take_digits_uint by done.
  assert (Hf : float_follows rest = false).
  { destruct rest as [|a r]; [done|]. unfold follows_num in Hr.
    destruct (float_follows (String a r)); [|done]. by rewrite orb_true_r in Hr. }
  rewrite Hf, NilEmpty.usu.
  destruct d; try congruence; cbn [NilEmpty.string_of_uint];
    [destruct Hhead as [[= ->]|Hh]; [done|by destruct (Hh d)]|..];
    destruct (NilEmpty.string_of_uint d); done.
Qed.

Lemma scan_int_dump z rest :
  follows_num rest = true → scan_int (dump_int z +:+ rest) = Some (z, rest).
Proof.
  intros Hr. destruct (to_int_canonical z) as (neg & d & Ez & Hd).
  unfold scan_int, dump_int. rewrite Ez.
  assert (Hs : sign (NilEmpty.string_of_int (if neg then Decimal.Neg d else Decimal.Pos d) +:+ rest)
               = (neg, NilEmpty.string_of_uint d +:+ rest)).
  { destruct Hd as [Hnil _]. destruct neg; [done|].
    destruct d; try congruence; done. }
  rewrite Hs, scan_unsigned_uint by done. rewrite <- Ez, DecimalZ.of_to. done.
Qed.

(** ** Induction on JSON values through their lists *)

Section json_nested_ind.
Context (P : json → Prop) (Pnull : P JNull) (Pbool : ∀ b, P (JBool b))
  (Pnum : ∀ n, P (JNum n)) (Pstr : ∀ s, P (JStr s))
  (Parr : ∀ l, Forall P l → P (JArr l))
  (Pobj : ∀ kvs, Forall (λ kv, P kv.2) kvs → P (JObj kvs)).

Fixpoint json_nested_ind (j : json) : P j :=
  match j with
  | JNull => Pnull
  | JBool b => Pbool b
  | JNum n => Pnum n
  | JStr s => Pstr s
  | JArr l =>
      Parr l ((fix go (l : list json) : Forall P l :=
                 match l with
                 | [] => Forall_nil_2 _
                 | x :: l' => Forall_cons_2 _ _ _ (json_nested_ind x) (go l')
                 end) l)
  | JObj kvs =>
      Pobj kvs ((fix go (l : list (string * json)) : Forall (λ kv, P kv.2) l :=
                   match l with
                   | [] => Forall_nil_2 _
                   | kv :: l' => Forall_cons_2 _ _ _ (json_nested_ind kv.2) (go l')
                   end) kvs)
  end.
End json_nested_ind.

(** The fuel [parse_value] needs for a value: one for the value, and for
    each element or member one more than the element's own. *)
Fixpoint json_size (j : json) : nat :=
  match j with
  | JArr l => S (sum_list_with (λ x, S (json_size x)) l)
  | JObj kvs => S (sum_list_with (λ kv, S (json_size kv.2)) kvs)
  | _ => 1
  end.

(** ** Reading back what [dump] writes: values *)

(** What follows a value in [dump]'s text: a comma, a newline or the end. *)
Definition follows_val (rest : string) : bool :=
  match rest with String c _ => is_chr 44 c || is_chr 10 c | EmptyString => true end.

Lemma follows_val_num rest : follows_val rest = true → follows_num rest = true.
Proof.
  destruct rest as [|c r]; [done|]. unfold follows_val, follows_num, float_follows, is_digit, is_chr.
  intros H. apply orb_true_iff in H as [H|H]; apply Z.eqb_eq in H; rewrite H; done.
Qed.

(** The text of a value starts with a character that is neither
    whitespace nor a closing bracket or brace. *)
Lemma dump_start lvl j t :
  ∃ c u, dump_at lvl j +:+ t = String c u ∧
         is_ws c = false ∧ is_chr 93 c = false ∧ is_chr 125 c = false.
Proof.
  destruct j as [|[]|z|s|[|x xs]|[|kv kvs]]; cbn [dump_at];
    rewrite ?string_app_cons; try by eexists _, _.
  unfold dump_int. destruct (to_int_canonical z) as ([] & d & -> & [Hnil _]);
    [by eexists _, _|]. cbn [NilEmpty.string_of_int].
  destruct d; try congruence; cbn [NilEmpty.string_of_uint]; rewrite string_app_cons;
    by eexists _, _.
Qed.

Lemma skip_ws_dump lvl j t : skip_ws (dump_at lvl j +:+ t) = dump_at lvl j +:+ t.
Proof.
  destruct (dump_start lvl j t) as (c & u & E & Hws & _). rewrite E. cbn. by rewrite Hws.
Qed.

Lemma sep_items_cons {A} lvl (d : A → string) y l :
  sep_items lvl d (y :: l) = "," +:+ nl lvl +:+ d y +:+ sep_items lvl d l.
Proof. reflexivity. Qed.

Lemma sep_items_nil {A} lvl (d : A → string) : sep_items lvl d [] = "".
Proof. reflexivity. Qed.

(** [parse_value] reads the text of [j] back, with enough fuel. *)
Definition reads_back (j : json) : Prop :=
  ∀ (lvl : nat) rest (n : nat), follows_val rest = true → (json_size j ≤ n)%nat →
  parse_value n (dump_at lvl j +:+ rest) = POk j rest.

Lemma follows_val_nl lvl t : follows_val (nl lvl +:+ t) = true.
Proof. unfold nl. by rewrite string_app_cons. Qed.

Lemma follows_val_comma t : follows_val ("," +:+ t) = true.
Proof. by rewrite string_app_cons. Qed.

(** Normal form of concatenations: nested to the right, no empty string. *)
Ltac norm_app := rewrite <- ?string_app_assoc, ?string_app_nil_l.

(** The same, with the literal characters in front moved out. *)
Ltac norm_str :=
  repeat (rewrite <- string_app_assoc || rewrite string_app_cons || rewrite string_app_nil_l).

Lemma parse_elems_dump lvl x xs rest f :
  Forall reads_back (x :: xs) → (sum_list_with (λ y, S (json_size y)) (x :: xs) ≤ f)%nat →
  parse_elems f (dump_at (S lvl) x +:+ sep_items (S lvl) (dump_at (S lvl)) xs +:+
                 nl lvl +:+ "]" +:+ rest) = POk (x :: xs) rest.
Proof.
  revert x f; induction xs as [|y ys IH]; intros x f HF Hf;
    inversion HF as [|? ? Hx Hxs]; subst; destruct f as [|g]; cbn [sum_list_with] in Hf;
    try lia; cbn [parse_elems].
  - rewrite sep_items_nil, string_app_nil_l, Hx; [|apply follows_val_nl|lia].
    rewrite skip_ws_nl, string_app_cons, string_app_nil_l. reflexivity.
  - rewrite sep_items_cons. norm_app.
    rewrite Hx; [|apply follows_val_comma|lia].
    rewrite string_app_cons, string_app_nil_l. cbn [skip_ws].
    replace (is_ws ",") with false by reflexivity.
    replace (is_chr 44 ",") with true by reflexivity.
    cbn [pmap]. rewrite skip_ws_nl, skip_ws_dump.
    rewrite (IH y g); [done|done|cbn [sum_list_with]; lia].
Qed.

Lemma skip_ws_member d kv t : skip_ws (member d kv +:+ t) = member d kv +:+ t.
Proof. unfold member, dump_str. by rewrite !string_app_cons. Qed.

Lemma parse_members_dump lvl kv kvs rest f :
  Forall (λ kv, reads_back kv.2) (kv :: kvs) →
  (sum_list_with (λ kv, S (json_size kv.2)) (kv :: kvs) ≤ f)%nat →
  parse_members f (member (dump_at (S lvl)) kv +:+
                   sep_items (S lvl) (member (dump_at (S lvl))) kvs +:+
                   nl lvl +:+ "}" +:+ rest) = POk (kv :: kvs) rest.
Proof.
  revert kv f; induction kvs as [|kv' kvs IH]; intros [k v] f HF Hf;
    inversion HF as [|? ? Hv Hkvs]; subst; destruct f as [|g]; cbn [sum_list_with] in Hf;
    try lia; unfold member at 1, dump_str; cbn [fst snd];
    rewrite ?sep_items_nil, ?sep_items_cons; norm_str; cbn [parse_members];
    replace (is_chr 34 QUOTE) with true by reflexivity;
    rewrite scan_string_escape; cbn [skip_ws];
    replace (is_ws ":") with false by reflexivity;
    replace (is_chr 58 ":") with true by reflexivity;
    cbn [skip_ws]; replace (is_ws " ") with true by reflexivity;
    rewrite skip_ws_dump.
  - rewrite Hv; [|apply follows_val_nl|cbn in *; lia].
    rewrite skip_ws_nl. reflexivity.
  - rewrite Hv; [|reflexivity|cbn in *; lia].
    cbn [skip_ws].
    replace (is_ws ",") with false by reflexivity.
    replace (is_chr 44 ",") with true by reflexivity.
    cbn [pmap]. rewrite skip_ws_nl, skip_ws_member.
    change (String "}" rest) with ("}" +:+ rest).
    rewrite (IH kv' g); [done|done|cbn [sum_list_with]; lia].
Qed.

(** [val] of a character literal, as a number. *)
Ltac val_lits :=
  repeat match goal with
  | |- context [val (Ascii ?b0 ?b1 ?b2 ?b3 ?b4 ?b5 ?b6 ?b7)] =>
      let v := eval vm_compute in (val (Ascii b0 b1 b2 b3 b4 b5 b6 b7)) in
      change (val (Ascii b0 b1 b2 b3 b4 b5 b6 b7)) with v
  end.

Lemma ascii_eqb_val a c : val a ≠ val c → Ascii.eqb a c = false.
Proof. intros H. apply Ascii.eqb_neq. by intros ->. Qed.

Lemma dump_int_start z t :
  ∃ c u, dump_int z +:+ t = String c u ∧ (val c = 45 ∨ 48 ≤ val c ≤ 57).
Proof.
  unfold dump_int. destruct (to_int_canonical z) as ([] & d & -> & [Hnil _]);
    cbn [NilEmpty.string_of_int]; [rewrite string_app_cons; eexists _, _; split; [done|left; reflexivity]|].
  destruct d; try congruence; cbn [NilEmpty.string_of_uint]; rewrite string_app_cons;
    (eexists _, _; split; [done|right; val_lits; lia]).
Qed.

(** A value starting with a minus sign or a digit is a number. *)
Lemma parse_value_num f c t :
  val c = 45 ∨ 48 ≤ val c ≤ 57 →
  parse_value (S f) (String c t) = of_option ((λ '(z, rest), (JNum z, rest)) <$> scan_int (String c t)).
Proof.
  intros Hc. cbn [parse_value]. unfold is_chr. decide_cmp.
  cbn [strip]. rewrite !ascii_eqb_val by (val_lits; lia). done.
Qed.

Lemma dump_reads_back j : reads_back j.
Proof.
  induction j as [| b | z | s | l Hl | kvs Hkvs] using json_nested_ind;
    intros lvl rest n Hr Hn; destruct n as [|f]; cbn [json_size] in Hn; try lia.
  - cbn [dump_at]. norm_str. reflexivity.
  - destruct b; cbn [dump_at]; norm_str; reflexivity.
  - cbn [dump_at]. destruct (dump_int_start z rest) as (c & u & E & Hc).
    rewrite E, parse_value_num, <- E, scan_int_dump by (done || by apply follows_val_num).
    reflexivity.
  - cbn [dump_at]. unfold dump_str. norm_app. rewrite string_app_cons. cbn [parse_value].
    replace (is_chr 34 QUOTE) with true by reflexivity.
    by rewrite <- string_app_assoc, string_app_cons, string_app_nil_l, scan_string_escape.
  - destruct l as [|x xs]; cbn [dump_at]; norm_app; rewrite string_app_cons, ?string_app_nil_l;
      cbn [parse_value];
      replace (is_chr 34 "[") with false by reflexivity;
      replace (is_chr 91 "[") with true by reflexivity; cbn [skip_ws].
    + replace (is_ws "]") with false by reflexivity.
      replace (is_chr 93 "]") with true by reflexivity. done.
    + rewrite skip_ws_nl, skip_ws_dump.
      destruct (dump_start (S lvl) x (sep_items (S lvl) (dump_at (S lvl)) xs +:+ nl lvl +:+ "]" +:+ rest))
        as (c & u & E & _ & H93 & _).
      rewrite E, H93, <- E, parse_elems_dump; [done|done|lia].
  - destruct kvs as [|kv kvs]; cbn [dump_at]; norm_app; rewrite string_app_cons, ?string_app_nil_l;
      cbn [parse_value];
      replace (is_chr 34 "{") with false by reflexivity;
      replace (is_chr 91 "{") with false by reflexivity;
      replace (is_chr 123 "{") with true by reflexivity; cbn [skip_ws].
    + replace (is_ws "}") with false by reflexivity.
      replace (is_chr 125 "}") with true by reflexivity. done.
    + rewrite skip_ws_nl, skip_ws_member.
      assert (Hq : ∃ u, member (dump_at (S lvl)) kv +:+
                          (sep_items (S lvl) (member (dump_at (S lvl))) kvs +:+ nl lvl +:+ "}" +:+ rest)
                        = String QUOTE u).
      { unfold member, dump_str. rewrite string_app_cons. by eexists. }
      destruct Hq as [u E].
      rewrite E. replace (is_chr 125 QUOTE) with false by reflexivity.
      rewrite <- E, parse_members_dump; [done|done|lia].
Qed.

(** ** The dumped text is UTF-8 *)

Lemma escape_app s t : escape (s +:+ t) = escape s +:+ escape t.
Proof. induction s as [|c s IH]; [done|]. rewrite string_app_cons. cbn [escape]. by rewrite IH, string_app_assoc. Qed.

Lemma escape_high a r : 128 ≤ val a → escape (String a r) = String a (escape r).
Proof. intros H. cbn [escape]. unfold escape_char. cbv zeta. by decide_cmp. Qed.

(** A character of two, three or four bytes is written as it is. *)
Lemma escape_high_bytes s : high_bytes s → escape s = s.
Proof.
  induction s as [|a s IH]; [done|]. cbn [high_bytes]. intros [Ha Hs].
  rewrite escape_high by done. by rewrite IH.
Qed.

Lemma utf8_valid_ascii_cons a r : val a < 0x80 → utf8_valid (String a r) = utf8_valid r.
Proof.
  intros H. unfold utf8_valid. cbn [decode]. decide_cmp.
  by destruct (decode r).
Qed.

(** An ASCII character is written as ASCII characters. *)
Lemma escape_char_ascii a : val a < 128 → utf8_valid (escape_char a) = true.
Proof.
  destruct a as [[] [] [] [] [] [] [] []]; intros H;
    first [vm_compute; reflexivity | exfalso; revert H; val_lits; lia].
Qed.

Lemma escape_encode_valid cps :
  Forall (λ c, valid_cp c = true) cps → utf8_valid (escape (encode cps)) = true.
Proof.
  induction 1 as [|c cps Hc _ IH]; [done|].
  rewrite encode_cons, escape_app. apply utf8_valid_app; [|done].
  apply valid_cp_spec in Hc as Hc'. destruct (Z.ltb_spec c 0x80).
  - unfold encode_cp. decide_cmp. cbn [escape]. rewrite string_app_nil_r.
    apply escape_char_ascii. rewrite val_byte_of; lia.
  - rewrite escape_high_bytes by (apply encode_cp_high; lia). by apply utf8_valid_encode_cp.
Qed.

Lemma escape_valid s : utf8_valid s = true → utf8_valid (escape s) = true.
Proof.
  unfold utf8_valid at 1. rewrite bool_decide_eq_true. intros [cps Hd].
  destruct (decode_sound s cps Hd) as [<- Hv]. by apply escape_encode_valid.
Qed.

(** The strings and keys of a value are UTF-8: a value a script builds
    from Python [str]s has this property, since its strings are
    sequences of scalar values. *)
Fixpoint strings_valid (j : json) : bool :=
  match j with
  | JStr s => utf8_valid s
  | JArr l => forallb strings_valid l
  | JObj kvs => forallb (λ kv, utf8_valid kv.1 && strings_valid kv.2) kvs
  | _ => true
  end.

Lemma Forall_forallb_impl {A} (P : A → Prop) (f : A → bool) l :
  Forall (λ x, f x = true → P x) l → forallb f l = true → Forall P l.
Proof.
  rewrite !Forall_forall, forallb_forall. intros H Hf x Hx.
  apply H; [done|]. apply Hf. by apply list_elem_of_In.
Qed.

Lemma utf8_valid_spaces n : utf8_valid (spaces n) = true.
Proof. induction n; [done|]. cbn [spaces]. by rewrite utf8_valid_ascii_cons by (val_lits; lia). Qed.

Lemma utf8_valid_nl lvl : utf8_valid (nl lvl) = true.
Proof. unfold nl, NL. rewrite utf8_valid_ascii_cons by (rewrite val_chr; lia). apply utf8_valid_spaces. Qed.

Lemma utf8_valid_dump_int z : utf8_valid (dump_int z) = true.
Proof.
  assert (Hu : ∀ d, utf8_valid (NilEmpty.string_of_uint d) = true).
  { induction d; [done|..]; cbn [NilEmpty.string_of_uint];
      by rewrite utf8_valid_ascii_cons by (val_lits; lia). }
  unfold dump_int. destruct (Z.to_int z); cbn [NilEmpty.string_of_int]; [done|].
  by rewrite utf8_valid_ascii_cons by (val_lits; lia).
Qed.

Lemma utf8_valid_dump_str s : utf8_valid s = true → utf8_valid (dump_str s) = true.
Proof.
  intros Hs. unfold dump_str, QUOTE. rewrite utf8_valid_ascii_cons by (rewrite val_chr; lia).
  apply utf8_valid_app; [by apply escape_valid|done].
Qed.

Lemma utf8_valid_sep_items {A} lvl (d : A → string) l :
  Forall (λ y, utf8_valid (d y) = true) l → utf8_valid (sep_items lvl d l) = true.
Proof.
  induction 1; [done|]. rewrite sep_items_cons.
  repeat apply utf8_valid_app; auto using utf8_valid_nl.
Qed.

Lemma utf8_valid_dump j lvl : strings_valid j = true → utf8_valid (dump_at lvl j) = true.
Proof.
  revert lvl. induction j as [| b | z | s | l Hl | kvs Hkvs] using json_nested_ind;
    intros lvl Hj; cbn [strings_valid] in Hj.
  - done.
  - by destruct b.
  - apply utf8_valid_dump_int.
  - by apply utf8_valid_dump_str.
  - destruct l as [|x xs]; [done|]. cbn [forallb] in Hj. apply andb_prop in Hj as [Hx Hxs].
    inversion Hl as [|? ? IHx IHxs]; subst. cbn [dump_at].
    repeat apply utf8_valid_app; auto using utf8_valid_nl.
    apply utf8_valid_sep_items. eapply Forall_forallb_impl; [|exact Hxs].
    eapply Forall_impl; [exact IHxs|]. naive_solver.
  - destruct kvs as [|[k v] kvs]; [done|]. cbn [forallb fst snd] in Hj.
    apply andb_prop in Hj as [[Hk Hv]%andb_prop Hkvs'].
    inversion Hkvs as [|? ? IHv IHkvs]; subst. cbn [dump_at].
    assert (Hm : ∀ kv, utf8_valid kv.1 && strings_valid kv.2 = true →
                       (∀ lvl, strings_valid kv.2 = true → utf8_valid (dump_at lvl kv.2) = true) →
                       utf8_valid (member (dump_at (S lvl)) kv) = true).
    { intros [k' v'] [Hk' Hv']%andb_prop IH. unfold member.
      repeat apply utf8_valid_app; auto using utf8_valid_dump_str. }
    assert (Hsep : utf8_valid (sep_items (S lvl) (member (dump_at (S lvl))) kvs) = true).
    { apply utf8_valid_sep_items. eapply Forall_forallb_impl; [|exact Hkvs'].
      eapply Forall_impl; [exact IHkvs|]. intros kv IH H. by apply Hm. }
    apply utf8_valid_app; [done|]. apply utf8_valid_app; [apply utf8_valid_nl|].
    apply utf8_valid_app; [apply (Hm (k, v)); [cbn; by rewrite Hk, Hv|exact IHv]|].
    apply utf8_valid_app; [exact Hsep|]. apply utf8_valid_app; [apply utf8_valid_nl|done].
Qed.

(** ** Fuel: a value is no larger than its text *)

Lemma length_nl lvl : String.length (nl lvl) = S (2 * lvl).
Proof.
  unfold nl. cbn [String.length]. f_equal.
  generalize (2 * lvl)%nat. intros n. induction n; cbn; auto.
Qed.

Lemma sep_items_length {A} lvl (d : A → string) (f : A → nat) l :
  Forall (λ y, (f y ≤ S (S (String.length (d y))))%nat) l →
  (sum_list_with f l ≤ String.length (sep_items lvl d l))%nat.
Proof.
  induction 1; [cbn; lia|]. rewrite sep_items_cons, !string_length_app, length_nl.
  cbn [sum_list_with String.length]. lia.
Qed.

Lemma json_size_dump j lvl : (json_size j ≤ String.length (dump_at lvl j))%nat.
Proof.
  revert lvl. induction j as [| b | z | s | l Hl | kvs Hkvs] using json_nested_ind; intros lvl.
  - cbn. lia.
  - destruct b; cbn; lia.
  - destruct (dump_int_start z "") as (c & u & E & _). rewrite string_app_nil_r in E.
    cbn [dump_at json_size]. rewrite E. cbn. lia.
  - cbn. lia.
  - destruct l as [|x xs]; [cbn; lia|]. inversion Hl as [|? ? IHx IHxs]; subst.
    cbn [dump_at json_size sum_list_with]. rewrite !string_length_app, !length_nl.
    pose proof (IHx (S lvl)).
    pose proof (sep_items_length (S lvl) (dump_at (S lvl)) (λ x, S (json_size x)) xs
                  ltac:(eapply Forall_impl; [exact IHxs|]; intros y Hy; cbn; specialize (Hy (S lvl)); lia)).
    cbn [String.length]. lia.
  - destruct kvs as [|kv kvs]; [cbn; lia|]. inversion Hkvs as [|? ? IHv IHkvs]; subst.
    assert (Hm : ∀ kv : string * json, (∀ lvl, json_size kv.2 ≤ String.length (dump_at lvl kv.2))%nat →
                   (json_size kv.2 ≤ String.length (member (dump_at (S lvl)) kv))%nat).
    { intros kv' Hkv. unfold member. rewrite !string_length_app. specialize (Hkv (S lvl)). lia. }
    cbn [dump_at json_size sum_list_with]. rewrite !string_length_app, !length_nl.
    pose proof (Hm kv IHv).
    pose proof (sep_items_length (S lvl) (member (dump_at (S lvl))) (λ kv, S (json_size kv.2)) kvs
                  ltac:(eapply Forall_impl; [exact IHkvs|]; intros y Hy; cbn; specialize (Hm y Hy); lia)).
    cbn [String.length]. lia.
Qed.

(** ** [json.load] reads what [json.dump] writes *)

(** Reading the text [json.dump] writes gives back the value: the
    text is UTF-8 when the strings of the value are, and [json.decoder]
    reads exactly the value from it, with nothing left but the end of the
    file. *)
Theorem load_dump j : strings_valid j = true → load (dump j) = Some j.
Proof.
  intros Hj. unfold load, dump. rewrite utf8_valid_dump by done. cbv zeta.
  rewrite <- (string_app_nil_r (dump_at 0 j)), skip_ws_dump.
  rewrite dump_reads_back; [done|done|].
  unfold parse_fuel. rewrite string_app_nil_r. pose proof (json_size_dump j 0). lia.
Qed.

(** The round trip at a document of two keys, one of them with an accent
    (two bytes in UTF-8) and a control character, the other a list with a
    negative number and [null]. *)
Example load_dump_witness :
  strings_valid (JObj [("città", JStr "a	b"); ("l", JArr [JNum (-12); JNull; JObj []])]) = true ∧
  load (dump (JObj [("città", JStr "a	b"); ("l", JArr [JNum (-12); JNull; JObj []])])) =
    Some (JObj [("città", JStr "a	b"); ("l", JArr [JNum (-12); JNull; JObj []])]).
Proof. split; [vm_compute; reflexivity|apply load_dump; vm_compute; reflexivity]. Defined.

(** ** Consumption: every scanner that succeeds reads a character *)

Lemma skip_ws_length s : (String.length (skip_ws s) ≤ String.length s)%nat.
Proof. induction s as [|c s IH]; cbn; [lia|]. destruct (is_ws c); cbn; lia. Qed.

Lemma strip_length p s r : strip p s = Some r → String.length r = (String.length s - String.length p)%nat.
Proof.
  revert s; induction p as [|a p IH]; intros [|b s] H; cbn in H; simplify_eq; cbn; [lia|lia|].
  destruct (Ascii.eqb a b); [by apply IH|done].
Qed.

Lemma take_digits_length s : (String.length (take_digits s).1 + String.length (take_digits s).2)%nat = String.length s.
Proof.
  induction s as [|c s IH]; [done|]. cbn. destruct (is_digit c); [|done].
  destruct (take_digits s). cbn in *. lia.
Qed.

Lemma scan_int_length s z r : scan_int s = Some (z, r) → (String.length r < String.length s)%nat.
Proof.
  unfold scan_int, scan_unsigned.
  assert (Hs : (String.length (sign s).2 ≤ String.length s)%nat).
  { destruct s; cbn; [lia|]. destruct (is_chr 45 a); cbn; lia. }
  destruct (sign s) as [neg s1]. cbn in Hs. pose proof (take_digits_length s1) as Hl.
  destruct (take_digits s1) as [ds rest]. cbn in Hl.
  destruct ds; [done|]. intros H. destruct (_ || _ || _); [done|].
  destruct (NilEmpty.uint_of_string _); [|done]. cbn in H. simplify_eq. cbn in Hl. lia.
Qed.

Lemma prepend_Some p o k r : prepend p o = Some (k, r) → ∃ b, o = Some (b, r).
Proof. unfold prepend. destruct o as [[b rest]|]; cbn; intros; simplify_eq. by eexists. Qed.

Lemma scan_string_length s k r : scan_string s = Some (k, r) → (String.length r < String.length s)%nat.
Proof.
  remember (String.length s) as n eqn:En. revert s k r En.
  induction n as [n IH] using lt_wf_ind; intros [|c s] k r En H; [done|].
  cbn [scan_string] in H. unfold mbind, option_bind in H.
  repeat (case_match; simplify_eq/=; try done);
    repeat match goal with
    | H : prepend _ _ = Some _ |- _ => apply prepend_Some in H as [? H]
    | H : scan_string ?x = Some _ |- _ =>
        apply (IH (String.length x)) in H; [|cbn in *; lia|done]
    end; cbn in *; lia.
Qed.

(** The length of a text after its whitespace, as a number no larger
    than the length of the text. *)
Local Ltac skip_lengths :=
  repeat match goal with
  | |- context [String.length (skip_ws ?x)] =>
      let y := fresh "y" in pose proof (skip_ws_length x); set (y := skip_ws x) in *; clearbody y
  | H : context [String.length (skip_ws ?x)] |- _ =>
      let y := fresh "y" in pose proof (skip_ws_length x); set (y := skip_ws x) in *; clearbody y
  end.

(** Turns what a branch of the parser read into facts on lengths. *)
Local Ltac consumed IHv IHe IHm :=
  repeat match goal with
  | H : parse_value _ _ = POk _ _ |- _ => apply IHv in H
  | H : parse_elems _ _ = POk _ _ |- _ => apply IHe in H
  | H : parse_members _ _ = POk _ _ |- _ => apply IHm in H
  | H : _ <$> _ = Some _ |- _ => apply fmap_Some in H as ([? ?] & ? & ?); simplify_eq
  | H : scan_string _ = Some _ |- _ => apply scan_string_length in H
  | H : scan_int _ = Some _ |- _ => apply scan_int_length in H
  | H : strip _ _ = Some _ |- _ => apply strip_length in H
  | H : skip_ws ?x = _ |- _ => pose proof (skip_ws_length x); rewrite H in *; clear H
  end; cbn [String.length] in *; skip_lengths.

Lemma parse_consumes n :
  (∀ s v r, parse_value n s = POk v r → (String.length r < String.length s)%nat) ∧
  (∀ s l r, parse_elems n s = POk l r → (String.length r < String.length s)%nat) ∧
  (∀ s l r, parse_members n s = POk l r → (String.length r < String.length s)%nat).
Proof.
  induction n as [|f (IHv & IHe & IHm)]; [split_and!; by intros ???|].
  split_and!; intros s x r H; cbn [parse_value parse_elems parse_members] in H;
    unfold pmap, of_option in H; repeat (case_match; simplify_eq; try done);
    consumed IHv IHe IHm; lia.
Qed.

Lemma parse_total n :
  (∀ s, (2 * String.length s + 1 ≤ n)%nat → parse_value n s ≠ PFuel) ∧
  (∀ s, (2 * String.length s + 2 ≤ n)%nat → parse_elems n s ≠ PFuel) ∧
  (∀ s, (2 * String.length s + 2 ≤ n)%nat → parse_members n s ≠ PFuel).
Proof.
  pose proof (λ n, proj1 (parse_consumes n)) as Cv.
  pose proof (λ n, proj1 (proj2 (parse_consumes n))) as Ce.
  pose proof (λ n, proj2 (proj2 (parse_consumes n))) as Cm.
  induction n as [|f (IHv & IHe & IHm)]; [split_and!; intros; lia|].
  split_and!; intros s Hn; cbn [parse_value parse_elems parse_members];
    unfold pmap, of_option; repeat (case_match; simplify_eq; try done);
    consumed Cv Ce Cm;
    exfalso; first [eapply IHv; [|eassumption] | eapply IHe; [|eassumption]
                   | eapply IHm; [|eassumption]]; cbn [String.length]; skip_lengths; lia.
Qed.

(** The fuel [load] gives is enough: on any text, the parser ends
    with a value or a syntax error, never for want of fuel. *)
Lemma parse_value_fuel s : parse_value (parse_fuel s) s ≠ PFuel.
Proof. apply parse_total. unfold parse_fuel. lia. Qed.

(** ** What [json.load] returns is UTF-8 *)

(** Turns the comparisons a branch of the scanner took into arithmetic. *)
Local Ltac bools :=
  repeat match goal with
  | H : _ && _ = true |- _ => apply andb_prop in H as [? ?]
  | H : _ || _ = true |- _ => apply orb_prop in H as [?|?]
  | H : _ || _ = false |- _ => apply orb_false_iff in H as [? ?]
  | H : (_ <? _) = true |- _ => apply Z.ltb_lt in H
  | H : (_ <? _) = false |- _ => apply Z.ltb_ge in H
  | H : (_ <=? _) = true |- _ => apply Z.leb_le in H
  | H : (_ <=? _) = false |- _ => apply Z.leb_gt in H
  | H : (_ =? _) = true |- _ => apply Z.eqb_eq in H
  | H : (_ =? _) = false |- _ => apply Z.eqb_neq in H
  | H : is_chr _ _ = true |- _ => apply Z.eqb_eq in H
  | H : is_chr _ _ = false |- _ => apply Z.eqb_neq in H
  end.

Lemma prepend_Some_eq p o k r : prepend p o = Some (k, r) → ∃ b, o = Some (b, r) ∧ k = p +:+ b.
Proof. unfold prepend. destruct o as [[b rest]|]; cbn; intros; simplify_eq. by eexists. Qed.

(** A character of two to four bytes is copied as it is. *)
Lemma scan_string_high p t : high_bytes p → scan_string (p +:+ t) = prepend p (scan_string t).
Proof.
  induction p as [|a p IH]; intros Hp.
  { change ("" +:+ t) with t. unfold prepend. by destruct (scan_string t) as [[]|]. }
  destruct Hp as [Ha Hp]. rewrite string_app_cons. cbn [scan_string]. unfold is_chr. decide_cmp.
  rewrite IH by done. unfold prepend. by destruct (scan_string t) as [[]|].
Qed.

Lemma unescape_ascii e d : unescape e = Some d → val e < 128 ∧ val d < 128.
Proof.
  unfold unescape, QUOTE, BSLASH, NL. cbv zeta. intros H.
  repeat case_match; simplify_eq; bools; rewrite val_chr; lia.
Qed.

Lemma hex_val_ascii h x : hex_val h = Some x → val h < 128 ∧ 0 ≤ x < 16.
Proof. unfold hex_val. cbv zeta. intros H. repeat case_match; simplify_eq; bools; lia. Qed.

Lemma hex4_ascii a b c d u :
  hex4 a b c d = Some u → val a < 128 ∧ val b < 128 ∧ val c < 128 ∧ val d < 128 ∧ 0 ≤ u < 65536.
Proof.
  unfold hex4, mbind, option_bind. intros H. repeat case_match; simplify_eq.
  repeat match goal with H : hex_val _ = Some _ |- _ => apply hex_val_ascii in H end. lia.
Qed.

Lemma scan_string_valid s k rest :
  utf8_valid s = true → scan_string s = Some (k, rest) → utf8_valid k = true ∧ utf8_valid rest = true.
Proof.
  remember (String.length s) as n eqn:En. revert s k rest En.
  induction n as [n IH] using lt_wf_ind; intros [|c r] k rest En Hv H; [done|].
  destruct (Z.le_gt_cases 128 (val c)) as [Hc|Hc].
  - destruct (utf8_valid_high_split c r Hv Hc) as (p & t & E & Hp & Hne & Hpv & Htv).
    rewrite E, scan_string_high in H by done. apply prepend_Some_eq in H as (b & Hb & ->).
    assert (Hl : (String.length t < n)%nat).
    { rewrite En, E, string_length_app. destruct p; [done|]. cbn. lia. }
    destruct (IH _ Hl t b rest eq_refl Htv Hb). split; [by apply utf8_valid_app|done].
  - rewrite utf8_valid_ascii_cons in Hv by lia.
    cbn [scan_string] in H. unfold mbind, option_bind in H.
    repeat (case_match; simplify_eq; try done); bools; try lia;
    repeat match goal with
    | H : unescape _ = Some _ |- _ => apply unescape_ascii in H as [? ?]
    | H : hex4 _ _ _ _ = Some _ |- _ => apply hex4_ascii in H as (? & ? & ? & ? & ?)
    | H : utf8_valid (String _ _) = true |- _ => rewrite utf8_valid_ascii_cons in H by lia
    | H : prepend _ _ = Some _ |- _ => apply prepend_Some_eq in H as (? & ? & ->)
    | H : scan_string ?x = Some (_, _) |- _ =>
        apply (IH (String.length x)) in H as [? ?]; [|cbn in *; lia|done|done]
    end;
    (split; [|done]);
    first [ rewrite string_app_cons, utf8_valid_ascii_cons by lia; done
          | apply utf8_valid_app; [apply utf8_valid_encode_cp, valid_cp_spec; lia|done] ].
Qed.

Lemma skip_ws_valid s : utf8_valid s = true → utf8_valid (skip_ws s) = true.
Proof.
  induction s as [|c s IH]; [done|]. cbn [skip_ws]. destruct (is_ws c) eqn:E; [|done].
  unfold is_ws in E. intros Hv. apply IH. rewrite utf8_valid_ascii_cons in Hv; [done|]. bools; lia.
Qed.

Lemma strip_app p s r : strip p s = Some r → s = p +:+ r.
Proof.
  revert s; induction p as [|a p IH]; intros [|b s] H; cbn in H; simplify_eq; [done|done|].
  destruct (Ascii.eqb a b) eqn:E; [|done]. apply Ascii.eqb_eq in E as ->.
  rewrite string_app_cons. by rewrite <- (IH s H).
Qed.

Lemma take_digits_valid s : utf8_valid s = true → utf8_valid (take_digits s).2 = true.
Proof.
  induction s as [|c s IH]; [done|]. cbn [take_digits]. destruct (is_digit c) eqn:E; [|done].
  unfold is_digit in E. intros Hv.
  assert (Hs : utf8_valid s = true) by (rewrite utf8_valid_ascii_cons in Hv; [done|]; bools; lia).
  specialize (IH Hs). by destruct (take_digits s) as [d rest].
Qed.

Lemma scan_int_valid s z r : utf8_valid s = true → scan_int s = Some (z, r) → utf8_valid r = true.
Proof.
  intros Hv. unfold scan_int.
  assert (Hs : utf8_valid (sign s).2 = true).
  { destruct s as [|c s]; [done|]. cbn. destruct (is_chr 45 c) eqn:E; [|done].
    cbn. rewrite utf8_valid_ascii_cons in Hv; [done|]. bools; lia. }
  destruct (sign s) as [neg s1]. cbn in Hs. unfold scan_unsigned.
  pose proof (take_digits_valid s1 Hs) as Ht. destruct (take_digits s1) as [ds rest]. cbn in Ht.
  destruct (_ || _ || _); [done|]. destruct (NilEmpty.uint_of_string ds); [|done].
  cbn. intros H; simplify_eq. done.
Qed.

(** Derives the validity of every suffix a branch of the parser reads. *)
Local Ltac vfacts IHv IHe IHm :=
  repeat match goal with
  | E : skip_ws ?y = ?x, Hy : utf8_valid ?y = true |- _ =>
      let H := fresh "Hw" in pose proof (skip_ws_valid y Hy) as H; rewrite E in H; clear E
  | H : utf8_valid (String ?c _) = true, Hc : val ?c = _ |- _ =>
      rewrite utf8_valid_ascii_cons in H by lia
  | H : _ <$> _ = Some _ |- _ => apply fmap_Some in H as ([? ?] & ? & ?); simplify_eq
  | H : scan_string ?x = Some (?k, ?r), Hx : utf8_valid ?x = true |- _ =>
      destruct (scan_string_valid x k r Hx H); clear H
  | H : scan_int ?x = Some (_, ?r), Hx : utf8_valid ?x = true |- _ =>
      pose proof (scan_int_valid x _ r Hx H); clear H
  | H : strip _ ?x = Some _, Hx : utf8_valid ?x = true |- _ =>
      apply strip_app in H; rewrite H, !string_app_cons in Hx; clear H;
      rewrite !utf8_valid_ascii_cons in Hx by (val_lits; lia)
  | H : parse_value _ _ = POk _ _ |- _ =>
      apply IHv in H as [? ?]; [|first [assumption|apply skip_ws_valid; assumption]]
  | H : parse_elems _ _ = POk _ _ |- _ =>
      apply IHe in H as [? ?]; [|first [assumption|apply skip_ws_valid; assumption]]
  | H : parse_members _ _ = POk _ _ |- _ =>
      apply IHm in H as [? ?]; [|first [assumption|apply skip_ws_valid; assumption]]
  end.

Lemma parse_valid n :
  (∀ s v r, parse_value n s = POk v r → utf8_valid s = true →
            strings_valid v = true ∧ utf8_valid r = true) ∧
  (∀ s l r, parse_elems n s = POk l r → utf8_valid s = true →
            forallb strings_valid l = true ∧ utf8_valid r = true) ∧
  (∀ s kvs r, parse_members n s = POk kvs r → utf8_valid s = true →
              forallb (λ kv, utf8_valid kv.1 && strings_valid kv.2) kvs = true ∧ utf8_valid r = true).
Proof.
  induction n as [|f (IHv & IHe & IHm)]; [split_and!; by intros ???|].
  split_and!; intros s x r H Hs; cbn [parse_value parse_elems parse_members] in H;
    unfold pmap, of_option in H; repeat (case_match; simplify_eq; try done); bools;
    vfacts IHv IHe IHm; cbn [strings_valid forallb fst snd];
    rewrite ?andb_true_r, ?andb_true_iff; tauto.
Qed.

(** Every string [json.load] returns, keys included, is UTF-8. *)
Lemma load_valid s j : load s = Some j → strings_valid j = true.
Proof.
  unfold load. destruct (utf8_valid s) eqn:Hv; [|done]. cbv zeta.
  destruct (parse_value _ _) as [v rest| |] eqn:E; try done.
  case_bool_decide; [|done]. intros [= <-].
  apply (proj1 (parse_valid _)) in E as [? _]; [done|]. by apply skip_ws_valid.
Qed.

End Json.
