(* ===== verification/Dataset.v ===== *)
(** * The three scripts run on one deck

    Each script is a module-level program: its loop writes the documents
    and merges [decks/fr-it/index.json] ([Writer.run]).  The three scripts
    share the directory and the index.  This file gives the runs of the
    three scripts.  It states what a run leaves when one verb is added to a
    script, and what the deck holds after the third-conjugation and the
    irregular scripts, which both write [finir.json]. *)

From stdpp Require Import base list strings gmap.
From S2P Require Import Prelude Compound Engine Ere Ire Irregular Writer.

Import Writer.

Module Dataset.

(** The loop body of [src/Create2ndGroupVerbs.py] (line 226): one item of
    [SPEC.items()] unpacked into the arguments of [build_json]. *)
Definition ere_build (e : string * (string * string * string)) : option (string * verb_record) :=
  let '(it, (fr_disp, fr_ascii, aux)) := e in Ere.build_json it fr_disp fr_ascii aux.

(** Lines 223-238 of [src/Create2ndGroupVerbs.py]. *)
Definition run_ere (s : fs_state) : fs_state * bool := run ere_build Ere.SPEC s.

(** Lines 198-211 of [src/Create3rdGroupVerbs.py]. *)
Definition run_ire (s : fs_state) : fs_state * bool := run Ire.build_json Ire.VERBS s.

(** Lines 426-439 of [src/CreateIrregularVerbs.py]. *)
Definition run_irregular (s : fs_state) : fs_state * bool :=
  run Irregular.build_json Irregular.VERBS s.

Definition empty_deck : fs_state := {| documents := ∅; index := IndexMissing |}.

(** The file names listed in a written index. *)
Definition index_names (s : fs_state) : option (list string) :=
  match index s with
  | IndexParsed (JObj [("files", JArr l)]) =>
      mapM (λ j, match j with JStr x => Some x | _ => None end) l
  | _ => None
  end.

(** ** Lemmas *)

Lemma mapM_snoc {B C} (f : B → option C) l x ps y :
  mapM f l = Some ps → f x = Some y → mapM f (l ++ [x]) = Some (ps ++ [y]).
Proof.
  intros Hl%mapM_Some_1 Hx. apply mapM_Some_2, Forall2_app; [done|by constructor].
Qed.

(** The documents a run leaves are those of its loop, whether the merge
    succeeds or raises. *)
Lemma run_documents {A} (build : A → option (string * verb_record)) verbs s :
  documents (run build verbs s).1 = documents (write_all build verbs s).1.
Proof.
  unfold run. destruct (write_all build verbs s) as [s' [names|]]; [|done].
  cbn. by destruct (merge_index _ _).
Qed.

Lemma ins_all_snoc ps n r m : ins_all (ps ++ [(n, r)]) m = <[n := r]> (ins_all ps m).
Proof. unfold ins_all. by rewrite foldl_app. Qed.

(** ** Properties *)

(** C25: [finir.json] is written by two scripts.  Whatever the deck held
    before, after the third-conjugation script and then the irregular
    script (the order of the repository), [finir.json] holds the irregular
    document of [finire], whose imperfect is "io finvo" (C16); the
    third-conjugation document it replaced had "io finivo".  This holds
    whether or not the index merges succeed, since the documents are
    written before the index is read. *)
Theorem finir_overwritten s :
  ∃ r_ire r_irr,
    Ire.build_json "finire" = Some ("finir.json", r_ire) ∧
    Irregular.build_json "finire" = Some ("finir.json", r_irr) ∧
    documents (run_irregular (run_ire s).1).1 !! "finir.json" = Some r_irr ∧
    ind_imperfetto r_ire !! 0 = Some "io finivo" ∧
    ind_imperfetto r_irr !! 0 = Some "io finvo".
Proof.
  set (ps := default [] (mapM Irregular.build_json Irregular.VERBS)).
  assert (Hps : mapM Irregular.build_json Irregular.VERBS = Some ps) by (vm_compute; reflexivity).
  eexists _, _. split_and!; [reflexivity|reflexivity| |reflexivity|reflexivity].
  unfold run_irregular. rewrite run_documents, (write_all_mapM _ _ _ ps Hps). cbn [fst documents].
  rewrite ins_all_lookup.
  vm_compute. reflexivity.
Qed.

(** C26: every auxiliary the three scripts configure is [avere] or
    [essere] (the invariant of spec section 3); the scripts never check it. *)
Theorem auxiliaries_valid :
  Forall (λ e, e.2.2 = "avere" ∨ e.2.2 = "essere") Ere.SPEC ∧
  Forall (λ e, e.2 = "avere" ∨ e.2 = "essere") Ire.AUX ∧
  Forall (λ e, e.2 = "avere" ∨ e.2 = "essere") Irregular.AUX.
Proof.
  split_and!; apply Forall_forall; intros e He; apply list_elem_of_In in He;
    vm_compute in He; repeat destruct He as [<-|He]; try contradiction; simpl; auto.
Qed.

(** C24: the last example of spec section 8.  After a successful run of a
    script, running it again with one more verb whose file name the index
    does not hold rewrites every earlier document with the same record,
    writes the new one, and appends exactly its name to the index. *)
Theorem run_new_verb {A} (build : A → option (string * verb_record)) verbs x s s1 ps files n r :
  mapM build verbs = Some ps →
  (index s = IndexMissing → distinct py_key_eqb (map JStr ps.*1) = true) →
  run build verbs s = (s1, true) → index s1 = index_of files →
  build x = Some (n, r) → mem py_key_eqb (JStr n) files = false →
  run build (verbs ++ [x]) s1 =
    ({| documents := <[n := r]> (documents s1); index := index_of (files ++ [JStr n]) |}, true).
Proof.
  intros Hps Hmiss Hrun Hi Hx Hn.
  unfold run in Hrun. rewrite (write_all_mapM build verbs s ps Hps) in Hrun. cbn [index] in Hrun.
  destruct (merge_index (index s) ps.*1) as [files0|] eqn:Hm; [|discriminate].
  injection Hrun as <-. cbn [index] in Hi. unfold index_of in Hi. injection Hi as ->.
  unfold run. rewrite (write_all_mapM build (verbs ++ [x]) _ (ps ++ [(n, r)])) by (by apply mapM_snoc).
  cbn [index documents]. rewrite fmap_app. change ([(n, r)].*1) with [n].
  change (IndexParsed (JObj [("files", JArr files)])) with (index_of files).
  rewrite (merge_index_new_verb (index s) ps.*1 files n Hmiss Hm Hn).
  by rewrite ins_all_snoc, ins_all_idem.
Qed.

(** Instances of the writer properties on the scripts. *)

(** The second-conjugation script on its first 24 verbs, then on all 25. *)
Lemma run_new_verb_witness :
  let verbs := take 24 Ere.SPEC in
  let x := nth 24 Ere.SPEC ("", ("", "", "")) in
  let ps := default [] (mapM ere_build verbs) in
  let s1 := (run ere_build verbs empty_deck).1 in
  let files := map JStr ps.*1 in
  ∃ n r, ere_build x = Some (n, r) ∧ mem py_key_eqb (JStr n) files = false ∧
    run ere_build (verbs ++ [x]) s1 =
      ({| documents := <[n := r]> (documents s1); index := index_of (files ++ [JStr n]) |}, true).
Proof.
  intros verbs x ps s1 files. eexists _, _.
  assert (Hx : ere_build x = Some (_, _)) by reflexivity.
  split_and!; [exact Hx|vm_compute; reflexivity|].
  apply (run_new_verb ere_build verbs x empty_deck s1 ps files); try exact Hx;
    try (intros _); vm_compute; reflexivity.
Defined.

Lemma run_idempotent_witness :
  run_ere (run_ere empty_deck).1 = ((run_ere empty_deck).1, true).
Proof.
  apply (run_idempotent _ Ere.SPEC empty_deck).
  - intros ps Hps _. vm_compute in Hps. injection Hps as <-. eval_tables.
  - eval_tables.
Defined.

Lemma run_failure_keeps_index_witness :
  index (run Ire.build_json ["dormire"] empty_deck).1 = index empty_deck.
Proof. apply (run_failure_keeps_index Ire.build_json ["dormire"] empty_deck). reflexivity. Defined.

End Dataset.
