(* ===== verification/Run.v ===== *)
(** * A script run as a state machine

    [Writer.run] gives the outcome of a script in one function.  The code
    gets there in separate effects, and their order matters once two
    scripts share [decks/fr-it] (spec 5):
    - one loop iteration per verb, where [build_json] writes one document
      (line 226 of [src/Create2ndGroupVerbs.py]);
    - the read of [index.json] (lines 230-232);
    - the computation of [files] (lines 233-235);
    - the write of [index.json] (lines 237-238).

    [step] is that sequence as a relation on a phase of the script and the
    deck.  [step_fn] is the same relation as a function, and [exec] runs it
    with a number of steps.  The lemmas show that the machine stops within
    [length verbs + 3] steps and that its final configuration is the
    outcome of [Writer.run].  The invariant of every reachable
    configuration, proved by induction on the steps, gives the state of
    [index.json] at every step (C29) and the end a run reaches when its
    documents build and its index merges (C31).  Two machines on one deck
    model two scripts run at the same time (C30). *)

From stdpp Require Import base list strings gmap relations.
From S2P Require Import Prelude Engine Ere Ire Writer Dataset.

Import Writer.

Module Run.

(** ** Configurations *)

(** Where a script is: in its loop, with the verbs still to do and the
    [new_files] collected so far; holding the index it has read; holding
    the [files] list it is about to write; finished; or dead of an
    exception. *)
Inductive phase (A : Type) :=
  | Loop (todo : list A) (new_files : list string)
  | Merge (idx : index_file) (new_files : list string)
  | Write (files : list json)
  | Done
  | Crashed.
Arguments Loop {A} _ _.
Arguments Merge {A} _ _.
Arguments Write {A} _.
Arguments Done {A}.
Arguments Crashed {A}.

Definition config (A : Type) : Type := phase A * fs_state.

Definition terminal {A} (p : phase A) : bool :=
  match p with Done | Crashed => true | _ => false end.

(** Steps still to take, at most. *)
Definition measure {A} (p : phase A) : nat :=
  match p with
  | Loop xs _ => length xs + 3
  | Merge _ _ => 2
  | Write _ => 1
  | Done | Crashed => 0
  end.

(** The configuration a finished run ends in. *)
Definition final_config {A} (r : fs_state * bool) : config A :=
  (if r.2 then Done else Crashed, r.1).

Section Machine.
Context {A : Type} (build : A → option (string * verb_record)).

(** ** The steps of one script *)

Inductive step : config A → config A → Prop :=
  | step_build x xs nf s n r :
      build x = Some (n, r) →
      step (Loop (x :: xs) nf, s) (Loop xs (nf ++ [n]), write_doc s n r)
  | step_build_raise x xs nf s :
      build x = None →
      step (Loop (x :: xs) nf, s) (Crashed, s)
  | step_read nf s :
      step (Loop [] nf, s) (Merge (index s) nf, s)
  | step_merge f nf files s :
      merge_index f nf = Some files →
      step (Merge f nf, s) (Write files, s)
  | step_merge_raise f nf s :
      merge_index f nf = None →
      step (Merge f nf, s) (Crashed, s)
  | step_write files s :
      step (Write files, s) (Done, {| documents := documents s; index := index_of files |}).

Definition step_fn (c : config A) : option (config A) :=
  match c with
  | (Loop (x :: xs) nf, s) =>
      Some (match build x with
            | Some (n, r) => (Loop xs (nf ++ [n]), write_doc s n r)
            | None => (Crashed, s)
            end)
  | (Loop [] nf, s) => Some (Merge (index s) nf, s)
  | (Merge f nf, s) =>
      Some (match merge_index f nf with
            | Some files => (Write files, s)
            | None => (Crashed, s)
            end)
  | (Write files, s) => Some (Done, {| documents := documents s; index := index_of files |})
  | (Done, _) | (Crashed, _) => None
  end.

Fixpoint exec (n : nat) (c : config A) : config A :=
  match n with
  | 0 => c
  | S n' => match step_fn c with Some c' => exec n' c' | None => c end
  end.

(** ** The step relation is the step function *)

Lemma step_fn_spec c c' : step c c' ↔ step_fn c = Some c'.
Proof.
  split.
  - destruct 1 as [????? r Hb|???? Hb| |???? Hm|??? Hm|]; simpl; rewrite ?Hb, ?Hm; done.
  - destruct c as [[[|x xs] nf|f nf|files| |] s]; simpl; intros Hc; simplify_eq.
    + constructor.
    + destruct (build x) as [[n r]|] eqn:Hb; simplify_eq; by constructor.
    + destruct (merge_index f nf) eqn:Hm; simplify_eq; by constructor.
    + constructor.
Qed.

Lemma step_det c c1 c2 : step c c1 → step c c2 → c1 = c2.
Proof. rewrite !step_fn_spec. congruence. Qed.

Lemma terminal_step_fn c : terminal c.1 = true ↔ step_fn c = None.
Proof.
  destruct c as [[[|??]?|??|?| |] ?]; simpl;
    repeat (case_match; simpl); split; congruence.
Qed.

Lemma step_measure c c' : step c c' → measure c'.1 < measure c.1.
Proof. destruct 1; simpl; lia. Qed.

Lemma exec_rtc n c : rtc step c (exec n c).
Proof.
  revert c; induction n as [|n IH]; intros c; simpl; [done|].
  destruct (step_fn c) as [c'|] eqn:Hc; [|done].
  eapply rtc_l; [by apply step_fn_spec|apply IH].
Qed.

(** ** The loop as [write_all] *)

(** The loop over [pre ++ rest] is the loop over [pre], whose documents are
    then on disk, followed by the loop over [rest]. *)
Lemma write_all_prefix pre rest s ps :
  mapM build pre = Some ps →
  write_all build (pre ++ rest) s =
    (let '(s', o) := write_all build rest
                       {| documents := ins_all ps (documents s); index := index s |}
     in (s', app ps.*1 <$> o)).
Proof.
  revert s ps; induction pre as [|x pre IH]; intros s ps Hps; simpl in *.
  - injection Hps as <-. destruct s as [d i]. simpl.
    by destruct (write_all build rest _) as [s' [o|]].
  - destruct (build x) as [[n r]|] eqn:Hb; simpl in Hps; [|discriminate].
    destruct (mapM build pre) as [ps'|] eqn:E; simpl in Hps; [|discriminate].
    injection Hps as <-. rewrite (IH _ ps' eq_refl). simpl.
    by destruct (write_all build rest _) as [s' [o|]].
Qed.

(** ** Termination *)

(** [measure] steps are enough fuel for [exec] to reach a final
    configuration. *)
Lemma exec_terminal_le n c : measure c.1 ≤ n → terminal (exec n c).1 = true.
Proof.
  revert c; induction n as [|n IH]; intros c Hn; simpl.
  - destruct c as [[[|??]?|??|?| |] ?]; simpl in *; lia || done.
  - destruct (step_fn c) as [c'|] eqn:Hc.
    + apply IH. apply step_fn_spec, step_measure in Hc. lia.
    + by apply terminal_step_fn.
Qed.

Lemma exec_nsteps n c : ∃ k, k ≤ n ∧ nsteps step k c (exec n c).
Proof.
  revert c; induction n as [|n IH]; intros c; simpl; [exists 0; split; [lia|constructor]|].
  destruct (step_fn c) as [c'|] eqn:Hc; [|exists 0; split; [lia|constructor]].
  destruct (IH c') as (k & Hk & Hs). exists (S k). split; [lia|].
  eapply nsteps_l; [by apply step_fn_spec|exact Hs].
Qed.

(** ** The configurations a run reaches *)

Section Reachable.
Context (verbs : list A) (s0 : fs_state).

(** The deck after the documents [ps] were written over [s0]. *)
Definition deck_after (ps : list (string * verb_record)) : fs_state :=
  {| documents := ins_all ps (documents s0); index := index s0 |}.

(** In the loop, the verbs done so far have their documents on disk and
    their names in [new_files]; the index read is the one of [s0]; the
    files list is the merge of [s0]'s index; a final configuration is the
    outcome of [Writer.run], and a crash leaves [s0]'s index. *)
Definition reach_inv (c : config A) : Prop :=
  match c with
  | (Loop xs nf, s) => ∃ pre ps, verbs = pre ++ xs ∧ mapM build pre = Some ps ∧
                                 nf = ps.*1 ∧ s = deck_after ps
  | (Merge f nf, s) => f = index s0 ∧
                       ∃ ps, mapM build verbs = Some ps ∧ nf = ps.*1 ∧ s = deck_after ps
  | (Write files, s) => ∃ ps, mapM build verbs = Some ps ∧
                              merge_index (index s0) ps.*1 = Some files ∧ s = deck_after ps
  | (Done, s) => run build verbs s0 = (s, true)
  | (Crashed, s) => run build verbs s0 = (s, false) ∧ index s = index s0
  end.

Lemma reach_inv_init : reach_inv (Loop verbs [], s0).
Proof. simpl. exists [], []. split_and!; try done. unfold deck_after. by destruct s0. Qed.

Lemma reach_inv_step c c' : reach_inv c → step c c' → reach_inv c'.
Proof.
  intros Hinv Hs.
  destruct Hs as [x xs nf s n r Hb|x xs nf s Hb|nf s|f nf files s Hm|f nf s Hm|files s];
    simpl in Hinv |- *.
  - destruct Hinv as (pre & ps & -> & Hps & -> & ->).
    exists (pre ++ [x]), (ps ++ [(n, r)]). split_and!.
    + by rewrite <- app_assoc.
    + by apply Dataset.mapM_snoc.
    + by rewrite fmap_app.
    + unfold write_doc, deck_after, ins_all. simpl. by rewrite foldl_app.
  - destruct Hinv as (pre & ps & -> & Hps & -> & ->). split; [|done].
    unfold run. rewrite (write_all_prefix pre (x :: xs) s0 ps Hps). simpl. by rewrite Hb.
  - destruct Hinv as (pre & ps & Hv & Hps & -> & ->). rewrite app_nil_r in Hv. subst pre.
    split; [done|]. eauto.
  - destruct Hinv as (-> & ps & Hps & -> & ->). eauto.
  - destruct Hinv as (-> & ps & Hps & -> & ->). split; [|done].
    unfold run. rewrite (write_all_mapM build verbs s0 ps Hps). cbn [index]. by rewrite Hm.
  - destruct Hinv as (ps & Hps & Hm & ->).
    unfold run. rewrite (write_all_mapM build verbs s0 ps Hps). cbn [index]. by rewrite Hm.
Qed.

Lemma reach_inv_rtc c : rtc step (Loop verbs [], s0) c → reach_inv c.
Proof.
  intros Hr. eapply (rtc_ind_r reach_inv); [apply reach_inv_init| |exact Hr].
  intros y z _ Hyz Hy. by eapply reach_inv_step.
Qed.

Lemma reach_terminal_final c :
  rtc step (Loop verbs [], s0) c → terminal c.1 = true →
  c = final_config (run build verbs s0).
Proof.
  intros Hr%reach_inv_rtc Ht. destruct c as [[| | | |] s]; try discriminate; simpl in Hr.
  - by rewrite Hr.
  - destruct Hr as [Hr _]. by rewrite Hr.
Qed.

(** A run reaches the configuration [Writer.run] describes. *)
Lemma run_reaches_final : rtc step (Loop verbs [], s0) (final_config (run build verbs s0)).
Proof.
  set (c0 := (Loop verbs [], s0) : config A).
  rewrite <- (reach_terminal_final (exec (measure c0.1) c0)); [apply exec_rtc|apply exec_rtc|].
  by apply exec_terminal_le.
Qed.

(** C29: until the final write, [index.json] is the one the run started
    from: a run that dies at any point, in the loop or in the merge, has
    merged nothing into it (spec 5). *)
Theorem machine_index_untouched c :
  rtc step (Loop verbs [], s0) c → c.1 ≠ Done → index c.2 = index s0.
Proof.
  intros Hr%reach_inv_rtc Hd.
  destruct c as [[xs nf|f nf|files| |] s]; simpl in *;
    [destruct Hr as (? & ? & _ & _ & _ & ->)|destruct Hr as (_ & ? & _ & _ & ->)
    |destruct Hr as (? & _ & _ & ->)|done|by destruct Hr]; done.
Qed.

(** A successful merge lists every new name. *)
Lemma merge_index_mem f new files y :
  merge_index f new = Some files → y ∈ map JStr new → mem py_key_eqb y files = true.
Proof.
  intros Hm Hy. destruct f as [| |j].
  - cbn in Hm. injection Hm as <-. by apply mem_JStr_self.
  - done.
  - destruct (merge_index_result (IndexParsed j) new files ltac:(discriminate) Hm) as (_ & _ & Hin).
    by apply Hin.
Qed.

(** C31: a run whose documents all build and whose index merges gets to
    its end: the machine reaches [Done], with every document written and
    [index.json] rewritten with the merged list, which holds the name of
    every document of the run. *)
Theorem run_reaches_done ps files :
  mapM build verbs = Some ps → merge_index (index s0) ps.*1 = Some files →
  ∃ s', rtc step (Loop verbs [], s0) (Done, s') ∧ index s' = index_of files ∧
        documents s' = ins_all ps (documents s0) ∧
        ∀ n, n ∈ ps.*1 → mem py_key_eqb (JStr n) files = true.
Proof.
  intros Hps Hm.
  assert (Hr : run build verbs s0 =
                 ({| documents := ins_all ps (documents s0); index := index_of files |}, true)).
  { unfold run. rewrite (write_all_mapM build verbs s0 ps Hps). cbn [index]. by rewrite Hm. }
  exists {| documents := ins_all ps (documents s0); index := index_of files |}.
  split_and!; [|reflexivity|reflexivity|].
  - pose proof run_reaches_final as H. rewrite Hr in H. exact H.
  - intros n Hn. apply (merge_index_mem _ _ _ _ Hm). by apply list_elem_of_fmap_2.
Qed.

End Reachable.

End Machine.

(** ** Two scripts on one deck

    Two scripts started together (two processes) share the deck; each
    step is a step of one of them.  The spec (section 5) leaves such runs
    unsupported; the theorems below show what goes wrong. *)

Section Interleaving.
Context {A B : Type} (build1 : A → option (string * verb_record))
        (build2 : B → option (string * verb_record)).

Definition cconfig : Type := phase A * phase B * fs_state.

Inductive cstep : cconfig → cconfig → Prop :=
  | cstep_l p1 p1' p2 s s' :
      step build1 (p1, s) (p1', s') → cstep (p1, p2, s) (p1', p2, s')
  | cstep_r p1 p2 p2' s s' :
      step build2 (p2, s) (p2', s') → cstep (p1, p2, s) (p1, p2', s').

(** A scheduler: [true] lets the first script take its next step, [false]
    the second; [None] when the chosen script has already stopped. *)
Fixpoint schedule (sched : list bool) (c : cconfig) : option cconfig :=
  match sched with
  | [] => Some c
  | b :: sched' =>
      let '(p1, p2, s) := c in
      c' ← (if b then (λ c1 : config A, (c1.1, p2, c1.2)) <$> step_fn build1 (p1, s)
            else (λ c2 : config B, (p1, c2.1, c2.2)) <$> step_fn build2 (p2, s));
      schedule sched' c'
  end.

Lemma schedule_rtc sched c c' : schedule sched c = Some c' → rtc cstep c c'.
Proof.
  revert c; induction sched as [|b sched IH]; intros [[p1 p2] s] Hs; cbn [schedule] in Hs.
  - by injection Hs as <-.
  - destruct b; [destruct (step_fn build1 (p1, s)) as [[q s']|] eqn:E
                |destruct (step_fn build2 (p2, s)) as [[q s']|] eqn:E];
      cbn in Hs; try discriminate;
      (eapply rtc_l; [|exact (IH _ Hs)]); constructor; by apply step_fn_spec.
Qed.

Lemma rtc_lift_l p2 c c' :
  rtc (step build1) c c' → rtc cstep (c.1, p2, c.2) (c'.1, p2, c'.2).
Proof.
  induction 1 as [|[??] [??] ? Hs _ IH]; [done|]. eapply rtc_l; [|exact IH]. by constructor.
Qed.

Lemma rtc_lift_r p1 c c' :
  rtc (step build2) c c' → rtc cstep (p1, c.1, c.2) (p1, c'.1, c'.2).
Proof.
  induction 1 as [|[??] [??] ? Hs _ IH]; [done|]. eapply rtc_l; [|exact IH]. by constructor.
Qed.

(** Running the first script to its end and then the second is one of the
    interleavings: when both runs succeed, it ends on the deck of the two
    runs in sequence. *)
Lemma serial_interleaving v1 v2 s s1 s2 :
  run build1 v1 s = (s1, true) → run build2 v2 s1 = (s2, true) →
  rtc cstep (Loop v1 [], Loop v2 [], s) (Done, Done, s2).
Proof.
  intros H1 H2. etrans.
  - pose proof (rtc_lift_l (Loop v2 []) _ _ (run_reaches_final build1 v1 s)) as H.
    rewrite H1 in H. exact H.
  - pose proof (rtc_lift_r Done _ _ (run_reaches_final build2 v2 s1)) as H.
    rewrite H2 in H. exact H.
Qed.

End Interleaving.

(** The second-conjugation script runs its loop and reads the (missing)
    index; the third-conjugation script does the same; then each merges
    and writes. *)
Definition lost_update_schedule : list bool :=
  repeat true (length Ere.SPEC + 1) ++ repeat false (length Ire.VERBS + 1) ++
  [true; true; false; false].

(** C30: two scripts run at the same time lose index entries.  In the
    interleaving above, the second- and third-conjugation scripts both
    complete on an empty deck and leave their 45 documents on disk, but
    [index.json] lists only the 20 of the script that wrote last, because
    both read the index before either wrote it.  Run one after the other,
    which is also an interleaving, they index all 45. *)
Theorem concurrent_runs_lose_entries :
  (∃ s', rtc (cstep Dataset.ere_build Ire.build_json)
            (Loop Ere.SPEC [], Loop Ire.VERBS [], Dataset.empty_deck) (Done, Done, s') ∧
         size (documents s') = 45 ∧ (length <$> Dataset.index_names s') = Some 20) ∧
  (∃ s', rtc (cstep Dataset.ere_build Ire.build_json)
            (Loop Ere.SPEC [], Loop Ire.VERBS [], Dataset.empty_deck) (Done, Done, s') ∧
         size (documents s') = 45 ∧ (length <$> Dataset.index_names s') = Some 45).
Proof.
  split.
  - set (c := schedule Dataset.ere_build Ire.build_json lost_update_schedule
                (Loop Ere.SPEC [], Loop Ire.VERBS [], Dataset.empty_deck)).
    exists (match c with Some (_, _, s) => s | None => Dataset.empty_deck end).
    split_and!; [apply (schedule_rtc Dataset.ere_build Ire.build_json lost_update_schedule)| |];
      eval_tables.
  - exists (Dataset.run_ire (Dataset.run_ere Dataset.empty_deck).1).1.
    split_and!; [apply (serial_interleaving _ _ _ _ _ (Dataset.run_ere Dataset.empty_deck).1)| |];
      eval_tables.
Qed.

(** The third-conjugation script on a verb it does not configure dies in
    its first iteration, with the index of the empty deck untouched. *)
Lemma machine_index_untouched_witness :
  rtc (step Ire.build_json) (Loop ["dormire"] [], Dataset.empty_deck)
      (Crashed, Dataset.empty_deck) ∧
  index Dataset.empty_deck = IndexMissing.
Proof.
  split; [exact (exec_rtc Ire.build_json 1 (Loop ["dormire"] [], Dataset.empty_deck))|].
  apply (machine_index_untouched Ire.build_json ["dormire"] Dataset.empty_deck
           (Crashed, Dataset.empty_deck));
    [exact (exec_rtc Ire.build_json 1 (Loop ["dormire"] [], Dataset.empty_deck))|discriminate].
Defined.

(** The second-conjugation script from an empty deck gets to its end and
    indexes its 25 documents. *)
Lemma run_reaches_done_witness :
  let ps := default [] (mapM Dataset.ere_build Ere.SPEC) in
  let files := map JStr ps.*1 in
  mapM Dataset.ere_build Ere.SPEC = Some ps ∧
  merge_index (index Dataset.empty_deck) ps.*1 = Some files ∧
  ∃ s', rtc (step Dataset.ere_build) (Loop Ere.SPEC [], Dataset.empty_deck) (Done, s') ∧
        index s' = index_of files ∧ documents s' = ins_all ps (documents Dataset.empty_deck) ∧
        ∀ n, n ∈ ps.*1 → mem py_key_eqb (JStr n) files = true.
Proof.
  intros ps files.
  assert (H1 : mapM Dataset.ere_build Ere.SPEC = Some ps) by (vm_compute; reflexivity).
  assert (H2 : merge_index (index Dataset.empty_deck) ps.*1 = Some files) by reflexivity.
  split_and!; [exact H1|exact H2|].
  exact (run_reaches_done Dataset.ere_build Ere.SPEC Dataset.empty_deck ps files H1 H2).
Defined.

End Run.
