(* ===== verification/Document.v ===== *)
(** * The document a script writes, as a JSON value

    [build_json] builds the dict [data] (lines 173-216 of
    [src/Create2ndGroupVerbs.py], 149-192 of [src/Create3rdGroupVerbs.py],
    376-419 of [src/CreateIrregularVerbs.py]) and hands it to [json.dump].
    [to_json] is that dict as a JSON value, with its keys in the order of
    the literal, for a [verb_record] of [Engine].  [of_json] reads a
    document back as a reader of the interface of spec section 6 does. *)

From stdpp Require Import base list strings gmap.
From S2P Require Import Prelude Engine Writer.

Import Writer.

Module Document.

(** ** The dict [data] *)

Definition jstrs (l : list string) : json := JArr (map JStr l).

Definition to_json (r : verb_record) : json :=
  JObj [
    ("source_lang", JStr (source_lang r));
    ("target_lang", JStr (target_lang r));
    ("source_lemma", JStr (source_lemma r));
    ("target_lemma", JStr (target_lemma r));
    ("meta", JObj [
       ("regularity", JObj [("fr", JStr (regularity_fr r)); ("it", JStr (regularity_it r))]);
       ("auxiliary", JObj [("fr", JStr (auxiliary_fr r)); ("it", JStr (auxiliary_it r))])]);
    ("pronouns", JObj [("fr", jstrs (pronouns_fr r)); ("it", jstrs (pronouns_it r))]);
    ("Indicativo", JObj [
       ("Presente", jstrs (ind_presente r));
       ("Passato prossimo", jstrs (ind_passato_prossimo r));
       ("Imperfetto", jstrs (ind_imperfetto r));
       ("Trapassato prossimo", jstrs (ind_trapassato_prossimo r));
       ("Passato remoto", jstrs (ind_passato_remoto r));
       ("Trapassato remoto", jstrs (ind_trapassato_remoto r));
       ("Futuro semplice", jstrs (ind_futuro_semplice r));
       ("Futuro anteriore", jstrs (ind_futuro_anteriore r))]);
    ("Condizionale", JObj [
       ("Presente", jstrs (cond_presente r));
       ("Passato", jstrs (cond_passato r))]);
    ("Congiuntivo", JObj [
       ("Presente", jstrs (cong_presente r));
       ("Passato", jstrs (cong_passato r));
       ("Imperfetto", jstrs (cong_imperfetto r));
       ("Trapassato", jstrs (cong_trapassato r))]);
    ("Imperativo", JObj [("Presente", jstrs (imp_presente r))]);
    ("Infinito", JObj [
       ("Presente", jstrs (inf_presente r));
       ("Passato", jstrs (inf_passato r))]);
    ("Participio", JObj [
       ("Presente", jstrs (part_presente r));
       ("Passato", jstrs (part_passato r))]);
    ("Gerundio", JObj [
       ("Presente", jstrs (ger_presente r));
       ("Passato", jstrs (ger_passato r))])
  ].

(** ** Reading a document: [d["meta"]["auxiliary"]["it"]] and the like *)

Definition un_str (j : json) : option string := match j with JStr s => Some s | _ => None end.

Definition get_str (kvs : list (string * json)) (k : string) : option string :=
  obj_get kvs k ≫= un_str.

Definition get_obj (kvs : list (string * json)) (k : string) : option (list (string * json)) :=
  match obj_get kvs k with Some (JObj o) => Some o | _ => None end.

Definition get_strs (kvs : list (string * json)) (k : string) : option (list string) :=
  match obj_get kvs k with Some (JArr l) => mapM un_str l | _ => None end.

Definition of_json (j : json) : option verb_record :=
  match j with
  | JObj d =>
      sl ← get_str d "source_lang"; tl ← get_str d "target_lang";
      slem ← get_str d "source_lemma"; tlem ← get_str d "target_lemma";
      meta ← get_obj d "meta";
      reg ← get_obj meta "regularity"; rfr ← get_str reg "fr"; rit ← get_str reg "it";
      aux ← get_obj meta "auxiliary"; afr ← get_str aux "fr"; ait ← get_str aux "it";
      pro ← get_obj d "pronouns"; pfr ← get_strs pro "fr"; pit ← get_strs pro "it";
      ind ← get_obj d "Indicativo";
      i1 ← get_strs ind "Presente"; i2 ← get_strs ind "Passato prossimo";
      i3 ← get_strs ind "Imperfetto"; i4 ← get_strs ind "Trapassato prossimo";
      i5 ← get_strs ind "Passato remoto"; i6 ← get_strs ind "Trapassato remoto";
      i7 ← get_strs ind "Futuro semplice"; i8 ← get_strs ind "Futuro anteriore";
      cnd ← get_obj d "Condizionale";
      c1 ← get_strs cnd "Presente"; c2 ← get_strs cnd "Passato";
      cng ← get_obj d "Congiuntivo";
      g1 ← get_strs cng "Presente"; g2 ← get_strs cng "Passato";
      g3 ← get_strs cng "Imperfetto"; g4 ← get_strs cng "Trapassato";
      imp ← get_obj d "Imperativo"; m1 ← get_strs imp "Presente";
      inf ← get_obj d "Infinito"; f1 ← get_strs inf "Presente"; f2 ← get_strs inf "Passato";
      par ← get_obj d "Participio"; p1 ← get_strs par "Presente"; p2 ← get_strs par "Passato";
      ger ← get_obj d "Gerundio"; e1 ← get_strs ger "Presente"; e2 ← get_strs ger "Passato";
      Some {| source_lang := sl; target_lang := tl; source_lemma := slem; target_lemma := tlem;
              regularity_fr := rfr; regularity_it := rit; auxiliary_fr := afr; auxiliary_it := ait;
              pronouns_fr := pfr; pronouns_it := pit;
              ind_presente := i1; ind_passato_prossimo := i2; ind_imperfetto := i3;
              ind_trapassato_prossimo := i4; ind_passato_remoto := i5;
              ind_trapassato_remoto := i6; ind_futuro_semplice := i7;
              ind_futuro_anteriore := i8; cond_presente := c1; cond_passato := c2;
              cong_presente := g1; cong_passato := g2; cong_imperfetto := g3;
              cong_trapassato := g4; imp_presente := m1; inf_presente := f1;
              inf_passato := f2; part_presente := p1; part_passato := p2;
              ger_presente := e1; ger_passato := e2 |}
  | _ => None
  end.

(** ** Lemmas *)

Lemma mapM_un_str (l : list string) : mapM un_str (map JStr l) = Some l.
Proof. induction l as [|x l IH]; simpl; [done|]. by rewrite IH. Qed.

(** A document holds its record: reading the dict [build_json] dumps
    gives back every field of the record, so no two tenses share a slot of
    the document (the six [Presente] keys are in different moods). *)
Theorem of_json_to_json r : of_json (to_json r) = Some r.
Proof. cbn. rewrite !mapM_un_str. by destruct r. Qed.

End Document.
