(* ===== verification/Disk.v ===== *)
(** * The files of [decks/fr-it] as text

    [Writer] models the deck by the values the scripts hand to [json.dump]
    and get back from [json.load].  This file models the texts themselves.
    A document file holds [Json.dump (Document.to_json r)] (lines 218-220
    of [src/Create2ndGroupVerbs.py]).  [index.json] is missing or holds
    any text; a run reads it with [Json.load] (lines 230-235) and writes
    the text of [{"files": files}] (lines 237-238).  [abs] reads a disk the
    way [Writer] sees it, and [run_text_refines] shows that a run on the
    texts agrees with [Writer.run] on what [abs] reads. *)

From stdpp Require Import base list strings gmap.
From S2P Require Import Prelude Engine Ere Writer Unicode Json Dataset Document.

Import Writer.

Module Disk.

(** ** The disk *)

Record disk := {
  doc_texts : gmap string string;
  index_text : option string
}.

(** [idx = json.load(f)] inside the [try] of lines 230-235: a missing file
    is [FileNotFoundError]; bytes that are not UTF-8 and text that is not
    JSON are exceptions the script dies with. *)
Definition read_index (t : option string) : index_file :=
  match t with
  | None => IndexMissing
  | Some text => match Json.load text with Some j => IndexParsed j | None => IndexMalformed end
  end.

(** A document file as a reader of the deck reads it (spec section 6). *)
Definition read_doc (text : string) : option verb_record := Json.load text ≫= Document.of_json.

(** [open(path, "w")] and [json.dump(data, f, ensure_ascii=False, indent=2)]
    at the end of [build_json]. *)
Definition write_doc_text (d : disk) (name : string) (r : verb_record) : disk :=
  {| doc_texts := <[name := Json.dump (Document.to_json r)]> (doc_texts d);
     index_text := index_text d |}.

(** The loop of lines 224-226. *)
Fixpoint write_all_text {A} (build : A → option (string * verb_record)) (xs : list A)
    (d : disk) : disk * option (list string) :=
  match xs with
  | [] => (d, Some [])
  | x :: xs' =>
      match build x with
      | None => (d, None)
      | Some (name, r) =>
          let '(d', names) := write_all_text build xs' (write_doc_text d name r) in
          (d', (name ::.) <$> names)
      end
  end.

(** One run of a script on the texts (lines 223-238). *)
Definition run_text {A} (build : A → option (string * verb_record)) (verbs : list A)
    (d : disk) : disk * bool :=
  match write_all_text build verbs d with
  | (d', None) => (d', false)
  | (d', Some new_files) =>
      match merge_index (read_index (index_text d')) new_files with
      | None => (d', false)
      | Some files =>
          ({| doc_texts := doc_texts d';
              index_text := Some (Json.dump (JObj [("files", JArr files)])) |}, true)
      end
  end.

(** What [Writer] sees of a disk: the records the document files read as,
    and the index as [json.load] reads it. *)
Definition abs (d : disk) : fs_state :=
  {| documents := omap read_doc (doc_texts d); index := read_index (index_text d) |}.

(** ** Text that [json.dump] can write back *)

Definition record_valid (r : verb_record) : bool := Json.strings_valid (Document.to_json r).

Definition index_file_valid (f : index_file) : bool :=
  match f with IndexParsed j => Json.strings_valid j | _ => true end.

(** What [build] returns for each verb, as long as it returns: a file
    name and a record whose strings are UTF-8. *)
Fixpoint build_valid {A} (build : A → option (string * verb_record)) (xs : list A) : bool :=
  match xs with
  | [] => true
  | x :: xs' =>
      match build x with
      | None => true
      | Some (name, r) => Unicode.utf8_valid name && record_valid r && build_valid build xs'
      end
  end.

(** ** Lemmas *)

Lemma obj_get_elem kvs k v : obj_get kvs k = Some v → ∃ kv, kv ∈ kvs ∧ kv.2 = v.
Proof.
  unfold obj_get.
  assert (G : ∀ acc, foldl (λ acc kv, if String.eqb kv.1 k then Some kv.2 else acc) acc kvs = Some v →
                     acc = Some v ∨ ∃ kv, kv ∈ kvs ∧ kv.2 = v).
  { induction kvs as [|kv kvs IH]; intros acc H; cbn in H; [by left|].
    destruct (IH _ H) as [Ha|(kv' & Hin & Hv)]; [|right; exists kv'; split; [by right|done]].
    destruct (String.eqb kv.1 k); [right; exists kv; split; [left|]; congruence|by left]. }
  intros H. by destruct (G None H) as [?|?].
Qed.

Lemma read_doc_dump_helper r : record_valid r = true → read_doc (Json.dump (Document.to_json r)) = Some r.
Proof. intros Hr. unfold read_doc. rewrite Json.load_dump by done. apply Document.of_json_to_json. Qed.

Lemma abs_write_doc_text d name r :
  record_valid r = true → abs (write_doc_text d name r) = write_doc (abs d) name r.
Proof.
  intros Hr. unfold abs, write_doc_text, write_doc. cbn [doc_texts index_text documents index].
  rewrite omap_insert, read_doc_dump_helper by done. reflexivity.
Qed.

(** The loop on the texts is the loop of [Writer] on what [abs] reads; it
    does not touch [index.json], and the names it returns are UTF-8. *)
Lemma write_all_text_abs {A} (build : A → option (string * verb_record)) xs d :
  build_valid build xs = true →
  (abs (write_all_text build xs d).1, (write_all_text build xs d).2) = write_all build xs (abs d) ∧
  index_text (write_all_text build xs d).1 = index_text d ∧
  default true (forallb Unicode.utf8_valid <$> (write_all_text build xs d).2) = true.
Proof.
  revert d. induction xs as [|x xs IH]; intros d Hv; [done|]. cbn in Hv |- *.
  destruct (build x) as [[name r]|]; [|done].
  apply andb_prop in Hv as [[Hn Hr]%andb_prop Hv].
  destruct (IH (write_doc_text d name r) Hv) as (E & Ei & En).
  rewrite <- abs_write_doc_text, <- E by done.
  destruct (write_all_text build xs (write_doc_text d name r)) as [d' [names|]]; cbn in *;
    [|done]. by rewrite Hn, En.
Qed.

(** The files list a merge returns holds only UTF-8 strings, when the index
    read and the new names do. *)
Lemma merge_index_valid f new files :
  index_file_valid f = true → forallb Unicode.utf8_valid new = true →
  merge_index f new = Some files → forallb Json.strings_valid files = true.
Proof.
  intros Hf Hnew Hm. apply forallb_forall. intros x Hx%list_elem_of_In.
  rewrite forallb_forall in Hnew.
  assert (Hn : ∀ y, y ∈ map JStr new → Json.strings_valid y = true).
  { intros y (z & -> & Hz)%list_elem_of_fmap. apply Hnew, list_elem_of_In, Hz. }
  destruct f as [| |[|?|?|?|?|kvs]]; cbn in Hm; simplify_eq; [by apply Hn|].
  cbn in Hf. rewrite forallb_forall in Hf.
  unfold mbind, option_bind in Hm. repeat case_match; simplify_eq.
  all: apply (fromkeys_incl py_key_eqb py_key_eqb_sym py_key_eqb_trans), elem_of_app in Hx
         as [Hx|Hx]; [|by apply Hn].
  all: try by apply elem_of_nil in Hx.
  destruct (obj_get_elem kvs "files" (JArr l)) as ([k v] & Hin & Hv); [done|]. cbn in Hv. subst v.
  apply list_elem_of_In, Hf, andb_prop in Hin as [_ Hl]. cbn in Hl.
  rewrite forallb_forall in Hl. by apply Hl, list_elem_of_In.
Qed.

(** The text of [{"files": files}] reads back as that index. *)
Lemma read_index_files files :
  forallb Json.strings_valid files = true →
  read_index (Some (Json.dump (JObj [("files", JArr files)]))) = index_of files.
Proof. intros Hf. cbn [read_index]. rewrite Json.load_dump; [done|]. cbn. by rewrite Hf. Qed.

(** Whatever [index.json] holds, the index read has UTF-8 strings:
    [json.load] fails on bytes that are not UTF-8 ([Json.load_valid]). *)
Lemma read_index_valid t : index_file_valid (read_index t) = true.
Proof.
  destruct t as [text|]; [|done]. cbn [read_index].
  destruct (Json.load text) as [j|] eqn:E; [exact (Json.load_valid text j E)|done].
Qed.

Definition empty_disk : disk := {| doc_texts := ∅; index_text := None |}.

(** A run on the files as text is the run of [Writer] on the values they
    hold: [abs] of the disk after the run, and the outcome of the run, are
    what [Writer.run] gives from [abs] of the disk before it, when [build]
    returns UTF-8 names and records.  This holds for any [index.json]
    under the reading of [Json.load], which rejects lone surrogate
    escapes; Python accepts them, and then fails while writing the index
    (see the findings). *)
Lemma run_text_refines {A} (build : A → option (string * verb_record)) verbs d :
  build_valid build verbs = true →
  (abs (run_text build verbs d).1, (run_text build verbs d).2) = run build verbs (abs d).
Proof.
  intros Hv. pose proof (read_index_valid (index_text d)) as Hi. unfold run_text, run.
  destruct (write_all_text_abs build verbs d Hv) as (E & Ei & En).
  destruct (write_all_text build verbs d) as [d' [names|]]; rewrite <- E; cbn [fst snd] in *;
    [|reflexivity].
  cbn in En. change (index (abs d')) with (read_index (index_text d')). rewrite Ei.
  destruct (merge_index (read_index (index_text d)) names) as [files|] eqn:Hm; cbn [fst snd];
    [|reflexivity].
  pose proof (merge_index_valid _ _ _ Hi En Hm) as Hf.
  unfold abs at 1. cbn [doc_texts index_text]. by rewrite read_index_files.
Qed.

Lemma run_text_refines_witness :
  (abs (run_text Dataset.ere_build Ere.SPEC empty_disk).1, (run_text Dataset.ere_build Ere.SPEC empty_disk).2) =
  run Dataset.ere_build Ere.SPEC (abs empty_disk).
Proof. apply run_text_refines; vm_compute; reflexivity. Defined.

End Disk.
