(* ===== verification/Slug.v ===== *)
(** * [ascii_name]: the file name of a French lemma

    [ascii_name] (lines 30-32 of [src/Create2ndGroupVerbs.py]) turns a
    French lemma into a file name.  It applies NFKD normalisation, drops
    every combining character, removes the two apostrophes ’ and ', turns
    spaces into underscores and lowercases.  The script defines it but
    never calls it: every table gives its file names as literals.  The spec
    derives file names with this function (sections 4.5 and 6).

    A Python [str] is here the list of its code points: the UTF-8 bytes of
    a lemma go through [Unicode.decode], and the name through
    [Unicode.encode].  The three [unicodedata] functions the code uses are
    tables generated from Python's [unicodedata] (Unicode 14.0.0).  They
    cover the repertoire [in_repertoire]: U+0000 to U+036F (Latin-1,
    Latin Extended-A and -B, IPA, spacing modifiers, combining diacritical
    marks), the apostrophe U+2019, and the four characters their
    decompositions and lower cases produce.  On a lemma outside it
    [ascii_name] is [None]: the model says nothing there.

    NFKD also puts runs of combining characters in canonical order.  The
    next step drops all of them, so the order does not change the result,
    and [nfkd_cp] decomposes one character at a time. *)

From Stdlib Require Import ZArith.
From stdpp Require Import base list strings.
From S2P Require Import Prelude Unicode Ere Ire Irregular.

Import Unicode.

Module Slug.

Local Open Scope Z_scope.

(** ** Tables of [unicodedata] *)

(** The code points whose NFKD decomposition is not themselves, with their
    full decomposition. *)
Definition NFKD_TABLE : list (Z * list Z) := [
   (0xA0, [0x20]); (0xA8, [0x20; 0x308]); (0xAA, [0x61]); (0xAF, [0x20; 0x304]);
   (0xB2, [0x32]); (0xB3, [0x33]); (0xB4, [0x20; 0x301]); (0xB5, [0x3BC]);
   (0xB8, [0x20; 0x327]); (0xB9, [0x31]); (0xBA, [0x6F]); (0xBC, [0x31; 0x2044; 0x34]);
   (0xBD, [0x31; 0x2044; 0x32]); (0xBE, [0x33; 0x2044; 0x34]); (0xC0, [0x41; 0x300]); (0xC1, [0x41; 0x301]);
   (0xC2, [0x41; 0x302]); (0xC3, [0x41; 0x303]); (0xC4, [0x41; 0x308]); (0xC5, [0x41; 0x30A]);
   (0xC7, [0x43; 0x327]); (0xC8, [0x45; 0x300]); (0xC9, [0x45; 0x301]); (0xCA, [0x45; 0x302]);
   (0xCB, [0x45; 0x308]); (0xCC, [0x49; 0x300]); (0xCD, [0x49; 0x301]); (0xCE, [0x49; 0x302]);
   (0xCF, [0x49; 0x308]); (0xD1, [0x4E; 0x303]); (0xD2, [0x4F; 0x300]); (0xD3, [0x4F; 0x301]);
   (0xD4, [0x4F; 0x302]); (0xD5, [0x4F; 0x303]); (0xD6, [0x4F; 0x308]); (0xD9, [0x55; 0x300]);
   (0xDA, [0x55; 0x301]); (0xDB, [0x55; 0x302]); (0xDC, [0x55; 0x308]); (0xDD, [0x59; 0x301]);
   (0xE0, [0x61; 0x300]); (0xE1, [0x61; 0x301]); (0xE2, [0x61; 0x302]); (0xE3, [0x61; 0x303]);
   (0xE4, [0x61; 0x308]); (0xE5, [0x61; 0x30A]); (0xE7, [0x63; 0x327]); (0xE8, [0x65; 0x300]);
   (0xE9, [0x65; 0x301]); (0xEA, [0x65; 0x302]); (0xEB, [0x65; 0x308]); (0xEC, [0x69; 0x300]);
   (0xED, [0x69; 0x301]); (0xEE, [0x69; 0x302]); (0xEF, [0x69; 0x308]); (0xF1, [0x6E; 0x303]);
   (0xF2, [0x6F; 0x300]); (0xF3, [0x6F; 0x301]); (0xF4, [0x6F; 0x302]); (0xF5, [0x6F; 0x303]);
   (0xF6, [0x6F; 0x308]); (0xF9, [0x75; 0x300]); (0xFA, [0x75; 0x301]); (0xFB, [0x75; 0x302]);
   (0xFC, [0x75; 0x308]); (0xFD, [0x79; 0x301]); (0xFF, [0x79; 0x308]); (0x100, [0x41; 0x304]);
   (0x101, [0x61; 0x304]); (0x102, [0x41; 0x306]); (0x103, [0x61; 0x306]); (0x104, [0x41; 0x328]);
   (0x105, [0x61; 0x328]); (0x106, [0x43; 0x301]); (0x107, [0x63; 0x301]); (0x108, [0x43; 0x302]);
   (0x109, [0x63; 0x302]); (0x10A, [0x43; 0x307]); (0x10B, [0x63; 0x307]); (0x10C, [0x43; 0x30C]);
   (0x10D, [0x63; 0x30C]); (0x10E, [0x44; 0x30C]); (0x10F, [0x64; 0x30C]); (0x112, [0x45; 0x304]);
   (0x113, [0x65; 0x304]); (0x114, [0x45; 0x306]); (0x115, [0x65; 0x306]); (0x116, [0x45; 0x307]);
   (0x117, [0x65; 0x307]); (0x118, [0x45; 0x328]); (0x119, [0x65; 0x328]); (0x11A, [0x45; 0x30C]);
   (0x11B, [0x65; 0x30C]); (0x11C, [0x47; 0x302]); (0x11D, [0x67; 0x302]); (0x11E, [0x47; 0x306]);
   (0x11F, [0x67; 0x306]); (0x120, [0x47; 0x307]); (0x121, [0x67; 0x307]); (0x122, [0x47; 0x327]);
   (0x123, [0x67; 0x327]); (0x124, [0x48; 0x302]); (0x125, [0x68; 0x302]); (0x128, [0x49; 0x303]);
   (0x129, [0x69; 0x303]); (0x12A, [0x49; 0x304]); (0x12B, [0x69; 0x304]); (0x12C, [0x49; 0x306]);
   (0x12D, [0x69; 0x306]); (0x12E, [0x49; 0x328]); (0x12F, [0x69; 0x328]); (0x130, [0x49; 0x307]);
   (0x132, [0x49; 0x4A]); (0x133, [0x69; 0x6A]); (0x134, [0x4A; 0x302]); (0x135, [0x6A; 0x302]);
   (0x136, [0x4B; 0x327]); (0x137, [0x6B; 0x327]); (0x139, [0x4C; 0x301]); (0x13A, [0x6C; 0x301]);
   (0x13B, [0x4C; 0x327]); (0x13C, [0x6C; 0x327]); (0x13D, [0x4C; 0x30C]); (0x13E, [0x6C; 0x30C]);
   (0x13F, [0x4C; 0xB7]); (0x140, [0x6C; 0xB7]); (0x143, [0x4E; 0x301]); (0x144, [0x6E; 0x301]);
   (0x145, [0x4E; 0x327]); (0x146, [0x6E; 0x327]); (0x147, [0x4E; 0x30C]); (0x148, [0x6E; 0x30C]);
   (0x149, [0x2BC; 0x6E]); (0x14C, [0x4F; 0x304]); (0x14D, [0x6F; 0x304]); (0x14E, [0x4F; 0x306]);
   (0x14F, [0x6F; 0x306]); (0x150, [0x4F; 0x30B]); (0x151, [0x6F; 0x30B]); (0x154, [0x52; 0x301]);
   (0x155, [0x72; 0x301]); (0x156, [0x52; 0x327]); (0x157, [0x72; 0x327]); (0x158, [0x52; 0x30C]);
   (0x159, [0x72; 0x30C]); (0x15A, [0x53; 0x301]); (0x15B, [0x73; 0x301]); (0x15C, [0x53; 0x302]);
   (0x15D, [0x73; 0x302]); (0x15E, [0x53; 0x327]); (0x15F, [0x73; 0x327]); (0x160, [0x53; 0x30C]);
   (0x161, [0x73; 0x30C]); (0x162, [0x54; 0x327]); (0x163, [0x74; 0x327]); (0x164, [0x54; 0x30C]);
   (0x165, [0x74; 0x30C]); (0x168, [0x55; 0x303]); (0x169, [0x75; 0x303]); (0x16A, [0x55; 0x304]);
   (0x16B, [0x75; 0x304]); (0x16C, [0x55; 0x306]); (0x16D, [0x75; 0x306]); (0x16E, [0x55; 0x30A]);
   (0x16F, [0x75; 0x30A]); (0x170, [0x55; 0x30B]); (0x171, [0x75; 0x30B]); (0x172, [0x55; 0x328]);
   (0x173, [0x75; 0x328]); (0x174, [0x57; 0x302]); (0x175, [0x77; 0x302]); (0x176, [0x59; 0x302]);
   (0x177, [0x79; 0x302]); (0x178, [0x59; 0x308]); (0x179, [0x5A; 0x301]); (0x17A, [0x7A; 0x301]);
   (0x17B, [0x5A; 0x307]); (0x17C, [0x7A; 0x307]); (0x17D, [0x5A; 0x30C]); (0x17E, [0x7A; 0x30C]);
   (0x17F, [0x73]); (0x1A0, [0x4F; 0x31B]); (0x1A1, [0x6F; 0x31B]); (0x1AF, [0x55; 0x31B]);
   (0x1B0, [0x75; 0x31B]); (0x1C4, [0x44; 0x5A; 0x30C]); (0x1C5, [0x44; 0x7A; 0x30C]); (0x1C6, [0x64; 0x7A; 0x30C]);
   (0x1C7, [0x4C; 0x4A]); (0x1C8, [0x4C; 0x6A]); (0x1C9, [0x6C; 0x6A]); (0x1CA, [0x4E; 0x4A]);
   (0x1CB, [0x4E; 0x6A]); (0x1CC, [0x6E; 0x6A]); (0x1CD, [0x41; 0x30C]); (0x1CE, [0x61; 0x30C]);
   (0x1CF, [0x49; 0x30C]); (0x1D0, [0x69; 0x30C]); (0x1D1, [0x4F; 0x30C]); (0x1D2, [0x6F; 0x30C]);
   (0x1D3, [0x55; 0x30C]); (0x1D4, [0x75; 0x30C]); (0x1D5, [0x55; 0x308; 0x304]); (0x1D6, [0x75; 0x308; 0x304]);
   (0x1D7, [0x55; 0x308; 0x301]); (0x1D8, [0x75; 0x308; 0x301]); (0x1D9, [0x55; 0x308; 0x30C]); (0x1DA, [0x75; 0x308; 0x30C]);
   (0x1DB, [0x55; 0x308; 0x300]); (0x1DC, [0x75; 0x308; 0x300]); (0x1DE, [0x41; 0x308; 0x304]); (0x1DF, [0x61; 0x308; 0x304]);
   (0x1E0, [0x41; 0x307; 0x304]); (0x1E1, [0x61; 0x307; 0x304]); (0x1E2, [0xC6; 0x304]); (0x1E3, [0xE6; 0x304]);
   (0x1E6, [0x47; 0x30C]); (0x1E7, [0x67; 0x30C]); (0x1E8, [0x4B; 0x30C]); (0x1E9, [0x6B; 0x30C]);
   (0x1EA, [0x4F; 0x328]); (0x1EB, [0x6F; 0x328]); (0x1EC, [0x4F; 0x328; 0x304]); (0x1ED, [0x6F; 0x328; 0x304]);
   (0x1EE, [0x1B7; 0x30C]); (0x1EF, [0x292; 0x30C]); (0x1F0, [0x6A; 0x30C]); (0x1F1, [0x44; 0x5A]);
   (0x1F2, [0x44; 0x7A]); (0x1F3, [0x64; 0x7A]); (0x1F4, [0x47; 0x301]); (0x1F5, [0x67; 0x301]);
   (0x1F8, [0x4E; 0x300]); (0x1F9, [0x6E; 0x300]); (0x1FA, [0x41; 0x30A; 0x301]); (0x1FB, [0x61; 0x30A; 0x301]);
   (0x1FC, [0xC6; 0x301]); (0x1FD, [0xE6; 0x301]); (0x1FE, [0xD8; 0x301]); (0x1FF, [0xF8; 0x301]);
   (0x200, [0x41; 0x30F]); (0x201, [0x61; 0x30F]); (0x202, [0x41; 0x311]); (0x203, [0x61; 0x311]);
   (0x204, [0x45; 0x30F]); (0x205, [0x65; 0x30F]); (0x206, [0x45; 0x311]); (0x207, [0x65; 0x311]);
   (0x208, [0x49; 0x30F]); (0x209, [0x69; 0x30F]); (0x20A, [0x49; 0x311]); (0x20B, [0x69; 0x311]);
   (0x20C, [0x4F; 0x30F]); (0x20D, [0x6F; 0x30F]); (0x20E, [0x4F; 0x311]); (0x20F, [0x6F; 0x311]);
   (0x210, [0x52; 0x30F]); (0x211, [0x72; 0x30F]); (0x212, [0x52; 0x311]); (0x213, [0x72; 0x311]);
   (0x214, [0x55; 0x30F]); (0x215, [0x75; 0x30F]); (0x216, [0x55; 0x311]); (0x217, [0x75; 0x311]);
   (0x218, [0x53; 0x326]); (0x219, [0x73; 0x326]); (0x21A, [0x54; 0x326]); (0x21B, [0x74; 0x326]);
   (0x21E, [0x48; 0x30C]); (0x21F, [0x68; 0x30C]); (0x226, [0x41; 0x307]); (0x227, [0x61; 0x307]);
   (0x228, [0x45; 0x327]); (0x229, [0x65; 0x327]); (0x22A, [0x4F; 0x308; 0x304]); (0x22B, [0x6F; 0x308; 0x304]);
   (0x22C, [0x4F; 0x303; 0x304]); (0x22D, [0x6F; 0x303; 0x304]); (0x22E, [0x4F; 0x307]); (0x22F, [0x6F; 0x307]);
   (0x230, [0x4F; 0x307; 0x304]); (0x231, [0x6F; 0x307; 0x304]); (0x232, [0x59; 0x304]); (0x233, [0x79; 0x304]);
   (0x2B0, [0x68]); (0x2B1, [0x266]); (0x2B2, [0x6A]); (0x2B3, [0x72]);
   (0x2B4, [0x279]); (0x2B5, [0x27B]); (0x2B6, [0x281]); (0x2B7, [0x77]);
   (0x2B8, [0x79]); (0x2D8, [0x20; 0x306]); (0x2D9, [0x20; 0x307]); (0x2DA, [0x20; 0x30A]);
   (0x2DB, [0x20; 0x328]); (0x2DC, [0x20; 0x303]); (0x2DD, [0x20; 0x30B]); (0x2E0, [0x263]);
   (0x2E1, [0x6C]); (0x2E2, [0x73]); (0x2E3, [0x78]); (0x2E4, [0x295]);
   (0x340, [0x300]); (0x341, [0x301]); (0x343, [0x313]); (0x344, [0x308; 0x301])].

(** The code points whose canonical combining class is not 0, as ranges. *)
Definition COMBINING_RANGES : list (Z * Z) := [(0x300, 0x34E); (0x350, 0x36F)].

(** [str.lower] on the code points whose lower case is another one. *)
Definition LOWER_TABLE : list (Z * Z) := [
   (0x41, 0x61); (0x42, 0x62); (0x43, 0x63); (0x44, 0x64); (0x45, 0x65); (0x46, 0x66);
   (0x47, 0x67); (0x48, 0x68); (0x49, 0x69); (0x4A, 0x6A); (0x4B, 0x6B); (0x4C, 0x6C);
   (0x4D, 0x6D); (0x4E, 0x6E); (0x4F, 0x6F); (0x50, 0x70); (0x51, 0x71); (0x52, 0x72);
   (0x53, 0x73); (0x54, 0x74); (0x55, 0x75); (0x56, 0x76); (0x57, 0x77); (0x58, 0x78);
   (0x59, 0x79); (0x5A, 0x7A); (0xC0, 0xE0); (0xC1, 0xE1); (0xC2, 0xE2); (0xC3, 0xE3);
   (0xC4, 0xE4); (0xC5, 0xE5); (0xC6, 0xE6); (0xC7, 0xE7); (0xC8, 0xE8); (0xC9, 0xE9);
   (0xCA, 0xEA); (0xCB, 0xEB); (0xCC, 0xEC); (0xCD, 0xED); (0xCE, 0xEE); (0xCF, 0xEF);
   (0xD0, 0xF0); (0xD1, 0xF1); (0xD2, 0xF2); (0xD3, 0xF3); (0xD4, 0xF4); (0xD5, 0xF5);
   (0xD6, 0xF6); (0xD8, 0xF8); (0xD9, 0xF9); (0xDA, 0xFA); (0xDB, 0xFB); (0xDC, 0xFC);
   (0xDD, 0xFD); (0xDE, 0xFE); (0x100, 0x101); (0x102, 0x103); (0x104, 0x105); (0x106, 0x107);
   (0x108, 0x109); (0x10A, 0x10B); (0x10C, 0x10D); (0x10E, 0x10F); (0x110, 0x111); (0x112, 0x113);
   (0x114, 0x115); (0x116, 0x117); (0x118, 0x119); (0x11A, 0x11B); (0x11C, 0x11D); (0x11E, 0x11F);
   (0x120, 0x121); (0x122, 0x123); (0x124, 0x125); (0x126, 0x127); (0x128, 0x129); (0x12A, 0x12B);
   (0x12C, 0x12D); (0x12E, 0x12F); (0x132, 0x133); (0x134, 0x135); (0x136, 0x137); (0x139, 0x13A);
   (0x13B, 0x13C); (0x13D, 0x13E); (0x13F, 0x140); (0x141, 0x142); (0x143, 0x144); (0x145, 0x146);
   (0x147, 0x148); (0x14A, 0x14B); (0x14C, 0x14D); (0x14E, 0x14F); (0x150, 0x151); (0x152, 0x153);
   (0x154, 0x155); (0x156, 0x157); (0x158, 0x159); (0x15A, 0x15B); (0x15C, 0x15D); (0x15E, 0x15F);
   (0x160, 0x161); (0x162, 0x163); (0x164, 0x165); (0x166, 0x167); (0x168, 0x169); (0x16A, 0x16B);
   (0x16C, 0x16D); (0x16E, 0x16F); (0x170, 0x171); (0x172, 0x173); (0x174, 0x175); (0x176, 0x177);
   (0x178, 0xFF); (0x179, 0x17A); (0x17B, 0x17C); (0x17D, 0x17E); (0x181, 0x253); (0x182, 0x183);
   (0x184, 0x185); (0x186, 0x254); (0x187, 0x188); (0x189, 0x256); (0x18A, 0x257); (0x18B, 0x18C);
   (0x18E, 0x1DD); (0x18F, 0x259); (0x190, 0x25B); (0x191, 0x192); (0x193, 0x260); (0x194, 0x263);
   (0x196, 0x269); (0x197, 0x268); (0x198, 0x199); (0x19C, 0x26F); (0x19D, 0x272); (0x19F, 0x275);
   (0x1A0, 0x1A1); (0x1A2, 0x1A3); (0x1A4, 0x1A5); (0x1A6, 0x280); (0x1A7, 0x1A8); (0x1A9, 0x283);
   (0x1AC, 0x1AD); (0x1AE, 0x288); (0x1AF, 0x1B0); (0x1B1, 0x28A); (0x1B2, 0x28B); (0x1B3, 0x1B4);
   (0x1B5, 0x1B6); (0x1B7, 0x292); (0x1B8, 0x1B9); (0x1BC, 0x1BD); (0x1C4, 0x1C6); (0x1C5, 0x1C6);
   (0x1C7, 0x1C9); (0x1C8, 0x1C9); (0x1CA, 0x1CC); (0x1CB, 0x1CC); (0x1CD, 0x1CE); (0x1CF, 0x1D0);
   (0x1D1, 0x1D2); (0x1D3, 0x1D4); (0x1D5, 0x1D6); (0x1D7, 0x1D8); (0x1D9, 0x1DA); (0x1DB, 0x1DC);
   (0x1DE, 0x1DF); (0x1E0, 0x1E1); (0x1E2, 0x1E3); (0x1E4, 0x1E5); (0x1E6, 0x1E7); (0x1E8, 0x1E9);
   (0x1EA, 0x1EB); (0x1EC, 0x1ED); (0x1EE, 0x1EF); (0x1F1, 0x1F3); (0x1F2, 0x1F3); (0x1F4, 0x1F5);
   (0x1F6, 0x195); (0x1F7, 0x1BF); (0x1F8, 0x1F9); (0x1FA, 0x1FB); (0x1FC, 0x1FD); (0x1FE, 0x1FF);
   (0x200, 0x201); (0x202, 0x203); (0x204, 0x205); (0x206, 0x207); (0x208, 0x209); (0x20A, 0x20B);
   (0x20C, 0x20D); (0x20E, 0x20F); (0x210, 0x211); (0x212, 0x213); (0x214, 0x215); (0x216, 0x217);
   (0x218, 0x219); (0x21A, 0x21B); (0x21C, 0x21D); (0x21E, 0x21F); (0x220, 0x19E); (0x222, 0x223);
   (0x224, 0x225); (0x226, 0x227); (0x228, 0x229); (0x22A, 0x22B); (0x22C, 0x22D); (0x22E, 0x22F);
   (0x230, 0x231); (0x232, 0x233); (0x23A, 0x2C65); (0x23B, 0x23C); (0x23D, 0x19A); (0x23E, 0x2C66);
   (0x241, 0x242); (0x243, 0x180); (0x244, 0x289); (0x245, 0x28C); (0x246, 0x247); (0x248, 0x249);
   (0x24A, 0x24B); (0x24C, 0x24D); (0x24E, 0x24F)].

Definition lookup_z {B} (t : list (Z * B)) (c : Z) : option B :=
  snd <$> List.find (λ e, e.1 =? c) t.

Definition in_repertoire (c : Z) : bool :=
  ((0 <=? c) && (c <? 0x370)) || bool_decide (c ∈ [0x3BC; 0x2019; 0x2044; 0x2C65; 0x2C66]).

(** [unicodedata.normalize("NFKD", _)] on one code point. *)
Definition nfkd_cp (c : Z) : list Z := default [c] (lookup_z NFKD_TABLE c).

(** [unicodedata.combining(c)] is not 0. *)
Definition combining (c : Z) : bool :=
  existsb (λ r, (r.1 <=? c) && (c <=? r.2)) COMBINING_RANGES.

Definition lower_cp (c : Z) : Z := default c (lookup_z LOWER_TABLE c).

(** [s.replace(old, new)] where [old] is one code point. *)
Definition replace_cp (old : Z) (new : list Z) (cps : list Z) : list Z :=
  flat_map (λ c, if c =? old then new else [c]) cps.

(** ** [ascii_name] *)

Definition ascii_name (s : string) : option string :=
  cps ← decode s;
  if forallb in_repertoire cps then
    let n := flat_map nfkd_cp cps in
    let kept := List.filter (λ c, negb (combining c)) n in
    let r := replace_cp 0x20 [0x5F] (replace_cp 0x27 [] (replace_cp 0x2019 [] kept)) in
    Some (encode (map lower_cp r))
  else None.

(** ** One code point at a time *)

(** The name made of one code point of the lemma. *)
Definition slug_cp (c : Z) : list Z :=
  map lower_cp (replace_cp 0x20 [0x5F] (replace_cp 0x27 [] (replace_cp 0x2019 []
    (List.filter (λ c, negb (combining c)) (nfkd_cp c))))).

Definition REPERTOIRE : list Z := seqZ 0 0x370 ++ [0x3BC; 0x2019; 0x2044; 0x2C65; 0x2C66].

(** What a code point of a name is: no combining mark, no space, no
    apostrophe, its own lower case, a scalar value of the repertoire. *)
Definition slug_char (y : Z) : bool :=
  negb (combining y) && negb (y =? 0x20) && negb (y =? 0x27) && negb (y =? 0x2019) &&
  (lower_cp y =? y) && valid_cp y && in_repertoire y.

(** The name of one code point is made of name characters, and is its
    own name. *)
Definition slug_cp_ok (c : Z) : bool :=
  forallb slug_char (slug_cp c) && bool_decide (flat_map slug_cp (slug_cp c) = slug_cp c).

Lemma slug_cp_all : forallb slug_cp_ok REPERTOIRE = true.
Proof. vm_compute. reflexivity. Qed.

Lemma in_repertoire_elem c : in_repertoire c = true → c ∈ REPERTOIRE.
Proof.
  unfold in_repertoire, REPERTOIRE. rewrite elem_of_app.
  intros [[H0 H1]%andb_prop|H]%orb_prop.
  - left. apply elem_of_seqZ. apply Z.leb_le in H0. apply Z.ltb_lt in H1. lia.
  - right. by apply bool_decide_eq_true in H.
Qed.

Lemma slug_cp_spec c :
  in_repertoire c = true →
  Forall (λ y, slug_char y = true) (slug_cp c) ∧ flat_map slug_cp (slug_cp c) = slug_cp c.
Proof.
  intros Hc%in_repertoire_elem.
  pose proof (proj1 (forallb_forall _ _) slug_cp_all c (proj1 (list_elem_of_In _ _) Hc)) as Hok.
  apply andb_prop in Hok as [Hall Hid%bool_decide_eq_true]. split; [|done].
  apply Forall_forall. intros y Hy. rewrite forallb_forall in Hall. by apply Hall, list_elem_of_In.
Qed.

Lemma slug_char_spec y :
  slug_char y = true ↔
  combining y = false ∧ y ≠ 0x20 ∧ y ≠ 0x27 ∧ y ≠ 0x2019 ∧ lower_cp y = y ∧
  valid_cp y = true ∧ in_repertoire y = true.
Proof.
  unfold slug_char. rewrite !andb_true_iff, !negb_true_iff, !Z.eqb_neq, Z.eqb_eq.
  destruct (combining y); naive_solver.
Qed.

(** The pipeline of [ascii_name] is the names of the code points, one after
    the other. *)
Lemma pipeline_flat cps :
  map lower_cp (replace_cp 0x20 [0x5F] (replace_cp 0x27 [] (replace_cp 0x2019 []
    (List.filter (λ c, negb (combining c)) (flat_map nfkd_cp cps))))) = flat_map slug_cp cps.
Proof.
  induction cps as [|c cps IH]; [done|]. cbn [flat_map].
  unfold replace_cp in *. by rewrite List.filter_app, !List.flat_map_app, map_app, IH.
Qed.

Lemma ascii_name_Some s t :
  ascii_name s = Some t →
  ∃ cps, decode s = Some cps ∧ forallb in_repertoire cps = true ∧ t = encode (flat_map slug_cp cps).
Proof.
  unfold ascii_name. destruct (decode s) as [cps|]; [|done]. cbn.
  destruct (forallb in_repertoire cps) eqn:Hr; [|done]. intros [= <-].
  exists cps. by rewrite pipeline_flat.
Qed.

Lemma Forall_flat_map {A B} (P : B → Prop) (f : A → list B) l :
  Forall (λ x, Forall P (f x)) l → Forall P (flat_map f l).
Proof. induction 1; [constructor|]. cbn. by apply Forall_app. Qed.

Lemma slug_chars cps :
  forallb in_repertoire cps = true → Forall (λ y, slug_char y = true) (flat_map slug_cp cps).
Proof.
  intros Hr. apply Forall_flat_map, Forall_forall. intros c Hc.
  apply slug_cp_spec. rewrite forallb_forall in Hr. by apply Hr, list_elem_of_In.
Qed.

Lemma slug_idem cps :
  forallb in_repertoire cps = true → flat_map slug_cp (flat_map slug_cp cps) = flat_map slug_cp cps.
Proof.
  induction cps as [|c cps IH]; intros Hr; [done|]. cbn [flat_map forallb] in Hr |- *.
  apply andb_prop in Hr as [Hc Hr]. by rewrite List.flat_map_app, (proj2 (slug_cp_spec c Hc)), IH.
Qed.

(** The code points of a name, and that the name decodes to them. *)
Lemma ascii_name_chars s t :
  ascii_name s = Some t →
  ∃ cps, decode t = Some cps ∧ Forall (λ y, slug_char y = true) cps.
Proof.
  intros (cps & _ & Hr & ->)%ascii_name_Some. pose proof (slug_chars cps Hr) as Hc.
  exists (flat_map slug_cp cps). split; [|done].
  apply decode_encode. eapply Forall_impl; [exact Hc|]. by intros y (_&_&_&_&_&?&_)%slug_char_spec.
Qed.

(** [ascii_name] is idempotent: a name is its own name. *)
Theorem ascii_name_idempotent s t : ascii_name s = Some t → ascii_name t = Some t.
Proof.
  intros (cps & _ & Hr & ->)%ascii_name_Some.
  pose proof (slug_chars cps Hr) as Hc.
  unfold ascii_name. rewrite decode_encode by (eapply Forall_impl; [exact Hc|]; by intros y (_&_&_&_&_&?&_)%slug_char_spec).
  cbn. replace (forallb in_repertoire (flat_map slug_cp cps)) with true.
  - by rewrite pipeline_flat, slug_idem.
  - symmetry. apply forallb_forall. intros y Hy%list_elem_of_In.
    rewrite Forall_forall in Hc. by apply Hc, slug_char_spec in Hy as (_&_&_&_&_&_&?).
Qed.

(** ** Properties *)

(** C18: [ascii_name] gives what spec sections 4.5 and 6 ask of a file
    name: no diacritic (no combining character is left), no apostrophe
    (neither ’ nor '), no space (spaces became underscores), and every
    character its own lower case.  The name is valid UTF-8. *)
Theorem ascii_name_slug s t :
  ascii_name s = Some t →
  ∃ cps, decode t = Some cps ∧
         Forall (λ c, combining c = false ∧ c ≠ 0x20 ∧ c ≠ 0x27 ∧ c ≠ 0x2019 ∧ lower_cp c = c) cps.
Proof.
  intros (cps & Hd & Hc)%ascii_name_chars. exists cps. split; [done|].
  eapply Forall_impl; [exact Hc|]. intros y Hy%slug_char_spec. naive_solver.
Qed.

Lemma ascii_name_slug_witness :
  ascii_name "S’Asseoir Près" = Some "sasseoir_pres" ∧
  ∃ cps, decode "sasseoir_pres" = Some cps ∧
         Forall (λ c, combining c = false ∧ c ≠ 0x20 ∧ c ≠ 0x27 ∧ c ≠ 0x2019 ∧ lower_cp c = c) cps.
Proof.
  split; [vm_compute; reflexivity|].
  apply (ascii_name_slug "S’Asseoir Près"). vm_compute. reflexivity.
Defined.

Lemma Forall_of_forallb {A} (P : A → Prop) `{∀ x, Decision (P x)} l :
  forallb (λ x, bool_decide (P x)) l = true → Forall P l.
Proof.
  intros Hl. apply Forall_forall. intros x Hx. rewrite forallb_forall in Hl.
  apply (bool_decide_eq_true_1 (P x)), Hl, list_elem_of_In, Hx.
Qed.

(** C11: the file names of the tables against [ascii_name] of the French
    lemmas.  The second- and third-conjugation tables agree with it; the
    irregular table differs on two entries, whose lemmas hold a
    parenthesis that [ascii_name] keeps. *)
Theorem ascii_name_tables :
  Forall (λ e, ascii_name e.2.1.1 = Some e.2.1.2) Ere.SPEC ∧
  Forall (λ e, ascii_name e.2.1 = Some e.2.2) Ire.FR_MAP ∧
  filter (λ e, ascii_name e.2.1 ≠ Some e.2.2) Irregular.FR_MAP =
    [("trattenere", ("retenir (trattenere)", "retenir_trattenere"));
     ("rimanere", ("rester (rimanere)", "rester_rimanere"))] ∧
  ascii_name "retenir (trattenere)" = Some "retenir_(trattenere)" ∧
  ascii_name "rester (rimanere)" = Some "rester_(rimanere)".
Proof.
  split_and!.
  - apply (Forall_of_forallb (λ e : string * (string * string * string), ascii_name e.2.1.1 = Some e.2.1.2)).
    vm_compute. reflexivity.
  - apply (Forall_of_forallb (λ e : string * (string * string), ascii_name e.2.1 = Some e.2.2)).
    vm_compute. reflexivity.
  - vm_compute. reflexivity.
  - vm_compute. reflexivity.
  - vm_compute. reflexivity.
Qed.

End Slug.
